(** * Calorie goals and nutrition summaries

    A model of the calculator page and of the history page of the
    meal-tracking application (CaloriesCalculatorPage and History in
    src/src/components/NutritionResults.tsx), and the properties of
    the calorie engine, the goal store and the nutrition summary.

    JavaScript numbers are modelled by exact rationals with one more
    value, NaN.  The rounding of IEEE-754 doubles, the infinities and
    the negative zero are not modelled. *)

From Stdlib Require Import ZArith QArith Qround Bool List String Ascii Lia.
From Stdlib Require Import DecimalString Lqa.
From Stdlib Require Import Permutation.
Import ListNotations.

Local Open Scope string_scope.
Local Open Scope Z_scope.

(* ================================================================= *)
(** ** JavaScript values used by the pages *)

Module JS.

(** A number: NaN or an exact rational. *)
Inductive number : Type :=
| NaN
| Num (q : Q).
Arguments Num q%_Q.

Definition lift2 (f : Q -> Q -> Q) (x y : number) : number :=
  match x, y with
  | Num a, Num b => Num (f a b)
  | _, _ => NaN
  end.

Definition add : number -> number -> number := lift2 Qplus.
Definition sub : number -> number -> number := lift2 Qminus.
Definition mul : number -> number -> number := lift2 Qmult.

(** Comparisons: every comparison with NaN is false. *)
Definition Qltb (a b : Q) : bool := negb (Qle_bool b a).

Definition lt (x y : number) : bool :=
  match x, y with
  | Num a, Num b => Qltb a b
  | _, _ => false
  end.

Definition le (x y : number) : bool :=
  match x, y with
  | Num a, Num b => Qle_bool a b
  | _, _ => false
  end.

Definition gt (x y : number) : bool := lt y x.
Definition ge (x y : number) : bool := le y x.

Definition isNaN (x : number) : bool :=
  match x with NaN => true | Num _ => false end.

(** [!x] on a number: NaN and 0 are falsy. *)
Definition not_number (x : number) : bool :=
  match x with
  | NaN => true
  | Num a => Qeq_bool a 0
  end.

(** [!s] on a string: the empty string is falsy. *)
Definition not_string (s : string) : bool :=
  match s with EmptyString => true | String _ _ => false end.

(** [Math.round]: the nearest integer, halves going up. *)
Definition Math_round (x : number) : number :=
  match x with
  | NaN => NaN
  | Num a => Num (inject_Z (Qfloor (a + (1 # 2))))
  end.

Definition of_Z (z : Z) : number := Num (inject_Z z).

(** *** Reading numbers from text

    The form fields of both pages are number fields, which hold either
    the empty string or a decimal numeral: an optional sign, digits
    with an optional fraction, and an optional exponent.  The three
    readers below follow JavaScript on such strings, and on a numeral
    followed by more text.  Blanks around a numeral, the hexadecimal,
    octal and binary numerals and the word Infinity, which a number
    field cannot hold, are outside the model. *)

Definition is_digit (c : ascii) : bool :=
  let n := nat_of_ascii c in (48 <=? n)%nat && (n <=? 57)%nat.

Definition digit_value (c : ascii) : Z := Z.of_nat (nat_of_ascii c - 48).

(** The longest prefix of digits: its value on top of [acc], the number
    of digits read, and the rest of the string. *)
Fixpoint digits (s : string) (acc : Z) (n : nat) : Z * nat * string :=
  match s with
  | String c s' =>
      if is_digit c then digits s' (10 * acc + digit_value c) (S n)
      else (acc, n, s)
  | EmptyString => (acc, n, s)
  end.

Definition sign (s : string) : bool * string :=
  match s with
  | String "-" s' => (true, s')
  | String "+" s' => (false, s')
  | _ => (false, s)
  end.

Definition signed (neg : bool) (z : Z) : Z := if neg then - z else z.

(** [parseInt(s)] in radix 10: the sign and the leading digits. *)
Definition parseInt (s : string) : number :=
  let (neg, body) := sign s in
  let '(v, n, _) := digits body 0 0 in
  if (n =? 0)%nat then NaN else of_Z (signed neg v).

Definition pow10 (e : Z) : Q :=
  if 0 <=? e then inject_Z (10 ^ e) else 1 # Z.to_pos (10 ^ (- e)).

(** The exponent part of a numeral, when it is complete. *)
Definition exponent (s : string) : Z * string :=
  match s with
  | String c s' =>
      if (Ascii.eqb c "e" || Ascii.eqb c "E")%bool then
        let (neg, body) := sign s' in
        let '(v, n, rest) := digits body 0 0 in
        if (n =? 0)%nat then (0, s) else (signed neg v, rest)
      else (0, s)
  | EmptyString => (0, s)
  end.

(** The longest decimal numeral at the start of [s], with its value and
    the text that follows it. *)
Definition decimal_prefix (s : string) : option (Q * string) :=
  let (neg, body) := sign s in
  let '(ip, ni, r1) := digits body 0 0 in
  let '(m, nf, r2) :=
    match r1 with
    | String "." r =>
        let '(m, nf, r') := digits r ip 0 in
        if ((ni =? 0) && (nf =? 0))%nat then (ip, 0%nat, r1) else (m, nf, r')
    | _ => (ip, 0%nat, r1)
    end in
  if ((ni =? 0) && (nf =? 0))%nat then None
  else
    let (ex, r3) := exponent r2 in
    Some (Qred (inject_Z (signed neg m) * pow10 (ex - Z.of_nat nf)), r3).

(** [parseFloat(s)]: the value of the longest numeral at the start. *)
Definition parseFloat (s : string) : number :=
  match decimal_prefix s with
  | Some (q, _) => Num q
  | None => NaN
  end.

(** [Number(s)]: the whole string is a numeral; the empty string is 0. *)
Definition Number (s : string) : number :=
  match s with
  | EmptyString => Num 0
  | _ =>
      match decimal_prefix s with
      | Some (q, EmptyString) => Num q
      | _ => NaN
      end
  end.

(** [s.replace(a, b)] for one-character [a] and [b]: the first
    occurrence only. *)
Fixpoint replace (a b : ascii) (s : string) : string :=
  match s with
  | EmptyString => EmptyString
  | String c s' =>
      if Ascii.eqb c a then String b s' else String c (replace a b s')
  end.

(** The decimal text of an integer, as a template literal prints it. *)
Definition toString (z : Z) : string := NilZero.string_of_int (Z.to_int z).

(** [l.sort(cmp)]: the sort is stable, and a comparison that gives NaN
    counts as 0.  Insertion sort is one such sort; for a comparison
    that is a total preorder they all give the same list. *)
Fixpoint insert {A} (cmp : A -> A -> number) (x : A) (l : list A) : list A :=
  match l with
  | [] => [x]
  | y :: l' => if gt (cmp x y) (Num 0) then y :: insert cmp x l' else x :: l
  end.

Definition sort {A} (cmp : A -> A -> number) (l : list A) : list A :=
  fold_right (insert cmp) [] l.

(** An exception value; the pages read only its message. *)
Record Error : Type := mkError { message : string }.

(** [s || d] on strings. *)
Definition or_string (s d : string) : string :=
  if not_string s then d else s.

(** A [Date]: its time value in milliseconds, NaN for an invalid date. *)
Record Date : Type := mkDate { getTime : number }.

End JS.

Import JS.

Declare Scope js_scope.
Delimit Scope js_scope with js.
Bind Scope js_scope with number.
Infix "+" := add : js_scope.
Infix "-" := sub : js_scope.
Infix "*" := mul : js_scope.
Infix "<?" := lt : js_scope.
Infix ">?" := gt : js_scope.
Infix "<=?" := le : js_scope.
Infix ">=?" := ge : js_scope.

(* ================================================================= *)
(** ** Data shared by the two pages *)

(** A row of the table calorie_goals, as [saveCalorieGoal] builds it.
    [created_at] keeps the [Date] that [new Date(created_at)] reads
    from the stored text. *)
Module CalorieGoal.
Record t : Type := mk {
  id : string;
  user_id : string;
  bmr : number;
  tdee : number;
  maintenance_calories : number;
  weight_loss_calories : number;
  weight_gain_calories : number;
  age : number;
  weight : number;
  height : number;
  gender : string;
  activity_level : number;
  unit_system : string;
  goal_type : string;
  protein_goal : option number;
  carbs_goal : option number;
  fat_goal : option number;
  created_at : Date
}.
End CalorieGoal.

Record Toast : Type := mkToast {
  title : string;
  description : string;
  variant : option string
}.

(** The requests the pages send to the table calorie_goals. *)
Inductive Request : Type :=
| Insert (row : CalorieGoal.t)
| Update (weight_loss_calories weight_gain_calories : number)
         (goal_type : string) (eq_id : string)
| SelectByCreatedAtDesc.

Record Response : Type := mkResponse {
  data : option (list CalorieGoal.t);
  error : option Error
}.

(** What localStorage holds under the key calorie_goals: nothing, the
    JSON text of a list of goals, or a text whose use throws. *)
Inductive Item : Type :=
| Absent
| Goals (l : list CalorieGoal.t)
| Broken (e : Error).

(** [quota] is the exception of [setItem], when it throws. *)
Record LocalStorage : Type := mkLocalStorage {
  calorie_goals : Item;
  quota : option Error
}.

(** The world of a page: its React state [page], the browser storage,
    the answers of the remote store, and what the page has sent, shown
    and opened so far. *)
Record World (S : Type) : Type := mkWorld {
  page : S;
  localStorage : LocalStorage;
  supabase : Request -> Response;
  sent : list Request;
  toasts : list Toast;
  route : option string
}.
Arguments mkWorld {S}.
Arguments page {S}.
Arguments localStorage {S}.
Arguments supabase {S}.
Arguments sent {S}.
Arguments toasts {S}.
Arguments route {S}.

(* ================================================================= *)
(** ** Handlers: state and exceptions *)

Module Handler.

Inductive Outcome (A : Type) : Type :=
| Return (a : A)
| Throw (e : Error).
Arguments Return {A}.
Arguments Throw {A}.

Definition M (S A : Type) : Type := World S -> Outcome A * World S.

(** The result type of a handler that returns nothing. *)
Definition void : Type := unit.

Section Ops.
Context {S : Type}.

Definition ret {A} (a : A) : M S A := fun w => (Return a, w).

Definition bind {A B} (c : M S A) (k : A -> M S B) : M S B :=
  fun w =>
    match c w with
    | (Return a, w') => k a w'
    | (Throw e, w') => (Throw e, w')
    end.

Definition throw {A} (e : Error) : M S A := fun w => (Throw e, w).

(** [try { c } catch (e) { h e }] *)
Definition try_catch {A} (c : M S A) (h : Error -> M S A) : M S A :=
  fun w =>
    match c w with
    | (Return a, w') => (Return a, w')
    | (Throw e, w') => h e w'
    end.

(** [try { c } finally { f }] *)
Definition finally {A} (c : M S A) (f : M S void) : M S A :=
  fun w =>
    match c w with
    | (r, w') =>
        match f w' with
        | (Return _, w'') => (r, w'')
        | (Throw e, w'') => (Throw e, w'')
        end
    end.

(** The state of the component, as the handler reads it. *)
Definition get : M S S := fun w => (Return (page w), w).

(** A state setter. *)
Definition set (f : S -> S) : M S void :=
  fun w =>
    (Return tt,
     mkWorld (f (page w)) (localStorage w) (supabase w) (sent w) (toasts w)
             (route w)).

Definition toast (t : Toast) : M S void :=
  fun w =>
    (Return tt,
     mkWorld (page w) (localStorage w) (supabase w) (sent w)
             (toasts w ++ [t]) (route w)).

Definition navigate (path : string) : M S void :=
  fun w =>
    (Return tt,
     mkWorld (page w) (localStorage w) (supabase w) (sent w) (toasts w)
             (Some path)).

(** [await supabase.from('calorie_goals')...]: the request is sent and
    the store answers. *)
Definition request (r : Request) : M S Response :=
  fun w =>
    (Return (supabase w r),
     mkWorld (page w) (localStorage w) (supabase w) (sent w ++ [r])
             (toasts w) (route w)).

(** [JSON.parse(localStorage.getItem('calorie_goals') || '[]')] *)
Definition getGoals : M S (list CalorieGoal.t) :=
  fun w =>
    match calorie_goals (localStorage w) with
    | Absent => (Return [], w)
    | Goals l => (Return l, w)
    | Broken e => (Throw e, w)
    end.

(** [localStorage.setItem('calorie_goals', JSON.stringify(l))] *)
Definition setGoals (l : list CalorieGoal.t) : M S void :=
  fun w =>
    match quota (localStorage w) with
    | Some e => (Throw e, w)
    | None =>
        (Return tt,
         mkWorld (page w) (mkLocalStorage (Goals l) None) (supabase w)
                 (sent w) (toasts w) (route w))
    end.

(** The world after the handler has run. *)
Definition run {A} (c : M S A) (w : World S) : World S := snd (c w).

End Ops.

End Handler.

Import Handler.

Declare Scope handler_scope.
Delimit Scope handler_scope with handler.
Notation "x <- c ;; k" := (bind c (fun x => k))
  (at level 61, c at next level, right associativity) : handler_scope.
Notation "c ;; k" := (bind c (fun _ => k))
  (at level 61, right associativity) : handler_scope.
Local Open Scope handler_scope.

(* ================================================================= *)
(** ** The calculator page (CaloriesCalculatorPage) *)

Module Calculator.

Inductive Gender : Type := male | female.
Inductive UnitSystem : Type := metric | imperial.
Inductive GoalType : Type := Maintenance | WeightLoss | WeightGain.

Definition gender_text (g : Gender) : string :=
  match g with male => "male" | female => "female" end.

Definition unit_text (u : UnitSystem) : string :=
  match u with metric => "metric" | imperial => "imperial" end.

Definition goalType_text (t : GoalType) : string :=
  match t with
  | Maintenance => "maintenance"
  | WeightLoss => "weight_loss"
  | WeightGain => "weight_gain"
  end.

Record CalorieResults : Type := mkResults {
  bmr : number;
  tdee : number;
  maintenance : number;
  weightLoss : number;
  weightGain : number
}.

Record UserInputs : Type := mkInputs {
  age : string;
  weight : string;
  height : string;
  gender : Gender;
  activityLevel : string;
  unit : UnitSystem
}.

(** The values offered by the activity selector. *)
Definition activityLevels : list string :=
  ["1.2"; "1.375"; "1.55"; "1.725"; "1.9"].

Record User : Type := mkUser { uid : string }.

Record State : Type := mkState {
  user : option User;
  inputs : UserInputs;
  results : option CalorieResults;
  isCalculated : bool;
  isSaving : bool;
  savedGoal : option string
}.

Definition setResults (r : option CalorieResults) (st : State) : State :=
  mkState (user st) (inputs st) r (isCalculated st) (isSaving st)
          (savedGoal st).

Definition setIsCalculated (b : bool) (st : State) : State :=
  mkState (user st) (inputs st) (results st) b (isSaving st) (savedGoal st).

Definition setIsSaving (b : bool) (st : State) : State :=
  mkState (user st) (inputs st) (results st) (isCalculated st) b
          (savedGoal st).

Definition setSavedGoal (g : option string) (st : State) : State :=
  mkState (user st) (inputs st) (results st) (isCalculated st) (isSaving st)
          g.

(** Mifflin-St Jeor. *)
Definition calculateBMR (age weight height : number) (gender : Gender)
  : number :=
  match gender with
  | male =>
      ((Num 10 * weight) + (Num 6.25 * height) - (Num 5 * age) + Num 5)%js
  | female =>
      ((Num 10 * weight) + (Num 6.25 * height) - (Num 5 * age) - Num 161)%js
  end.

(** The conversion at the head of [calculateCalories]: pounds to
    kilograms and inches to centimetres when the unit is imperial. *)
Definition toMetric (unit : UnitSystem) (weight height : number)
  : number * number :=
  let weightKg := weight in
  let heightCm := height in
  match unit with
  | imperial => (weight * Num 0.453592, height * Num 2.54)%js
  | metric => (weightKg, heightCm)
  end.

Definition calculateCalories : M State void :=
  st <- get ;;
  let age := parseInt (age (inputs st)) in
  let weight := parseFloat (weight (inputs st)) in
  let height := parseFloat (height (inputs st)) in
  let activityMultiplier := parseFloat (activityLevel (inputs st)) in
  if (not_number age || not_number weight || not_number height
      || (age <? Num 1) || (weight <? Num 1) || (height <? Num 1))%bool%js
  then ret tt
  else
    let '(weightKg, heightCm) := toMetric (unit (inputs st)) weight height in
    let bmr := calculateBMR age weightKg heightCm (gender (inputs st)) in
    let tdee := (bmr * activityMultiplier)%js in
    set (setResults (Some {|
      bmr := Math_round bmr;
      tdee := Math_round tdee;
      maintenance := Math_round tdee;
      weightLoss := Math_round (tdee - Num 500)%js;
      weightGain := Math_round (tdee + Num 500)%js
    |})) ;;
    set (setIsCalculated true).

(** The record that [saveCalorieGoal] builds; [now] is the reading of
    [Date.now()] and [created] the time of [new Date()]. *)
Definition goalData (st : State) (u : User) (r : CalorieResults)
  (goalType : GoalType) (now created : Z) : CalorieGoal.t :=
  {| CalorieGoal.id := "goal_" ++ toString now;
     CalorieGoal.user_id := uid u;
     CalorieGoal.bmr := bmr r;
     CalorieGoal.tdee := tdee r;
     CalorieGoal.maintenance_calories := maintenance r;
     CalorieGoal.weight_loss_calories := weightLoss r;
     CalorieGoal.weight_gain_calories := weightGain r;
     CalorieGoal.age := parseInt (age (inputs st));
     CalorieGoal.weight := parseFloat (weight (inputs st));
     CalorieGoal.height := parseFloat (height (inputs st));
     CalorieGoal.gender := gender_text (gender (inputs st));
     CalorieGoal.activity_level := parseFloat (activityLevel (inputs st));
     CalorieGoal.unit_system := unit_text (unit (inputs st));
     CalorieGoal.goal_type := goalType_text goalType;
     CalorieGoal.protein_goal := None;
     CalorieGoal.carbs_goal := None;
     CalorieGoal.fat_goal := None;
     CalorieGoal.created_at := mkDate (of_Z created) |}.

Definition saveCalorieGoal (goalType : GoalType) (now created : Z)
  : M State void :=
  st <- get ;;
  match user st with
  | None =>
      toast {| title := "Sign in required";
               description := "Please sign in to save your calorie goals.";
               variant := None |} ;;
      navigate "/auth"
  | Some u =>
      match results st with
      | None => ret tt
      | Some r =>
          set (setIsSaving true) ;;
          finally
            (try_catch
               (let goalData := goalData st u r goalType now created in
                (* Try to save to database first *)
                try_catch
                  (resp <- request (Insert goalData) ;;
                   match error resp with
                   | Some e => throw e
                   | None => ret tt
                   end)
                  (fun dbError =>
                     (* Fallback to localStorage *)
                     existingGoals <- getGoals ;;
                     setGoals (existingGoals ++ [goalData])) ;;
                set (setSavedGoal (Some (goalType_text goalType))) ;;
                toast {| title := "Goal Saved!";
                         description :=
                           "Your "
                           ++ replace "_" " " (goalType_text goalType)
                           ++ " goal has been saved successfully.";
                         variant := None |})
               (fun error =>
                  toast {| title := "Save failed";
                           description :=
                             or_string (message error)
                               "Failed to save calorie goal. Please try again.";
                           variant := Some "destructive" |}))
            (set (setIsSaving false))
      end
  end.

End Calculator.

(* ================================================================= *)
(** ** The history page (History) *)

Module History.

(** A row of meal_analyses.  [analyzed_at] keeps the [Date] that
    [new Date(meal.analyzed_at)] reads from the stored text;
    food_items, which the summary does not read, is left out. *)
Record MealAnalysis : Type := mkMeal {
  id : string;
  image_url : string;
  calories : number;
  protein : number;
  carbs : number;
  fat : number;
  analyzed_at : Date
}.

Inductive GoalStatus : Type := under | over | met.

Record NutritionSummary : Type := mkSummary {
  totalCalories : number;
  totalProtein : number;
  totalCarbs : number;
  totalFat : number;
  mealCount : number;
  dailyGoal : option number;
  goalType : option string;
  goalStatus : option GoalStatus
}.

(** The part of the state of the page that the handlers below use. *)
Record State : Type := mkState {
  meals : list MealAnalysis;
  calorieGoals : list CalorieGoal.t;
  currentGoal : option CalorieGoal.t;
  isEditingGoal : bool;
  editedCalories : string;
  isSavingEdit : bool
}.

Definition setCalorieGoals (l : list CalorieGoal.t) (st : State) : State :=
  mkState (meals st) l (currentGoal st) (isEditingGoal st)
          (editedCalories st) (isSavingEdit st).

Definition setCurrentGoal (g : option CalorieGoal.t) (st : State) : State :=
  mkState (meals st) (calorieGoals st) g (isEditingGoal st)
          (editedCalories st) (isSavingEdit st).

Definition setIsEditingGoal (b : bool) (st : State) : State :=
  mkState (meals st) (calorieGoals st) (currentGoal st) b
          (editedCalories st) (isSavingEdit st).

Definition setEditedCalories (s : string) (st : State) : State :=
  mkState (meals st) (calorieGoals st) (currentGoal st) (isEditingGoal st)
          s (isSavingEdit st).

Definition setIsSavingEdit (b : bool) (st : State) : State :=
  mkState (meals st) (calorieGoals st) (currentGoal st) (isEditingGoal st)
          (editedCalories st) b.

(** [g.id && g.maintenance_calories > 0] *)
Definition has_valid_calories (g : CalorieGoal.t) : bool :=
  negb (not_string (CalorieGoal.id g))
  && (CalorieGoal.maintenance_calories g >? Num 0)%js.

(** The comparison given to [sort]: most recent first. *)
Definition by_created_at_desc (a b : CalorieGoal.t) : number :=
  (getTime (CalorieGoal.created_at b) - getTime (CalorieGoal.created_at a))%js.

Definition fetchCalorieGoals : M State void :=
  try_catch
    (resp <- request SelectByCreatedAtDesc ;;
     match error resp with
     | Some e => throw e
     | None =>
         set (setCalorieGoals
                (match data resp with Some l => l | None => [] end)) ;;
         (* Set the most recent goal as current only if there are actual
            goals with valid calorie values *)
         match data resp with
         | Some (g :: _) =>
             if has_valid_calories g then set (setCurrentGoal (Some g))
             else set (setCurrentGoal None)
         | _ => set (setCurrentGoal None)
         end
     end)
    (fun error =>
       (* Fallback to localStorage *)
       try_catch
         (localGoals <- getGoals ;;
          set (setCalorieGoals localGoals) ;;
          match localGoals with
          | g :: _ =>
              if has_valid_calories g then
                (* Sort by created_at and get the most recent.  The sort
                   is in place: the array given to setCalorieGoals above
                   is the one that gets sorted. *)
                let sortedGoals := sort by_created_at_desc localGoals in
                set (setCalorieGoals sortedGoals) ;;
                set (setCurrentGoal (hd_error sortedGoals))
              else set (setCurrentGoal None)
          | [] => set (setCurrentGoal None)
          end)
         (fun localError =>
            set (setCalorieGoals []) ;;
            set (setCurrentGoal None))).

(** [{...currentGoal, weight_loss_calories, weight_gain_calories,
    goal_type}] *)
Definition edited (currentGoal : CalorieGoal.t) (calories : number)
  : CalorieGoal.t :=
  {| CalorieGoal.id := CalorieGoal.id currentGoal;
     CalorieGoal.user_id := CalorieGoal.user_id currentGoal;
     CalorieGoal.bmr := CalorieGoal.bmr currentGoal;
     CalorieGoal.tdee := CalorieGoal.tdee currentGoal;
     CalorieGoal.maintenance_calories :=
       CalorieGoal.maintenance_calories currentGoal;
     (* Only update weight loss and weight gain, keep maintenance
        unchanged *)
     CalorieGoal.weight_loss_calories := calories;
     CalorieGoal.weight_gain_calories := calories;
     CalorieGoal.age := CalorieGoal.age currentGoal;
     CalorieGoal.weight := CalorieGoal.weight currentGoal;
     CalorieGoal.height := CalorieGoal.height currentGoal;
     CalorieGoal.gender := CalorieGoal.gender currentGoal;
     CalorieGoal.activity_level := CalorieGoal.activity_level currentGoal;
     CalorieGoal.unit_system := CalorieGoal.unit_system currentGoal;
     (* Mark as custom since it's been edited *)
     CalorieGoal.goal_type := "custom";
     CalorieGoal.protein_goal := CalorieGoal.protein_goal currentGoal;
     CalorieGoal.carbs_goal := CalorieGoal.carbs_goal currentGoal;
     CalorieGoal.fat_goal := CalorieGoal.fat_goal currentGoal;
     CalorieGoal.created_at := CalorieGoal.created_at currentGoal |}.

(** [goals.map(goal => goal.id === id ? updatedGoal : goal)] *)
Definition replace_by_id (id : string) (updatedGoal : CalorieGoal.t)
  (goals : list CalorieGoal.t) : list CalorieGoal.t :=
  map (fun goal =>
         if String.eqb (CalorieGoal.id goal) id then updatedGoal else goal)
      goals.

Definition invalid_input : Toast :=
  {| title := "Invalid input";
     description := "Please enter a valid calorie goal.";
     variant := Some "destructive" |}.

Definition saveEditedCalorieGoal : M State void :=
  st <- get ;;
  match currentGoal st with
  | None => toast invalid_input
  | Some currentGoal =>
      let editedCalories := editedCalories st in
      if (not_string editedCalories || isNaN (Number editedCalories)
          || (Number editedCalories <=? Num 0))%bool%js
      then toast invalid_input
      else
        set (setIsSavingEdit true) ;;
        finally
          (try_catch
             (let updatedGoal :=
                edited currentGoal (Number editedCalories) in
              (* Try to save to database first *)
              try_catch
                (resp <- request
                           (Update (Number editedCalories)
                                   (Number editedCalories)
                                   "custom"
                                   (CalorieGoal.id currentGoal)) ;;
                 match error resp with
                 | Some e => throw e
                 | None => ret tt
                 end)
                (fun dbError =>
                   (* Fallback to localStorage *)
                   localGoals <- getGoals ;;
                   let updatedGoals :=
                     replace_by_id (CalorieGoal.id currentGoal) updatedGoal
                                   localGoals in
                   setGoals updatedGoals) ;;
              set (setCurrentGoal (Some updatedGoal)) ;;
              set (fun prev =>
                     setCalorieGoals
                       (replace_by_id (CalorieGoal.id currentGoal)
                                      updatedGoal (calorieGoals prev))
                       prev) ;;
              set (setIsEditingGoal false) ;;
              set (setEditedCalories "") ;;
              toast {| title := "Goal Updated!";
                       description :=
                         "Your calorie goal has been updated to "
                         ++ editedCalories ++ " calories.";
                       variant := None |})
             (fun error =>
                toast {| title := "Update failed";
                         description :=
                           or_string (message error)
                             "Failed to update calorie goal. Please try again.";
                         variant := Some "destructive" |}))
          (set (setIsSavingEdit false))
  end.

(** The calorie target that the summary compares with. *)
Definition goalCaloriesOf (currentGoal : CalorieGoal.t) : number :=
  if String.eqb (CalorieGoal.goal_type currentGoal) "maintenance"
  then CalorieGoal.maintenance_calories currentGoal
  else if String.eqb (CalorieGoal.goal_type currentGoal) "weight_loss"
  then CalorieGoal.weight_loss_calories currentGoal
  else CalorieGoal.weight_gain_calories currentGoal.

(** Determine goal status. *)
Definition goalStatusOf (totalCalories goalCalories : number) : GoalStatus :=
  if (totalCalories <? goalCalories * Num 0.9)%js then under
  else if (totalCalories >? goalCalories * Num 1.1)%js then over
  else met.

Definition in_window (startDate endDate : Date) (meal : MealAnalysis) : bool :=
  let mealDate := analyzed_at meal in
  ((getTime mealDate >=? getTime startDate)
   && (getTime mealDate <=? getTime endDate))%js.

(** The callback given to [reduce]; [Number] of a number is that
    number. *)
Definition add_meal (acc : NutritionSummary) (meal : MealAnalysis)
  : NutritionSummary :=
  {| totalCalories := (totalCalories acc + calories meal)%js;
     totalProtein := (totalProtein acc + protein meal)%js;
     totalCarbs := (totalCarbs acc + carbs meal)%js;
     totalFat := (totalFat acc + fat meal)%js;
     mealCount := (mealCount acc + Num 1)%js;
     dailyGoal := dailyGoal acc;
     goalType := goalType acc;
     goalStatus := goalStatus acc |}.

Definition no_meals : NutritionSummary :=
  {| totalCalories := Num 0; totalProtein := Num 0; totalCarbs := Num 0;
     totalFat := Num 0; mealCount := Num 0;
     dailyGoal := None; goalType := None; goalStatus := None |}.

Definition calculateSummary (st : State) (startDate endDate : Date)
  : NutritionSummary :=
  let filteredMeals := filter (in_window startDate endDate) (meals st) in
  let summary := fold_left add_meal filteredMeals no_meals in
  (* Add goal information if available *)
  match currentGoal st with
  | Some currentGoal =>
      let goalCalories := goalCaloriesOf currentGoal in
      {| totalCalories := totalCalories summary;
         totalProtein := totalProtein summary;
         totalCarbs := totalCarbs summary;
         totalFat := totalFat summary;
         mealCount := mealCount summary;
         dailyGoal := Some goalCalories;
         goalType := Some (CalorieGoal.goal_type currentGoal);
         goalStatus :=
           Some (goalStatusOf (totalCalories summary) goalCalories) |}
  | None => summary
  end.

End History.

(* ================================================================= *)
(** ** Notions used by the properties *)

Section EngineNotions.
Import Calculator.

(** The world in which the form holds the given texts. *)
Definition form (age weight height : string) (gender : Gender)
  (activityLevel : string) (unit : UnitSystem) : World State :=
  {| page := {| user := None;
                inputs := mkInputs age weight height gender activityLevel unit;
                results := None;
                isCalculated := false;
                isSaving := false;
                savedGoal := None |};
     localStorage := mkLocalStorage Absent None;
     supabase := fun _ => mkResponse None None;
     sent := [];
     toasts := [];
     route := None |}.

(** A signed-in user who has computed the results of the scenario
    above, with the given browser storage and remote answer. *)
Definition saving (ls : LocalStorage) (answer : Response) : World State :=
  {| page := {| user := Some (mkUser "user-1");
                inputs := mkInputs "25" "70" "175" male "1.55" metric;
                results :=
                  Some {| bmr := Num 1674; tdee := Num 2594;
                          maintenance := Num 2594; weightLoss := Num 2094;
                          weightGain := Num 3094 |};
                isCalculated := true;
                isSaving := false;
                savedGoal := None |};
     localStorage := ls;
     supabase := fun _ => answer;
     sent := [];
     toasts := [];
     route := None |}.

Definition goal_saved (goalType : GoalType) : Toast :=
  {| title := "Goal Saved!";
     description :=
       "Your " ++ replace "_" " " (goalType_text goalType)
       ++ " goal has been saved successfully.";
     variant := None |}.

Definition save_failed (cause : Error) : Toast :=
  {| title := "Save failed";
     description :=
       or_string (message cause)
                 "Failed to save calorie goal. Please try again.";
     variant := Some "destructive" |}.

End EngineNotions.

Section SummaryNotions.
Import History.

(** [a <= b] on dates: both are valid and the time of [a] is at most
    that of [b]. *)
Definition Date_le (a b : Date) : Prop :=
  match getTime a, getTime b with
  | Num x, Num y => (x <= y)%Q
  | _, _ => False
  end.

(** The same number: equal rationals, or NaN on both sides. *)
Definition same (x y : number) : Prop :=
  match x, y with
  | Num a, Num b => (a == b)%Q
  | NaN, NaN => True
  | _, _ => False
  end.

(** The sum of a list of numbers. *)
Definition sum (l : list number) : number := fold_right add (Num 0) l.

End SummaryNotions.

Section StoreNotions.
Import History.

(** Following the specification: the first entry whose id is non-empty
    and whose maintenance_calories is positive. *)
Definition selectCurrent (goals : list CalorieGoal.t)
  : option CalorieGoal.t :=
  find has_valid_calories goals.

(** The list is ordered by created_at, most recent first. *)
Fixpoint descending (goals : list CalorieGoal.t) : bool :=
  match goals with
  | a :: (b :: _) as rest =>
      (getTime (CalorieGoal.created_at a)
       >=? getTime (CalorieGoal.created_at b))%js
      && descending rest
  | _ => true
  end.

(** The first entry, when it is valid. *)
Definition first_if_valid (goals : list CalorieGoal.t)
  : option CalorieGoal.t :=
  match goals with
  | g :: _ => if has_valid_calories g then Some g else None
  | [] => None
  end.

(** The exception of the fallback write, when it fails: at reading the
    stored list or at writing it back. *)
Definition write_failure (ls : LocalStorage) : option Error :=
  match calorie_goals ls with
  | Broken e => Some e
  | _ => quota ls
  end.

(** The list that the fallback reads. *)
Definition stored_goals (ls : LocalStorage) : list CalorieGoal.t :=
  match calorie_goals ls with
  | Goals l => l
  | _ => []
  end.

(** Every field but weight_loss_calories, weight_gain_calories and
    goal_type is the same in the two goals. *)
Definition same_elsewhere (a b : CalorieGoal.t) : Prop :=
  CalorieGoal.id a = CalorieGoal.id b
  /\ CalorieGoal.user_id a = CalorieGoal.user_id b
  /\ CalorieGoal.bmr a = CalorieGoal.bmr b
  /\ CalorieGoal.tdee a = CalorieGoal.tdee b
  /\ CalorieGoal.maintenance_calories a = CalorieGoal.maintenance_calories b
  /\ CalorieGoal.age a = CalorieGoal.age b
  /\ CalorieGoal.weight a = CalorieGoal.weight b
  /\ CalorieGoal.height a = CalorieGoal.height b
  /\ CalorieGoal.gender a = CalorieGoal.gender b
  /\ CalorieGoal.activity_level a = CalorieGoal.activity_level b
  /\ CalorieGoal.unit_system a = CalorieGoal.unit_system b
  /\ CalorieGoal.protein_goal a = CalorieGoal.protein_goal b
  /\ CalorieGoal.carbs_goal a = CalorieGoal.carbs_goal b
  /\ CalorieGoal.fat_goal a = CalorieGoal.fat_goal b
  /\ CalorieGoal.created_at a = CalorieGoal.created_at b.

(** The remote store answers with these rows. *)
Definition rows (l : list CalorieGoal.t) : Response :=
  {| data := Some l; error := None |}.

(** The remote store cannot be reached. *)
Definition unreachable : Response :=
  {| data := None; error := Some (mkError "Failed to fetch") |}.

(** A goal of the scenario of the calculator, with the given id,
    maintenance, weight-loss and weight-gain calories, goal type and
    time of creation. *)
Definition sample_goal (id : string) (maintenance loss gain : Q)
  (goal_type : string) (created : Z) : CalorieGoal.t :=
  {| CalorieGoal.id := id;
     CalorieGoal.user_id := "user-1";
     CalorieGoal.bmr := Num 1674;
     CalorieGoal.tdee := Num 2594;
     CalorieGoal.maintenance_calories := Num maintenance;
     CalorieGoal.weight_loss_calories := Num loss;
     CalorieGoal.weight_gain_calories := Num gain;
     CalorieGoal.age := Num 25;
     CalorieGoal.weight := Num 70;
     CalorieGoal.height := Num 175;
     CalorieGoal.gender := "male";
     CalorieGoal.activity_level := Num 1.55;
     CalorieGoal.unit_system := "metric";
     CalorieGoal.goal_type := goal_type;
     CalorieGoal.protein_goal := None;
     CalorieGoal.carbs_goal := None;
     CalorieGoal.fat_goal := None;
     CalorieGoal.created_at := mkDate (of_Z created) |}.

(** The most recent goal of the examples has no calories. *)
Definition empty_goal : CalorieGoal.t :=
  sample_goal "g1" 0 0 0 "maintenance" 2000.

Definition older_goal : CalorieGoal.t :=
  sample_goal "g2" 1800 1300 2300 "maintenance" 1000.

Definition custom_goal : CalorieGoal.t :=
  sample_goal "g3" 2000 1500 1500 "custom" 3000.

Definition sample_meal (id : string) (calories : Q) (analyzed : Z)
  : MealAnalysis :=
  {| id := id; image_url := "meal.jpg"; calories := Num calories;
     protein := Num 30; carbs := Num 40; fat := Num 10;
     analyzed_at := mkDate (of_Z analyzed) |}.

Definition three_meals : list MealAnalysis :=
  [sample_meal "m1" 500 100; sample_meal "m2" 700 200;
   sample_meal "m3" 300 300].

(** A history page with the given meals, goals, current goal and text
    of the edit field. *)
Definition showing (meals : list MealAnalysis) (goals : list CalorieGoal.t)
  (current : option CalorieGoal.t) (editedCalories : string) : State :=
  {| meals := meals; calorieGoals := goals; currentGoal := current;
     isEditingGoal := negb (not_string editedCalories);
     editedCalories := editedCalories; isSavingEdit := false |}.

Definition history (st : State) (ls : LocalStorage) (answer : Response)
  : World State :=
  {| page := st; localStorage := ls; supabase := fun _ => answer;
     sent := []; toasts := []; route := None |}.

End StoreNotions.

(* ================================================================= *)
(** ** The form of the calculator page *)

Module CalculatorForm.
Import Calculator.

Definition setInputs (f : UserInputs -> UserInputs) (st : State) : State :=
  mkState (user st) (f (inputs st)) (results st) (isCalculated st)
          (isSaving st) (savedGoal st).

(** A field of the form with the value given to it: the texts of the
    number fields and of the activity selector, and the choices of the
    gender and unit selectors. *)
Inductive Change : Type :=
| age_is (value : string)
| weight_is (value : string)
| height_is (value : string)
| gender_is (value : Gender)
| activityLevel_is (value : string)
| unit_is (value : UnitSystem).

(** [{ ...prev, [field]: value }] *)
Definition assign (c : Change) (prev : UserInputs) : UserInputs :=
  match c with
  | age_is v =>
      mkInputs v (weight prev) (height prev) (gender prev)
               (activityLevel prev) (unit prev)
  | weight_is v =>
      mkInputs (age prev) v (height prev) (gender prev)
               (activityLevel prev) (unit prev)
  | height_is v =>
      mkInputs (age prev) (weight prev) v (gender prev)
               (activityLevel prev) (unit prev)
  | gender_is v =>
      mkInputs (age prev) (weight prev) (height prev) v
               (activityLevel prev) (unit prev)
  | activityLevel_is v =>
      mkInputs (age prev) (weight prev) (height prev) (gender prev)
               v (unit prev)
  | unit_is v =>
      mkInputs (age prev) (weight prev) (height prev) (gender prev)
               (activityLevel prev) v
  end.

Definition handleInputChange (c : Change) : M State void :=
  set (setInputs (assign c)) ;;
  set (setIsCalculated false).

Definition resetCalculator : M State void :=
  set (setInputs (fun _ => mkInputs "" "" "" male "1.55" metric)) ;;
  set (setResults None) ;;
  set (setIsCalculated false) ;;
  set (setSavedGoal None).

(** [inputs.age && inputs.weight && inputs.height], as a condition. *)
Definition isFormValid (st : State) : bool :=
  negb (not_string (age (inputs st)))
  && negb (not_string (weight (inputs st)))
  && negb (not_string (height (inputs st))).

End CalculatorForm.

Section CalculatorNotions.
Import Calculator.

(** The guard of [calculateCalories] turns the readings down: one of
    them is NaN or below 1. *)
Definition refused (age weight height : number) : Prop :=
  match age, weight, height with
  | Num a, Num w, Num h => (a < 1 \/ w < 1 \/ h < 1)%Q
  | _, _, _ => True
  end.

(** The page has a signed-in user and computed results. *)
Definition ready (w : World State) (u : User) (r : CalorieResults) : Prop :=
  user (page w) = Some u /\ results (page w) = Some r.

Definition sign_in_required : Toast :=
  {| title := "Sign in required";
     description := "Please sign in to save your calorie goals.";
     variant := None |}.

End CalculatorNotions.

(* ================================================================= *)
(** ** More handlers of the history page *)

Module HistoryMore.
Import History.

Definition setMeals (l : list MealAnalysis) (st : State) : State :=
  mkState l (calorieGoals st) (currentGoal st) (isEditingGoal st)
          (editedCalories st) (isSavingEdit st).

(** The answer of the remote store to the query of meal_analyses,
    ordered by analyzed_at descending. *)
Record MealsResponse : Type := mkMealsResponse {
  meals_data : option (list MealAnalysis);
  meals_error : option Error
}.

(** [answer] is what the remote store answers to the query. *)
Definition fetchMeals (answer : MealsResponse) : M State void :=
  try_catch
    (match meals_error answer with
     | Some e => throw e
     | None =>
         set (setMeals (match meals_data answer with
                        | Some l => l
                        | None => []
                        end))
     end)
    (fun error =>
       set (setMeals []) ;; (* Set empty array on error *)
       toast {| title := "Error loading history";
                description := message error;
                variant := Some "destructive" |}).

Inductive Macro : Type := Protein | Carbs | Fat.

(** [{ ...goal, protein_goal: v }], and the same for carbs and fat. *)
Definition with_macro (m : Macro) (v : option number) (goal : CalorieGoal.t)
  : CalorieGoal.t :=
  {| CalorieGoal.id := CalorieGoal.id goal;
     CalorieGoal.user_id := CalorieGoal.user_id goal;
     CalorieGoal.bmr := CalorieGoal.bmr goal;
     CalorieGoal.tdee := CalorieGoal.tdee goal;
     CalorieGoal.maintenance_calories := CalorieGoal.maintenance_calories goal;
     CalorieGoal.weight_loss_calories := CalorieGoal.weight_loss_calories goal;
     CalorieGoal.weight_gain_calories := CalorieGoal.weight_gain_calories goal;
     CalorieGoal.age := CalorieGoal.age goal;
     CalorieGoal.weight := CalorieGoal.weight goal;
     CalorieGoal.height := CalorieGoal.height goal;
     CalorieGoal.gender := CalorieGoal.gender goal;
     CalorieGoal.activity_level := CalorieGoal.activity_level goal;
     CalorieGoal.unit_system := CalorieGoal.unit_system goal;
     CalorieGoal.goal_type := CalorieGoal.goal_type goal;
     CalorieGoal.protein_goal :=
       match m with Protein => v | _ => CalorieGoal.protein_goal goal end;
     CalorieGoal.carbs_goal :=
       match m with Carbs => v | _ => CalorieGoal.carbs_goal goal end;
     CalorieGoal.fat_goal :=
       match m with Fat => v | _ => CalorieGoal.fat_goal goal end;
     CalorieGoal.created_at := CalorieGoal.created_at goal |}.

(** [{ ...goal, protein_goal, carbs_goal, fat_goal }] *)
Definition with_macros (p c f : option number) (goal : CalorieGoal.t)
  : CalorieGoal.t :=
  with_macro Fat f (with_macro Carbs c (with_macro Protein p goal)).

(** The onChange of the three nutrition fields:
    [setCurrentGoal(prev => prev ? { ...prev, protein_goal: value ?
    parseFloat(value) : null } : null)] *)
Definition changeMacroGoal (m : Macro) (value : string) : M State void :=
  set (fun st =>
         setCurrentGoal
           (match currentGoal st with
            | Some prev =>
                Some (with_macro m
                        (if not_string value then None
                         else Some (parseFloat value))
                        prev)
            | None => None
            end)
           st).

(** The button Clear All. *)
Definition clearMacroGoals : M State void :=
  set (fun st =>
         setCurrentGoal
           (match currentGoal st with
            | Some prev => Some (with_macros None None None prev)
            | None => None
            end)
           st).

Definition goals_updated : Toast :=
  {| title := "Goals Updated!";
     description := "Your nutrition goals have been saved successfully.";
     variant := None |}.

(** The button Save Goals.  [answer] is the error with which the remote
    store answers the update of protein_goal, carbs_goal and fat_goal
    of the row with the id of the current goal, if any. *)
Definition saveMacroGoals (answer : option Error) : M State void :=
  st <- get ;;
  match currentGoal st with
  | None => ret tt
  | Some currentGoal =>
      try_catch
        (match answer with
         | Some e => throw e
         | None => ret tt
         end ;;
         toast goals_updated)
        (fun error =>
           (* Fallback to localStorage *)
           localGoals <- getGoals ;;
           let updatedGoals :=
             map (fun goal =>
                    if String.eqb (CalorieGoal.id goal)
                                  (CalorieGoal.id currentGoal)
                    then with_macros (CalorieGoal.protein_goal currentGoal)
                                     (CalorieGoal.carbs_goal currentGoal)
                                     (CalorieGoal.fat_goal currentGoal)
                                     goal
                    else goal)
                 localGoals in
           setGoals updatedGoals ;;
           toast goals_updated)
  end.

End HistoryMore.

(** The custom goal of the history page. *)
Module CustomGoal.

(** The state that [saveCustomCalorieGoal] uses: that of the handlers
    above, the signed-in user and the dialog of the custom goal. *)
Record State : Type := mkState {
  history : History.State;
  user : option Calculator.User;
  showCustomGoal : bool;
  customCalories : string;
  isSavingCustomGoal : bool
}.

Definition setHistory (f : History.State -> History.State) (st : State)
  : State :=
  mkState (f (history st)) (user st) (showCustomGoal st) (customCalories st)
          (isSavingCustomGoal st).

Definition setShowCustomGoal (b : bool) (st : State) : State :=
  mkState (history st) (user st) b (customCalories st) (isSavingCustomGoal st).

Definition setCustomCalories (s : string) (st : State) : State :=
  mkState (history st) (user st) (showCustomGoal st) s (isSavingCustomGoal st).

Definition setIsSavingCustomGoal (b : bool) (st : State) : State :=
  mkState (history st) (user st) (showCustomGoal st) (customCalories st) b.

(** The record that [saveCustomCalorieGoal] builds; [now] is the
    reading of [Date.now()] and [created] the time of [new Date()]. *)
Definition goalData (u : Calculator.User) (customCalories : string)
  (now created : Z) : CalorieGoal.t :=
  {| CalorieGoal.id := "custom_goal_" ++ toString now;
     CalorieGoal.user_id := Calculator.uid u;
     CalorieGoal.bmr := Num 0; (* Not calculated for custom goals *)
     CalorieGoal.tdee := Num 0;
     CalorieGoal.maintenance_calories := Number customCalories;
     CalorieGoal.weight_loss_calories := Number customCalories;
     CalorieGoal.weight_gain_calories := Number customCalories;
     CalorieGoal.age := Num 0; (* Not required for custom goals *)
     CalorieGoal.weight := Num 0;
     CalorieGoal.height := Num 0;
     CalorieGoal.gender := "custom";
     CalorieGoal.activity_level := Num 0;
     CalorieGoal.unit_system := "custom";
     CalorieGoal.goal_type := "custom";
     CalorieGoal.protein_goal := None;
     CalorieGoal.carbs_goal := None;
     CalorieGoal.fat_goal := None;
     CalorieGoal.created_at := mkDate (of_Z created) |}.

Definition saveCustomCalorieGoal (now created : Z) : M State void :=
  st <- get ;;
  match user st with
  | None =>
      toast {| title := "Sign in required";
               description := "Please sign in to save your calorie goal.";
               variant := None |} ;;
      navigate "/auth"
  | Some u =>
      let customCalories := customCalories st in
      if (not_string customCalories || isNaN (Number customCalories)
          || (Number customCalories <=? Num 0)%js)%bool
      then toast History.invalid_input
      else
        set (setIsSavingCustomGoal true) ;;
        finally
          (try_catch
             (let goalData := goalData u customCalories now created in
              (* Try to save to database first *)
              try_catch
                (resp <- request (Insert goalData) ;;
                 match error resp with
                 | Some e => throw e
                 | None => ret tt
                 end)
                (fun dbError =>
                   (* Fallback to localStorage *)
                   existingGoals <- getGoals ;;
                   setGoals (existingGoals ++ [goalData])) ;;
              set (setHistory (History.setCurrentGoal (Some goalData))) ;;
              set (setHistory
                     (fun prev =>
                        History.setCalorieGoals
                          (goalData :: History.calorieGoals prev) prev)) ;;
              set (setShowCustomGoal false) ;;
              set (setCustomCalories "") ;;
              toast {| title := "Custom Goal Saved!";
                       description :=
                         "Your custom calorie goal of " ++ customCalories
                         ++ " calories has been set.";
                       variant := None |})
             (fun error =>
                toast {| title := "Save failed";
                         description :=
                           or_string (message error)
                             "Failed to save custom calorie goal. Please try again.";
                         variant := Some "destructive" |}))
          (set (setIsSavingCustomGoal false))
  end.

End CustomGoal.

Section HistoryNotions.
Import History.

(** The goal has a valid date of creation. *)
Definition dated (g : CalorieGoal.t) : Prop :=
  isNaN (getTime (CalorieGoal.created_at g)) = false.

(** [a] was created no later than [b]; both dates are valid. *)
Definition not_after (a b : CalorieGoal.t) : Prop :=
  (getTime (CalorieGoal.created_at a)
   <=? getTime (CalorieGoal.created_at b))%js = true.

(** The request of [fetchCalorieGoals] fails. *)
Definition remote_fails (w : World State) : Prop :=
  error (supabase w SelectByCreatedAtDesc) <> None.

End HistoryNotions.

Section EditNotions.
Import History.

(** The page has a current goal and the edit field holds a positive
    number. *)
Definition editing (w : World State) (goal : CalorieGoal.t) (calories : Q)
  : Prop :=
  currentGoal (page w) = Some goal
  /\ editedCalories (page w) <> ""
  /\ Number (editedCalories (page w)) = Num calories
  /\ (0 < calories)%Q.

(** The edit is turned down: there is no current goal, or the field is
    empty, holds no number, or holds a number that is not positive. *)
Definition edit_refused (st : State) : Prop :=
  currentGoal st = None
  \/ editedCalories st = ""
  \/ Number (editedCalories st) = NaN
  \/ exists n : Q, Number (editedCalories st) = Num n /\ (n <= 0)%Q.

(** The update that the edit sends to the remote store. *)
Definition edit_request (goal : CalorieGoal.t) (calories : Q) : Request :=
  Update (Num calories) (Num calories) "custom" (CalorieGoal.id goal).

Definition goal_updated (editedCalories : string) : Toast :=
  {| title := "Goal Updated!";
     description :=
       "Your calorie goal has been updated to " ++ editedCalories
       ++ " calories.";
     variant := None |}.

Definition update_failed (cause : Error) : Toast :=
  {| title := "Update failed";
     description :=
       or_string (message cause)
                 "Failed to update calorie goal. Please try again.";
     variant := Some "destructive" |}.

(** The page after an edit that went through. *)
Definition edited_page (st : State) (goal : CalorieGoal.t) (calories : Q)
  : State :=
  {| meals := meals st;
     calorieGoals :=
       replace_by_id (CalorieGoal.id goal) (edited goal (Num calories))
                     (calorieGoals st);
     currentGoal := Some (edited goal (Num calories));
     isEditingGoal := false;
     editedCalories := "";
     isSavingEdit := false |}.

End EditNotions.

Section CustomGoalNotions.
Import CustomGoal.

(** The text of the custom goal is turned down: it is empty, holds no
    number, or holds a number that is not positive. *)
Definition custom_refused (st : State) : Prop :=
  customCalories st = ""
  \/ Number (customCalories st) = NaN
  \/ exists n : Q, Number (customCalories st) = Num n /\ (n <= 0)%Q.

(** A signed-in user has entered a positive number. *)
Definition entering (w : World State) (u : Calculator.User) (calories : Q)
  : Prop :=
  user (page w) = Some u
  /\ customCalories (page w) <> ""
  /\ Number (customCalories (page w)) = Num calories
  /\ (0 < calories)%Q.

Definition sign_in_for_goal : Toast :=
  {| title := "Sign in required";
     description := "Please sign in to save your calorie goal.";
     variant := None |}.

Definition custom_goal_saved (customCalories : string) : Toast :=
  {| title := "Custom Goal Saved!";
     description :=
       "Your custom calorie goal of " ++ customCalories
       ++ " calories has been set.";
     variant := None |}.

Definition custom_save_failed (cause : Error) : Toast :=
  {| title := "Save failed";
     description :=
       or_string (message cause)
         "Failed to save custom calorie goal. Please try again.";
     variant := Some "destructive" |}.

(** The page after a custom goal has been saved. *)
Definition custom_page (st : State) (goal : CalorieGoal.t) : State :=
  {| history :=
       History.setCalorieGoals
         (goal :: History.calorieGoals (history st))
         (History.setCurrentGoal (Some goal) (history st));
     user := user st;
     showCustomGoal := false;
     customCalories := "";
     isSavingCustomGoal := false |}.

(** A world of the dialog of the custom goal. *)
Definition custom_dialog (u : option Calculator.User) (text : string)
  (current : option CalorieGoal.t) (ls : LocalStorage) (answer : Response)
  : World State :=
  {| page := {| history := showing three_meals [] current "";
                user := u;
                showCustomGoal := true;
                customCalories := text;
                isSavingCustomGoal := false |};
     localStorage := ls;
     supabase := fun _ => answer;
     sent := [];
     toasts := [];
     route := None |}.

End CustomGoalNotions.

Section MacroNotions.
Import History HistoryMore.

(** The goal of the page for a macronutrient. *)
Definition macro_of (m : Macro) (g : CalorieGoal.t) : option number :=
  match m with
  | Protein => CalorieGoal.protein_goal g
  | Carbs => CalorieGoal.carbs_goal g
  | Fat => CalorieGoal.fat_goal g
  end.

(** Every field but protein_goal, carbs_goal and fat_goal is the same
    in the two goals. *)
Definition same_but_macros (a b : CalorieGoal.t) : Prop :=
  CalorieGoal.id a = CalorieGoal.id b
  /\ CalorieGoal.user_id a = CalorieGoal.user_id b
  /\ CalorieGoal.bmr a = CalorieGoal.bmr b
  /\ CalorieGoal.tdee a = CalorieGoal.tdee b
  /\ CalorieGoal.maintenance_calories a = CalorieGoal.maintenance_calories b
  /\ CalorieGoal.weight_loss_calories a = CalorieGoal.weight_loss_calories b
  /\ CalorieGoal.weight_gain_calories a = CalorieGoal.weight_gain_calories b
  /\ CalorieGoal.age a = CalorieGoal.age b
  /\ CalorieGoal.weight a = CalorieGoal.weight b
  /\ CalorieGoal.height a = CalorieGoal.height b
  /\ CalorieGoal.gender a = CalorieGoal.gender b
  /\ CalorieGoal.activity_level a = CalorieGoal.activity_level b
  /\ CalorieGoal.unit_system a = CalorieGoal.unit_system b
  /\ CalorieGoal.goal_type a = CalorieGoal.goal_type b
  /\ CalorieGoal.created_at a = CalorieGoal.created_at b.

(** What the local write of Save Goals makes of a stored goal: a goal
    with the id of the current goal takes its three macro goals and
    keeps its other fields, and any other goal stays as it is. *)
Definition merged (current stored written : CalorieGoal.t) : Prop :=
  (CalorieGoal.id stored = CalorieGoal.id current
   /\ same_but_macros written stored
   /\ forall m, macro_of m written = macro_of m current)
  \/ (CalorieGoal.id stored <> CalorieGoal.id current /\ written = stored).

Definition loading_failed (cause : Error) : Toast :=
  {| title := "Error loading history";
     description := message cause;
     variant := Some "destructive" |}.

End MacroNotions.

Section WindowNotions.
Import History.

(** The time of analysis of the meal is a whole number of milliseconds,
    or the date is invalid: the time values of JavaScript dates. *)
Definition on_the_clock (m : MealAnalysis) : Prop :=
  getTime (analyzed_at m) = NaN
  \/ exists z : Z, getTime (analyzed_at m) = of_Z z.

(** The date with the given time in milliseconds. *)
Definition at_ms (z : Z) : Date := mkDate (of_Z z).

(** The goal was created before the given time. *)
Definition created_before (created : Z) (g : CalorieGoal.t) : Prop :=
  (getTime (CalorieGoal.created_at g) <? of_Z created)%js = true.

End WindowNotions.

(* ================================================================= *)
(** ** What the pages show *)

(** More of JavaScript.  A division by zero is NaN here; JavaScript
    gives an infinity for a dividend that is not zero, which the model
    of numbers does not have. *)
Module JSMore.

Definition div (x y : number) : number :=
  match x, y with
  | Num a, Num b => if Qeq_bool b 0 then NaN else Num (a / b)
  | _, _ => NaN
  end.

(** [Math.min(x, y)] *)
Definition Math_min (x y : number) : number :=
  match x, y with
  | Num a, Num b => if Qle_bool a b then Num a else Num b
  | _, _ => NaN
  end.

(** A number that may be missing, as a condition: null, undefined, NaN
    and 0 are falsy. *)
Definition truthy (x : option number) : bool :=
  match x with
  | Some n => negb (not_number n)
  | None => false
  end.

(** [s.includes(sub)] *)
Fixpoint includes (sub s : string) : bool :=
  String.prefix sub s
  || match s with
     | EmptyString => false
     | String _ s' => includes sub s'
     end.

End JSMore.

Import JSMore.

Infix "/" := div : js_scope.

(** A value read from JSON. *)
Module Json.

(** In [obj] the fields are the properties of the object; of two fields
    with one name the first counts. *)
#[warnings="-register-all"] Inductive value : Type :=
| null
| bool (b : Datatypes.bool)
| num (n : number)
| str (s : string)
| arr (items : list value)
| obj (fields : list (string * value)).

(** [v.key], with [None] for undefined.  The names read by the pages
    are not properties of arrays, strings, numbers or booleans. *)
Definition get (key : string) (v : value) : option value :=
  match v with
  | obj fields =>
      match find (fun f => String.eqb (fst f) key) fields with
      | Some f => Some (snd f)
      | None => None
      end
  | _ => None
  end.

(** [key in v] for an object [v]. *)
Definition has (key : string) (v : value) : Datatypes.bool :=
  match get key v with Some _ => true | None => false end.

(** [!v] *)
Definition falsy (v : value) : Datatypes.bool :=
  match v with
  | null => true
  | bool b => negb b
  | num n => not_number n
  | str s => not_string s
  | arr _ => false
  | obj _ => false
  end.

(** [!v] for a value that may be undefined. *)
Definition not (v : option value) : Datatypes.bool :=
  match v with
  | Some v => falsy v
  | None => true
  end.

End Json.

(** The card of a summary on the history page (SummaryCard). *)
Module SummaryCard.
Import History.

(** The banner of the goal status. *)
Record Banner : Type := mkBanner {
  heading : string;
  consumed : number;
  target : number;
  badge : number
}.

(** The banner is shown when [summary.dailyGoal] is truthy. *)
Definition banner (summary : NutritionSummary) : option Banner :=
  match dailyGoal summary with
  | Some goal =>
      if not_number goal then None
      else
        Some {| heading :=
                  match goalStatus summary with
                  | Some met => "Goal Met!"
                  | Some under => "Under Goal"
                  | _ => "Over Goal"
                  end;
                consumed := Math_round (totalCalories summary);
                target := Math_round goal;
                badge :=
                  Math_round ((totalCalories summary / goal) * Num 100)%js |}
  | None => None
  end.

(** The progress of a macronutrient. *)
Record Progress : Type := mkProgress {
  eaten : number;
  aimed : number;
  width : number;
  percent : number
}.

(** The block of a macronutrient is shown when its goal is truthy. *)
Definition progress (total : number) (goal : option number)
  : option Progress :=
  match goal with
  | Some goal =>
      if not_number goal then None
      else
        Some {| eaten := Math_round total;
                aimed := Math_round goal;
                width := Math_min (Num 100) ((total / goal) * Num 100)%js;
                percent := Math_round ((total / goal) * Num 100)%js |}
  | None => None
  end.

Definition proteinProgress (st : State) (summary : NutritionSummary)
  : option Progress :=
  match currentGoal st with
  | Some currentGoal =>
      progress (totalProtein summary) (CalorieGoal.protein_goal currentGoal)
  | None => None
  end.

Definition carbsProgress (st : State) (summary : NutritionSummary)
  : option Progress :=
  match currentGoal st with
  | Some currentGoal =>
      progress (totalCarbs summary) (CalorieGoal.carbs_goal currentGoal)
  | None => None
  end.

Definition fatProgress (st : State) (summary : NutritionSummary)
  : option Progress :=
  match currentGoal st with
  | Some currentGoal =>
      progress (totalFat summary) (CalorieGoal.fat_goal currentGoal)
  | None => None
  end.

End SummaryCard.

(** The result of an analysis and its display (NutritionResults). *)
Module NutritionResults.

Record NutritionData : Type := mkData {
  calories : number;
  protein : number;
  carbs : number;
  fat : number;
  confidence : option number;
  foodItems : option (list Json.value)
}.

Record Percents : Type := mkPercents {
  proteinPercent : number;
  carbsPercent : number;
  fatPercent : number;
  confidencePercent : number
}.

(** Calculate percentages for macros (basic estimation). *)
Definition percents (data : NutritionData) : Percents :=
  let confidence :=
    match confidence data with Some c => c | None => Num 0.85 end in
  let totalMacros :=
    (protein data * Num 4 + carbs data * Num 4 + fat data * Num 9)%js in
  {| proteinPercent :=
       Math_round ((protein data * Num 4 / totalMacros) * Num 100)%js;
     carbsPercent :=
       Math_round ((carbs data * Num 4 / totalMacros) * Num 100)%js;
     fatPercent :=
       Math_round ((fat data * Num 9 / totalMacros) * Num 100)%js;
     confidencePercent := Math_round (confidence * Num 100)%js |}.

End NutritionResults.

(* ================================================================= *)
(** ** The home page (Index) *)

Module Index.
Import NutritionResults.

(** A file chosen by the user; the page reads its name only. *)
Record File : Type := mkFile { name : string }.

Record State : Type := mkState {
  selectedImage : option File;
  isAnalyzing : Datatypes.bool;
  nutritionData : option NutritionData;
  user : option Calculator.User;
  isSaving : Datatypes.bool;
  savedToHistory : Datatypes.bool
}.

Definition setSelectedImage (f : option File) (st : State) : State :=
  mkState f (isAnalyzing st) (nutritionData st) (user st) (isSaving st)
          (savedToHistory st).

Definition setIsAnalyzing (b : Datatypes.bool) (st : State) : State :=
  mkState (selectedImage st) b (nutritionData st) (user st) (isSaving st)
          (savedToHistory st).

Definition setNutritionData (d : option NutritionData) (st : State) : State :=
  mkState (selectedImage st) (isAnalyzing st) d (user st) (isSaving st)
          (savedToHistory st).

Definition setSavedToHistory (b : Datatypes.bool) (st : State) : State :=
  mkState (selectedImage st) (isAnalyzing st) (nutritionData st) (user st)
          (isSaving st) b.

(** What [response.json()] gives: an exception or the value read. *)
Inductive Body : Type :=
| Unreadable (e : Error)
| Parsed (data : Json.value).

(** What [fetch] gives: an exception, or a response with [ok], [status]
    and a body. *)
Inductive Reply : Type :=
| Unreachable (e : Error)
| Answered (ok : Datatypes.bool) (status : Z) (body : Body).

(** Normalize API response to expected array format:
    [Array.isArray(data) ? data : (data && typeof data === 'object' &&
    'output' in data) ? [data] : null] *)
Definition normalize (data : Json.value) : option (list Json.value) :=
  match data with
  | Json.arr items => Some items
  | Json.obj _ => if Json.has "output" data then Some [data] else None
  | _ => None
  end.

(** [typeof v === 'number'] for a value that may be undefined. *)
Definition is_number (v : option Json.value) : Datatypes.bool :=
  match v with
  | Some (Json.num _) => true
  | _ => false
  end.

(** [v.key] for a value [v] that may be undefined but is truthy. *)
Definition field (key : string) (v : option Json.value)
  : option Json.value :=
  match v with
  | Some v => Json.get key v
  | None => None
  end.

Definition number_of (v : option Json.value) : number :=
  match v with
  | Some (Json.num n) => n
  | _ => NaN
  end.

Section Analysis.

(** [String(v)] for a truthy value [v] that is not a string, and
    [s.toLowerCase()]. *)
Variable ToString : Json.value -> string.
Variable toLowerCase : string -> string.

(** [String(data.message || '')] *)
Definition message_text (data : Json.value) : string :=
  match Json.get "message" data with
  | Some (Json.str s) => s
  | Some m => if Json.falsy m then "" else ToString m
  | None => ""
  end.

Definition handleImageSelect (file : File) (reply : Reply) : M State void :=
  set (setSelectedImage (Some file)) ;;
  set (setNutritionData None) ;;
  set (setSavedToHistory false) ;;
  set (setIsAnalyzing true) ;;
  finally
    (try_catch
       (data <-
          match reply with
          | Unreachable e => throw e
          | Answered ok status body =>
              if negb ok then
                throw (mkError ("Failed to analyze image: " ++ toString status))
              else
                match body with
                | Unreadable e => throw e
                | Parsed data => ret data
                end
          end ;;
        match normalize data with
        | None =>
            (* Handle async/queued workflow message *)
            match data with
            | Json.obj _ =>
                if Json.has "message" data then
                  let msg := message_text data in
                  if includes "workflow" (toLowerCase msg) then
                    throw (mkError
                      "Analysis is still processing. Please try again in a moment.")
                  else throw (mkError ("Unexpected API message: " ++ msg))
                else throw (mkError "Unexpected API response structure.")
            | _ => throw (mkError "Unexpected API response structure.")
            end
        | Some normalizedArray =>
            let result :=
              match normalizedArray with
              | first :: _ => Json.get "output" first
              | [] => None
              end in
            (* Validate required fields *)
            if (Json.not result
                || negb match field "status" result with
                        | Some (Json.str s) => String.eqb s "success"
                        | _ => false
                        end)%bool
            then throw (mkError "Invalid response: status is not success.")
            else
              let total := field "total" result in
              if (Json.not total
                  || negb (is_number (field "calories" total))
                  || negb (is_number (field "protein" total))
                  || negb (is_number (field "carbs" total))
                  || negb (is_number (field "fat" total)))%bool
              then
                throw (mkError
                  "Invalid response format - missing total fields (calories, protein, carbs, fat).")
              else
                match field "food" result with
                | Some (Json.arr food) =>
                    set (setNutritionData (Some {|
                      calories := number_of (field "calories" total);
                      protein := number_of (field "protein" total);
                      carbs := number_of (field "carbs" total);
                      fat := number_of (field "fat" total);
                      confidence := None;
                      foodItems := Some food
                    |})) ;;
                    toast {| title := "Analysis Complete!";
                             description :=
                               "Your meal's nutrition has been analyzed successfully.";
                             variant := None |}
                | _ =>
                    throw (mkError
                      "Invalid response format - food must be an array.")
                end
        end)
       (fun error =>
          toast {| title := "Analysis Failed";
                   description := message error;
                   variant := Some "destructive" |}))
    (set (setIsAnalyzing false)).

End Analysis.

Definition handleClear : M State void :=
  set (setSelectedImage None) ;;
  set (setNutritionData None) ;;
  set (setIsAnalyzing false) ;;
  set (setSavedToHistory false).

End Index.

Section IndexNotions.
Import Index NutritionResults.

(** The entry of the answer that the page looks at: the first item of
    an array, or an object with a property output. *)
Definition looked_at (data : Json.value) : option Json.value :=
  match data with
  | Json.arr (first :: _) => Some first
  | Json.obj _ => if Json.has "output" data then Some data else None
  | _ => None
  end.

(** The answer holds a successful analysis with these figures. *)
Definition analysed (data : Json.value) (d : NutritionData) : Prop :=
  exists first result total food c p cb f,
    looked_at data = Some first
    /\ Json.get "output" first = Some result
    /\ Json.get "status" result = Some (Json.str "success")
    /\ Json.get "total" result = Some total
    /\ Json.get "calories" total = Some (Json.num c)
    /\ Json.get "protein" total = Some (Json.num p)
    /\ Json.get "carbs" total = Some (Json.num cb)
    /\ Json.get "fat" total = Some (Json.num f)
    /\ Json.get "food" result = Some (Json.arr food)
    /\ d = {| calories := c; protein := p; carbs := cb; fat := f;
              confidence := None; foodItems := Some food |}.

Definition analysis_complete : Toast :=
  {| title := "Analysis Complete!";
     description := "Your meal's nutrition has been analyzed successfully.";
     variant := None |}.

Definition analysis_failed (text : string) : Toast :=
  {| title := "Analysis Failed";
     description := text;
     variant := Some "destructive" |}.

(** The home page before an analysis. *)
Definition home (previous : option NutritionData) : World State :=
  {| page := {| selectedImage := None; isAnalyzing := false;
                nutritionData := previous; user := None;
                isSaving := false; savedToHistory := false |};
     localStorage := mkLocalStorage Absent None;
     supabase := fun _ => mkResponse None None;
     sent := [];
     toasts := [];
     route := None |}.

(** An answer of the analysis service. *)
Definition sample_output : Json.value :=
  Json.obj
    [("output",
      Json.obj
        [("status", Json.str "success");
         ("food", Json.arr [Json.obj [("name", Json.str "Rice")]]);
         ("total",
          Json.obj [("calories", Json.num (Num 480));
                    ("protein", Json.num (Num 30));
                    ("carbs", Json.num (Num 40));
                    ("fat", Json.num (Num 10))])])].

End IndexNotions.

(* ================================================================= *)
(** ** Saving an analysis (Index) *)

(** A row of the table meal_analyses. *)
Module MealAnalysis.

Record t : Type := mk {
  user_id : string;
  image_url : string;
  calories : number;
  protein : number;
  carbs : number;
  fat : number;
  food_items : list Json.value
}.

End MealAnalysis.

Module Saving.
Import Index.

(** [s.split('.').pop()]: what follows the last dot of [s], or [s] when
    it has no dot; [current] is the part read since the last dot. *)
Fixpoint split_pop (current s : string) : string :=
  match s with
  | EmptyString => current
  | String c s' =>
      if Ascii.eqb c "." then split_pop EmptyString s'
      else split_pop (current ++ String c EmptyString) s'
  end.

(** What the page asks of the storage and of the table. *)
Inductive Operation : Type :=
| Upload (fileName : string) (file : File)
| InsertMeal (row : MealAnalysis.t).

(** What the storage and the table answer. *)
Record Remote : Type := mkRemote {
  upload : string -> File -> option Error;
  getPublicUrl : string -> string;
  insert : MealAnalysis.t -> option Error
}.

(** The page with what it has asked so far. *)
Record State : Type := mkState {
  index : Index.State;
  operations : list Operation
}.

Definition lift (f : Index.State -> Index.State) (st : State) : State :=
  mkState (f (index st)) (operations st).

Definition attempt (op : Operation) : M State void :=
  set (fun st => mkState (index st) (operations st ++ [op])).

Definition setIsSaving (b : Datatypes.bool) (st : Index.State)
  : Index.State :=
  Index.mkState (selectedImage st) (isAnalyzing st) (nutritionData st)
                (user st) b (savedToHistory st).

Definition saveMealAnalysis (remote : Remote) (now : Z)
  (user : Calculator.User) (imageFile : File)
  (nutrition : NutritionResults.NutritionData) : M State void :=
  try_catch
    ((* Upload image to storage *)
     let fileExt := split_pop "" (name imageFile) in
     let fileName :=
       (Calculator.uid user ++ "/" ++ toString now ++ "." ++ fileExt)%string in
     attempt (Upload fileName imageFile) ;;
     match upload remote fileName imageFile with
     | Some uploadError => throw uploadError
     | None =>
         (* Get public URL *)
         let publicUrl := getPublicUrl remote fileName in
         (* Save to database *)
         let row :=
           {| MealAnalysis.user_id := Calculator.uid user;
              MealAnalysis.image_url := publicUrl;
              MealAnalysis.calories := NutritionResults.calories nutrition;
              MealAnalysis.protein := NutritionResults.protein nutrition;
              MealAnalysis.carbs := NutritionResults.carbs nutrition;
              MealAnalysis.fat := NutritionResults.fat nutrition;
              MealAnalysis.food_items :=
                match NutritionResults.foodItems nutrition with
                | Some items => items
                | None => []
                end |} in
         attempt (InsertMeal row) ;;
         match insert remote row with
         | Some dbError => throw dbError
         | None => ret tt
         end
     end)
    (fun error => throw error).

Definition handleSaveToHistory (remote : Remote) (now : Z) : M State void :=
  st <- get ;;
  match user (index st) with
  | None =>
      toast {| title := "Sign in required";
               description := "Please sign in to save your meal history.";
               variant := None |} ;;
      navigate "/auth"
  | Some u =>
      match selectedImage (index st), nutritionData (index st) with
      | Some selectedImage, Some nutritionData =>
          set (lift (setIsSaving true)) ;;
          finally
            (try_catch
               (saveMealAnalysis remote now u selectedImage nutritionData ;;
                set (lift (setSavedToHistory true)) ;;
                toast {| title := "Saved to History!";
                         description :=
                           "Your meal analysis has been saved successfully.";
                         variant := None |})
               (fun _ =>
                  toast {| title := "Save failed";
                           description :=
                             "Failed to save to history. Please try again.";
                           variant := Some "destructive" |}))
            (set (lift (setIsSaving false)))
      | _, _ => ret tt
      end
  end.

End Saving.

Section SavingNotions.
Import Index Saving.

Definition sign_in_for_history : Toast :=
  {| title := "Sign in required";
     description := "Please sign in to save your meal history.";
     variant := None |}.

Definition meal_saved : Toast :=
  {| title := "Saved to History!";
     description := "Your meal analysis has been saved successfully.";
     variant := None |}.

Definition meal_save_failed : Toast :=
  {| title := "Save failed";
     description := "Failed to save to history. Please try again.";
     variant := Some "destructive" |}.

(** The name under which a file is stored. *)
Definition stored_name (u : Calculator.User) (now : Z) (file : File)
  : string :=
  (Calculator.uid u ++ "/" ++ toString now ++ "."
   ++ split_pop "" (name file))%string.

(** The row of a result. *)
Definition row_of (remote : Remote) (u : Calculator.User) (now : Z)
  (file : File) (d : NutritionResults.NutritionData) : MealAnalysis.t :=
  {| MealAnalysis.user_id := Calculator.uid u;
     MealAnalysis.image_url := getPublicUrl remote (stored_name u now file);
     MealAnalysis.calories := NutritionResults.calories d;
     MealAnalysis.protein := NutritionResults.protein d;
     MealAnalysis.carbs := NutritionResults.carbs d;
     MealAnalysis.fat := NutritionResults.fat d;
     MealAnalysis.food_items :=
       match NutritionResults.foodItems d with
       | Some items => items
       | None => []
       end |}.

(** Both the storage and the table accept what the page asks. *)
Definition remote_accepts (remote : Remote) (u : Calculator.User) (now : Z)
  (file : File) (d : NutritionResults.NutritionData) : Datatypes.bool :=
  match upload remote (stored_name u now file) file with
  | Some _ => false
  | None =>
      match insert remote (row_of remote u now file d) with
      | Some _ => false
      | None => true
      end
  end.

(** What the page asks when it saves a result. *)
Definition asked_to_save (remote : Remote) (u : Calculator.User) (now : Z)
  (file : File) (d : NutritionResults.NutritionData) : list Operation :=
  Upload (stored_name u now file) file
  :: match upload remote (stored_name u now file) file with
     | Some _ => []
     | None => [InsertMeal (row_of remote u now file d)]
     end.

(** The home page of a world, with nothing asked yet. *)
Definition about_to_save (w : World Index.State) : World State :=
  {| page := {| index := page w; operations := [] |};
     localStorage := localStorage w;
     supabase := supabase w;
     sent := sent w;
     toasts := toasts w;
     route := route w |}.

(** A remote side that accepts all but the rows of [refused]. *)
Definition meal_storage (refused : Datatypes.bool) : Remote :=
  {| upload := fun _ _ => None;
     getPublicUrl := fun fileName => ("https://storage/" ++ fileName)%string;
     insert := fun _ =>
       if refused then Some (mkError "row violates policy") else None |}.

End SavingNotions.

Ltac handler :=
  unfold run, History.fetchCalorieGoals, History.saveEditedCalorieGoal,
         Calculator.saveCalorieGoal,
         bind, try_catch, finally, ret, throw, get, set, toast, navigate,
         request, getGoals, setGoals;
  cbn [fst snd page localStorage supabase sent toasts route
       calorie_goals quota].

Ltac handler_more :=
  unfold CustomGoal.saveCustomCalorieGoal, HistoryMore.fetchMeals,
         HistoryMore.changeMacroGoal, HistoryMore.clearMacroGoals,
         HistoryMore.saveMacroGoals;
  handler.

(* ================================================================= *)
(** ** Orders on numbers and dates *)

Lemma Qltb_lt (a b : Q) : Qltb a b = true <-> (a < b)%Q.
Proof.
  unfold Qltb. rewrite negb_true_iff. split.
  - intros E. apply Qnot_le_lt. intros L.
    apply Qle_bool_iff in L. congruence.
  - intros L. destruct (Qle_bool b a) eqn:E; [|reflexivity].
    apply Qle_bool_iff in E. exfalso. exact (Qlt_not_le _ _ L E).
Qed.

Lemma Qltb_ge (a b : Q) : Qltb a b = false <-> (b <= a)%Q.
Proof.
  unfold Qltb. rewrite negb_false_iff. apply Qle_bool_iff.
Qed.

Lemma lt_Num (a b : Q) : (Num a <? Num b)%js = true <-> (a < b)%Q.
Proof. apply Qltb_lt. Qed.

Lemma gt_Num (a b : Q) : (Num a >? Num b)%js = true <-> (b < a)%Q.
Proof. apply Qltb_lt. Qed.

Lemma le_Num (a b : Q) : (Num a <=? Num b)%js = true <-> (a <= b)%Q.
Proof. apply Qle_bool_iff. Qed.

Lemma ge_Num (a b : Q) : (Num a >=? Num b)%js = true <-> (b <= a)%Q.
Proof. apply Qle_bool_iff. Qed.

(* ================================================================= *)
(** ** The calorie engine *)

Section Engine.
Import Calculator.



(** The imperial scenario: 154 lb and 69 in. *)
Example toMetric_imperial_scenario :
  toMetric imperial (parseFloat "154") (parseFloat "69")
  = (Num 69.853168, Num 175.26).
Proof. vm_compute. reflexivity. Qed.

Lemma not_number_ge_1 (a : Q) : (1 <= a)%Q -> not_number (Num a) = false.
Proof.
  intros H. unfold not_number. destruct (Qeq_bool a 0) eqn:E; [|reflexivity].
  apply Qeq_bool_iff in E. lra.
Qed.

Lemma lt_1_ge_1 (a : Q) : (1 <= a)%Q -> (Num a <? Num 1)%js = false.
Proof. intros H. apply Qltb_ge. exact H. Qed.

(** [calculateCalories] goes on when age, weight and height read as
    numbers that are at least 1; the results are the rounded figures of
    [calculateBMR] at the converted weight and height. *)
Lemma calculateCalories_accepts (w : World State) (a wt h : Q) :
  parseInt (age (inputs (page w))) = Num a ->
  parseFloat (weight (inputs (page w))) = Num wt ->
  parseFloat (height (inputs (page w))) = Num h ->
  (1 <= a)%Q -> (1 <= wt)%Q -> (1 <= h)%Q ->
  let '(weightKg, heightCm) :=
    toMetric (unit (inputs (page w))) (Num wt) (Num h) in
  let bmr := calculateBMR (Num a) weightKg heightCm (gender (inputs (page w))) in
  let tdee := (bmr * parseFloat (activityLevel (inputs (page w))))%js in
  results (page (run calculateCalories w))
  = Some {| bmr := Math_round bmr;
            tdee := Math_round tdee;
            maintenance := Math_round tdee;
            weightLoss := Math_round (tdee - Num 500)%js;
            weightGain := Math_round (tdee + Num 500)%js |}.
Proof.
  intros Ha Hw Hh La Lw Lh.
  unfold run, calculateCalories, bind, get. cbn [fst snd page].
  rewrite Ha, Hw, Hh.
  rewrite !not_number_ge_1, !lt_1_ge_1 by assumption. cbn [orb].
  destruct (toMetric (unit (inputs (page w))) (Num wt) (Num h))
    as [weightKg heightCm].
  reflexivity.
Qed.

(** [calculateCalories] leaves the results as they are when age, weight
    or height does not read as a number. *)
Lemma calculateCalories_rejects_NaN (w : World State) :
  parseInt (age (inputs (page w))) = NaN
  \/ parseFloat (weight (inputs (page w))) = NaN
  \/ parseFloat (height (inputs (page w))) = NaN ->
  run calculateCalories w = w.
Proof.
  intros H.
  unfold run, calculateCalories, bind, get. cbn [fst snd page].
  destruct H as [H | [H | H]]; rewrite H; cbn [not_number orb];
    rewrite ?orb_true_r; reflexivity.
Qed.

(** C2, as the code has it: for age 25, weight 70 kg, height 175 cm,
    male and activity 1.55 the results are bmr 1674, tdee 2594,
    maintenance 2594, weightLoss 2094 and weightGain 3094. *)
Theorem calculateCalories_scenario :
  results (page (run calculateCalories
                     (form "25" "70" "175" male "1.55" metric)))
  = Some {| bmr := Num 1674; tdee := Num 2594; maintenance := Num 2594;
            weightLoss := Num 2094; weightGain := Num 3094 |}.
Proof. vm_compute. reflexivity. Qed.

(** C2, as the specification has it, fails: the results are not bmr
    1725, tdee 2674, maintenance 2674, weightLoss 2174 and weightGain
    3174. *)
Lemma specified_figures_differ :
  results (page (run calculateCalories
                     (form "25" "70" "175" male "1.55" metric)))
  <> Some {| bmr := Num 1725; tdee := Num 2674; maintenance := Num 2674;
             weightLoss := Num 2174; weightGain := Num 3174 |}.
Proof. vm_compute. discriminate. Qed.

End Engine.

(* ================================================================= *)
(** ** The nutrition summary *)

Section Summary.
Import History.

Lemma goalStatusOf_under (total goal : Q) :
  goalStatusOf (Num total) (Num goal) = under <-> (total < 0.9 * goal)%Q.
Proof.
  unfold goalStatusOf.
  destruct (Num total <? Num goal * Num 0.9)%js eqn:U.
  - apply lt_Num in U. split; [lra | reflexivity].
  - apply Qltb_ge in U.
    destruct (Num total >? Num goal * Num 1.1)%js;
      (split; [discriminate | lra]).
Qed.

Lemma goalStatusOf_over (total goal : Q) :
  (0 < goal)%Q ->
  goalStatusOf (Num total) (Num goal) = over <-> (1.1 * goal < total)%Q.
Proof.
  intros Hpos. unfold goalStatusOf.
  destruct (Num total <? Num goal * Num 0.9)%js eqn:U.
  - apply lt_Num in U. split; [discriminate | lra].
  - destruct (Num total >? Num goal * Num 1.1)%js eqn:O.
    + apply gt_Num in O. split; [lra | reflexivity].
    + apply Qltb_ge in O. split; [discriminate | lra].
Qed.

Lemma goalStatusOf_met (total goal : Q) :
  (0 < goal)%Q ->
  goalStatusOf (Num total) (Num goal) = met
  <-> (0.9 * goal <= total /\ total <= 1.1 * goal)%Q.
Proof.
  intros Hpos.
  pose proof (goalStatusOf_under total goal) as U.
  pose proof (goalStatusOf_over total goal Hpos) as O.
  destruct (goalStatusOf (Num total) (Num goal)) eqn:E.
  - split; [discriminate|]. intros [L _].
    assert (total < 0.9 * goal)%Q by (apply U; reflexivity). lra.
  - split; [discriminate|]. intros [_ R].
    assert (1.1 * goal < total)%Q by (apply O; reflexivity). lra.
  - split; [|reflexivity]. intros _. split.
    + apply Qnot_lt_le. intros L. apply U in L. discriminate.
    + apply Qnot_lt_le. intros R. apply O in R. discriminate.
Qed.






(** *** The window and the totals *)

Lemma same_refl x : same x x.
Proof. destruct x; simpl; [exact I | reflexivity]. Qed.

Lemma same_trans x y z : same x y -> same y z -> same x z.
Proof.
  destruct x, y, z; simpl; try tauto. intros H1 H2. rewrite H1. exact H2.
Qed.

Lemma add_assoc x y z : same (x + y + z)%js (x + (y + z))%js.
Proof. destruct x, y, z; simpl; try exact I. ring. Qed.

Lemma add_0_r x : same (x + Num 0)%js x.
Proof. destruct x; simpl; [exact I | ring]. Qed.

Lemma add_0_l x : same (Num 0 + x)%js x.
Proof. destruct x; simpl; [exact I | ring]. Qed.

Lemma fold_left_add (l : list number) (a : number) :
  same (fold_left add l a) (a + sum l)%js.
Proof.
  revert a. induction l as [|x l IH]; intros a; simpl.
  - destruct a; simpl; [exact I | ring].
  - eapply same_trans; [apply IH | apply add_assoc].
Qed.

Lemma fold_left_add_0 (l : list number) : same (fold_left add l (Num 0)) (sum l).
Proof.
  eapply same_trans; [apply fold_left_add | apply add_0_l].
Qed.

Lemma in_window_correct (startDate endDate : Date) (meal : MealAnalysis) :
  in_window startDate endDate meal = true
  <-> Date_le startDate (analyzed_at meal)
      /\ Date_le (analyzed_at meal) endDate.
Proof.
  unfold in_window, Date_le. rewrite andb_true_iff.
  destruct (getTime (analyzed_at meal)) as [|t],
           (getTime startDate) as [|a], (getTime endDate) as [|b];
    simpl; try (split; [intros [? ?]; discriminate | tauto]).
  unfold ge, le. rewrite !Qle_bool_iff. tauto.
Qed.

(** What [reduce] computes, field by field. *)
Lemma fold_add_meal (l : list MealAnalysis) (acc : NutritionSummary) :
  let r := fold_left add_meal l acc in
  totalCalories r = fold_left add (map calories l) (totalCalories acc)
  /\ totalProtein r = fold_left add (map protein l) (totalProtein acc)
  /\ totalCarbs r = fold_left add (map carbs l) (totalCarbs acc)
  /\ totalFat r = fold_left add (map fat l) (totalFat acc)
  /\ mealCount r
     = fold_left add (map (fun _ => Num 1) l) (mealCount acc)
  /\ dailyGoal r = dailyGoal acc
  /\ goalType r = goalType acc
  /\ goalStatus r = goalStatus acc.
Proof.
  revert acc. induction l as [|m l IH]; intros acc; simpl.
  - repeat split.
  - apply (IH (add_meal acc m)).
Qed.

Lemma add_of_Z (n m : Z) : (of_Z n + of_Z m)%js = of_Z (n + m).
Proof.
  unfold of_Z, add, lift2, Qplus, inject_Z. cbn [Qnum Qden].
  rewrite !Z.mul_1_r. reflexivity.
Qed.

Lemma count_ones {A} (l : list A) (n : Z) :
  fold_left add (map (fun _ => Num 1) l) (of_Z n)
  = of_Z (n + Z.of_nat (List.length l)).
Proof.
  revert n. induction l as [|x l IH]; intros n.
  - cbn [map fold_left List.length]. rewrite Z.add_0_r. reflexivity.
  - cbn [map fold_left List.length].
    change (Num 1) with (of_Z 1). rewrite add_of_Z, IH.
    f_equal. lia.
Qed.

(** The totals do not depend on the goal. *)
Lemma calculateSummary_reduce (st : State) (startDate endDate : Date) :
  let r := fold_left add_meal
                     (filter (in_window startDate endDate) (meals st))
                     no_meals in
  let s := calculateSummary st startDate endDate in
  totalCalories s = totalCalories r
  /\ totalProtein s = totalProtein r
  /\ totalCarbs s = totalCarbs r
  /\ totalFat s = totalFat r
  /\ mealCount s = mealCount r.
Proof.
  unfold calculateSummary. destruct (currentGoal st); repeat split.
Qed.



(** The aggregation scenario: three meals of 500, 700 and 300 calories
    in the window total 1500 in 3 meals, which is under a maintenance
    goal of 2000. *)
Example calculateSummary_three_meals :
  let s := calculateSummary
             (showing three_meals []
                      (Some (sample_goal "g" 2000 1500 2500 "maintenance" 50))
                      "")
             (mkDate (of_Z 100)) (mkDate (of_Z 300)) in
  totalCalories s = Num 1500 /\ mealCount s = Num 3
  /\ dailyGoal s = Some (Num 2000) /\ goalStatus s = Some under.
Proof. vm_compute. repeat split. Qed.

(** C10: with a current goal, the target of the summary is
    maintenance_calories when goal_type is maintenance,
    weight_loss_calories when it is weight_loss, and
    weight_gain_calories for every other goal_type, custom included;
    the status is the classification of the total against that target. *)
Theorem calculateSummary_goal_target (st : State) (startDate endDate : Date)
  (goal : CalorieGoal.t) :
  currentGoal st = Some goal ->
  let s := calculateSummary st startDate endDate in
  (CalorieGoal.goal_type goal = "maintenance" ->
   dailyGoal s = Some (CalorieGoal.maintenance_calories goal))
  /\ (CalorieGoal.goal_type goal = "weight_loss" ->
      dailyGoal s = Some (CalorieGoal.weight_loss_calories goal))
  /\ (CalorieGoal.goal_type goal <> "maintenance" ->
      CalorieGoal.goal_type goal <> "weight_loss" ->
      dailyGoal s = Some (CalorieGoal.weight_gain_calories goal))
  /\ (CalorieGoal.goal_type goal = "custom" ->
      dailyGoal s = Some (CalorieGoal.weight_gain_calories goal))
  /\ goalType s = Some (CalorieGoal.goal_type goal)
  /\ exists target,
       dailyGoal s = Some target
       /\ goalStatus s = Some (goalStatusOf (totalCalories s) target).
Proof.
  intros Hgoal s. subst s. unfold calculateSummary. rewrite Hgoal.
  cbn [dailyGoal goalType goalStatus totalCalories].
  unfold goalCaloriesOf.
  split; [|split; [|split; [|split; [|split]]]].
  - intros E. rewrite E. reflexivity.
  - intros E. rewrite E. reflexivity.
  - intros N1 N2.
    apply String.eqb_neq in N1. apply String.eqb_neq in N2.
    rewrite N1, N2. reflexivity.
  - intros E. rewrite E. reflexivity.
  - reflexivity.
  - eexists. split; reflexivity.
Qed.

Lemma calculateSummary_goal_target_witness :
  currentGoal (showing three_meals [custom_goal] (Some custom_goal) "")
  = Some custom_goal
  /\ CalorieGoal.goal_type custom_goal = "custom"
  /\ dailyGoal
       (calculateSummary (showing three_meals [custom_goal]
                                  (Some custom_goal) "")
                         (mkDate (of_Z 100)) (mkDate (of_Z 300)))
     = Some (CalorieGoal.weight_gain_calories custom_goal).
Proof.
  pose proof (calculateSummary_goal_target
                (showing three_meals [custom_goal] (Some custom_goal) "")
                (mkDate (of_Z 100)) (mkDate (of_Z 300)) custom_goal eq_refl)
    as H.
  cbv zeta in H. destruct H as (_ & _ & _ & Hcustom & _).
  split; [reflexivity|]. split; [reflexivity|].
  exact (Hcustom eq_refl).
Defined.

End Summary.

(* ================================================================= *)
(** ** The goal store *)

Section Store.
Import History.

Lemma sort_descending (goals : list CalorieGoal.t) :
  descending goals = true -> sort by_created_at_desc goals = goals.
Proof.
  induction goals as [|a l IH]; [reflexivity|].
  intros H. destruct l as [|b l']; [reflexivity|].
  cbn [descending] in H. apply andb_true_iff in H as [Hab Hrest].
  unfold sort in *. cbn [fold_right] in *. rewrite (IH Hrest).
  cbn [insert]. unfold by_created_at_desc.
  destruct (getTime (CalorieGoal.created_at a)) as [|x];
    destruct (getTime (CalorieGoal.created_at b)) as [|y];
    try discriminate.
  apply ge_Num in Hab.
  assert (G : (Num y - Num x >? Num 0)%js = false).
  { apply Qltb_ge. lra. }
  rewrite G. reflexivity.
Qed.

(** When the first entry is valid it is the first valid entry. *)
Lemma first_if_valid_selectCurrent (goals : list CalorieGoal.t)
  (g : CalorieGoal.t) :
  first_if_valid goals = Some g -> selectCurrent goals = Some g.
Proof.
  destruct goals as [|g0 rest]; [discriminate|].
  unfold first_if_valid, selectCurrent. cbn [find].
  destruct (has_valid_calories g0); [tauto | discriminate].
Qed.

(** C1, as the code has it: for every list of goals ordered by
    created_at descending, read from the remote store or, when that
    fails, from the local list, the current goal is the first entry
    when its id is non-empty and its maintenance_calories is positive,
    and none otherwise. *)
Theorem fetchCalorieGoals_current (w : World State)
  (goals : list CalorieGoal.t) :
  descending goals = true ->
  (data (supabase w SelectByCreatedAtDesc) = Some goals
   /\ error (supabase w SelectByCreatedAtDesc) = None)
  \/ (error (supabase w SelectByCreatedAtDesc) <> None
      /\ calorie_goals (localStorage w) = Goals goals) ->
  currentGoal (page (run fetchCalorieGoals w)) = first_if_valid goals.
Proof.
  intros Hsorted [[Hdata Herr] | [Herr Hlocal]].
  - handler. rewrite Herr. handler. rewrite Hdata.
    destruct goals as [|g rest]; [reflexivity|].
    cbn [first_if_valid]. destruct (has_valid_calories g); reflexivity.
  - handler. destruct (error (supabase w SelectByCreatedAtDesc)) as [e|];
      [|congruence].
    handler. rewrite Hlocal.
    destruct goals as [|g rest]; [reflexivity|].
    cbn [first_if_valid]. destruct (has_valid_calories g) eqn:V.
    + handler. rewrite (sort_descending _ Hsorted). cbn [hd_error].
      reflexivity.
    + reflexivity.
Qed.

Lemma fetchCalorieGoals_current_witness :
  descending [custom_goal; older_goal] = true
  /\ currentGoal
       (page (run fetchCalorieGoals
                  (history (showing [] [] None "")
                           (mkLocalStorage Absent None)
                           (rows [custom_goal; older_goal]))))
     = Some custom_goal
  /\ currentGoal
       (page (run fetchCalorieGoals
                  (history (showing [] [] None "")
                           (mkLocalStorage (Goals [custom_goal; older_goal])
                                           None)
                           unreachable)))
     = Some custom_goal.
Proof.
  split; [reflexivity|]. split.
  - apply (fetchCalorieGoals_current
             (history (showing [] [] None "") (mkLocalStorage Absent None)
                      (rows [custom_goal; older_goal]))
             [custom_goal; older_goal]);
      [reflexivity | left; split; reflexivity].
  - apply (fetchCalorieGoals_current
             (history (showing [] [] None "")
                      (mkLocalStorage (Goals [custom_goal; older_goal]) None)
                      unreachable)
             [custom_goal; older_goal]);
      [reflexivity | right; split; [discriminate | reflexivity]].
Defined.

(** C1, as the specification has it, fails: with a most recent goal
    without calories in front of a valid one, the list is ordered, its
    first valid entry is the second one, and the current goal is none,
    from the remote store and from the local list. *)
Lemma fetchCalorieGoals_does_not_skip :
  descending [empty_goal; older_goal] = true
  /\ selectCurrent [empty_goal; older_goal] = Some older_goal
  /\ currentGoal
       (page (run fetchCalorieGoals
                  (history (showing [] [] None "")
                           (mkLocalStorage Absent None)
                           (rows [empty_goal; older_goal]))))
     = None
  /\ currentGoal
       (page (run fetchCalorieGoals
                  (history (showing [] [] None "")
                           (mkLocalStorage (Goals [empty_goal; older_goal])
                                           None)
                           unreachable)))
     = None.
Proof. repeat split. Qed.

(** C8: the save is reported as done whenever the remote write or,
    after it has failed, the local write goes through; a failure is
    reported, with the message of its cause, exactly when both fail. *)
Theorem saveCalorieGoal_reports (w : World Calculator.State)
  (goalType : Calculator.GoalType) (now created : Z)
  (u : Calculator.User) (r : Calculator.CalorieResults) :
  Calculator.user (page w) = Some u ->
  Calculator.results (page w) = Some r ->
  let goal := Calculator.goalData (page w) u r goalType now created in
  let w' := run (Calculator.saveCalorieGoal goalType now created) w in
  let remote := error (supabase w (Insert goal)) in
  let fallback := write_failure (localStorage w) in
  sent w' = (sent w ++ [Insert goal])%list
  /\ (remote = None ->
      toasts w' = (toasts w ++ [goal_saved goalType])%list
      /\ localStorage w' = localStorage w)
  /\ (remote <> None -> fallback = None ->
      toasts w' = (toasts w ++ [goal_saved goalType])%list
      /\ calorie_goals (localStorage w')
         = Goals (stored_goals (localStorage w) ++ [goal])%list)
  /\ (forall cause, remote <> None -> fallback = Some cause ->
      toasts w' = (toasts w ++ [save_failed cause])%list
      /\ localStorage w' = localStorage w)
  /\ ((exists cause, toasts w' = (toasts w ++ [save_failed cause])%list)
      <-> remote <> None /\ fallback <> None).
Proof.
  intros Huser Hresults goal w' remote fallback.
  assert (Hsent : sent w' = (sent w ++ [Insert goal])%list).
  { subst w'. handler. rewrite Huser, Hresults. handler.
    fold goal. destruct (error (supabase w (Insert goal))); handler.
    - destruct (calorie_goals (localStorage w)); handler;
        try destruct (quota (localStorage w)); reflexivity.
    - reflexivity. }
  assert (Hok : remote = None ->
                toasts w' = (toasts w ++ [goal_saved goalType])%list
                /\ localStorage w' = localStorage w).
  { intros E. subst w' remote. handler. rewrite Huser, Hresults. handler.
    fold goal. rewrite E. handler. split; reflexivity. }
  assert (Hfallback : remote <> None -> fallback = None ->
                      toasts w' = (toasts w ++ [goal_saved goalType])%list
                      /\ calorie_goals (localStorage w')
                         = Goals (stored_goals (localStorage w) ++ [goal])%list).
  { intros E F. subst w' remote fallback.
    handler. rewrite Huser, Hresults. handler. fold goal.
    destruct (error (supabase w (Insert goal))); [|congruence]. handler.
    unfold write_failure, stored_goals in *.
    destruct (calorie_goals (localStorage w)); handler;
      try discriminate; rewrite F; handler; split; reflexivity. }
  assert (Hfail : forall cause, remote <> None -> fallback = Some cause ->
                  toasts w' = (toasts w ++ [save_failed cause])%list
                  /\ localStorage w' = localStorage w).
  { intros cause E F. subst w' remote fallback.
    handler. rewrite Huser, Hresults. handler. fold goal.
    destruct (error (supabase w (Insert goal))); [|congruence]. handler.
    unfold write_failure in *.
    destruct (calorie_goals (localStorage w)); handler.
    - rewrite F. handler. split; reflexivity.
    - rewrite F. handler. split; reflexivity.
    - injection F as ->. split; reflexivity. }
  repeat (split; [assumption|]).
  split.
  - intros [cause Hc].
    destruct remote eqn:R.
    + split; [discriminate|].
      destruct fallback eqn:F; [discriminate|].
      destruct Hfallback as [Ht _]; [discriminate | reflexivity |].
      rewrite Ht in Hc. apply app_inv_head in Hc. discriminate.
    + destruct Hok as [Ht _]; [reflexivity|].
      rewrite Ht in Hc. apply app_inv_head in Hc. discriminate.
  - intros [R F]. destruct fallback as [cause|] eqn:Fe; [|congruence].
    exists cause. apply Hfail; [exact R | reflexivity].
Qed.

Lemma saveCalorieGoal_reports_witness :
  Calculator.user (page (saving (mkLocalStorage Absent None) unreachable))
  = Some (Calculator.mkUser "user-1")
  /\ toasts (run (Calculator.saveCalorieGoal Calculator.Maintenance 1700 1701)
                 (saving (mkLocalStorage Absent None) unreachable))
     = [goal_saved Calculator.Maintenance]
  /\ toasts (run (Calculator.saveCalorieGoal Calculator.Maintenance 1700 1701)
                 (saving (mkLocalStorage Absent (Some (mkError "QuotaExceededError")))
                         unreachable))
     = [save_failed (mkError "QuotaExceededError")].
Proof.
  split; [reflexivity|]. split.
  - pose proof (saveCalorieGoal_reports
                  (saving (mkLocalStorage Absent None) unreachable)
                  Calculator.Maintenance 1700 1701 _ _ eq_refl eq_refl) as H.
    cbv zeta in H. destruct H as (_ & _ & Hfallback & _).
    destruct Hfallback as [Ht _]; [discriminate | reflexivity | exact Ht].
  - pose proof (saveCalorieGoal_reports
                  (saving (mkLocalStorage Absent
                                          (Some (mkError "QuotaExceededError")))
                          unreachable)
                  Calculator.Maintenance 1700 1701 _ _ eq_refl eq_refl) as H.
    cbv zeta in H. destruct H as (_ & _ & _ & Hfail & _).
    destruct (Hfail (mkError "QuotaExceededError")) as [Ht _];
      [discriminate | reflexivity | exact Ht].
Defined.

Lemma edit_accepted (text : string) (calories : Q) :
  text <> "" -> Number text = Num calories -> (0 < calories)%Q ->
  (not_string text || isNaN (Number text) || (Number text <=? Num 0)%js)%bool
  = false.
Proof.
  intros Htext Hnum Hpos. rewrite Hnum.
  destruct text; [congruence|]. cbn [not_string isNaN orb].
  destruct (Num calories <=? Num 0)%js eqn:L; [|reflexivity].
  apply le_Num in L. lra.
Qed.



End Store.

(* ================================================================= *)
(** ** More on the calculator page *)

Section CalculatorPage.
Import Calculator CalculatorForm.

Lemma Qfloor_unique (x : Q) (z : Z) :
  (inject_Z z <= x)%Q -> (x < inject_Z (z + 1))%Q -> Qfloor x = z.
Proof.
  intros L U.
  pose proof (Qfloor_le x) as L'. pose proof (Qlt_floor x) as U'.
  assert (H1 : (inject_Z z < inject_Z (Qfloor x + 1))%Q)
    by (eapply Qle_lt_trans; eassumption).
  assert (H2 : (inject_Z (Qfloor x) < inject_Z (z + 1))%Q)
    by (eapply Qle_lt_trans; eassumption).
  rewrite <- Zlt_Qlt in H1, H2. lia.
Qed.

Lemma Qfloor_add_Z (x : Q) (n : Z) :
  Qfloor (x + inject_Z n) = (Qfloor x + n)%Z.
Proof.
  apply Qfloor_unique.
  - rewrite inject_Z_plus. apply Qplus_le_l. apply Qfloor_le.
  - replace (Qfloor x + n + 1)%Z with ((Qfloor x + 1) + n)%Z by lia.
    rewrite inject_Z_plus. apply Qplus_lt_l. apply Qlt_floor.
Qed.

Lemma Math_round_shift (x : Q) (n : Z) :
  Math_round (Num (x + inject_Z n)) = of_Z (Qfloor (x + (1 # 2)) + n).
Proof.
  unfold Math_round, of_Z. f_equal. f_equal.
  rewrite <- Qfloor_add_Z. apply Qfloor_comp. ring.
Qed.

(** The result of rounding is the nearest integer. *)
Lemma Math_round_nearest (x : Q) :
  exists z : Z,
    Math_round (Num x) = of_Z z
    /\ (inject_Z z - (1 # 2) <= x)%Q /\ (x < inject_Z z + (1 # 2))%Q.
Proof.
  exists (Qfloor (x + (1 # 2))). split; [reflexivity|].
  pose proof (Qfloor_le (x + (1 # 2))) as L.
  pose proof (Qlt_floor (x + (1 # 2))) as U.
  rewrite inject_Z_plus in U. change (inject_Z 1) with 1%Q in U.
  split; lra.
Qed.

Lemma calculateBMR_Num (a wt h : Q) (g : Gender) :
  exists e : Q, calculateBMR (Num a) (Num wt) (Num h) g = Num e.
Proof. destruct g; eexists; reflexivity. Qed.

Lemma toMetric_Num (u : UnitSystem) (wt h : Q) :
  exists kg cm : Q, toMetric u (Num wt) (Num h) = (Num kg, Num cm).
Proof. destruct u; eexists; eexists; reflexivity. Qed.



End CalculatorPage.

Section CalculatorGuards.
Import Calculator CalculatorForm.



Lemma refused_guard (x y z : number) :
  refused x y z ->
  (not_number x || not_number y || not_number z
   || (x <? Num 1)%js || (y <? Num 1)%js || (z <? Num 1)%js)%bool = true.
Proof.
  unfold refused. destruct x as [|a], y as [|b], z as [|c];
    cbn [not_number orb]; rewrite ?orb_true_r; try reflexivity.
  intros [H | [H | H]]; apply lt_Num in H; rewrite H;
    rewrite ?orb_true_r; reflexivity.
Qed.

Lemma accepted_guard (x y z : number) :
  ~ refused x y z ->
  exists a b c : Q,
    x = Num a /\ y = Num b /\ z = Num c
    /\ (1 <= a)%Q /\ (1 <= b)%Q /\ (1 <= c)%Q.
Proof.
  unfold refused. destruct x as [|a], y as [|b], z as [|c];
    try (intros H; exfalso; apply H; exact I).
  intros H. exists a, b, c. repeat split; try reflexivity;
    apply Qnot_lt_le; intros L; apply H; tauto.
Qed.

(** X3: calculateCalories changes nothing when age, weight or height
    reads as NaN or as a number below 1; otherwise it sets results and
    marks the form as calculated.  It never shows a toast, sends a
    request, writes to the storage or leaves the page. *)
Theorem calculateCalories_guard (w : World State) :
  let w' := run calculateCalories w in
  let age := parseInt (age (inputs (page w))) in
  let weight := parseFloat (weight (inputs (page w))) in
  let height := parseFloat (height (inputs (page w))) in
  (refused age weight height -> w' = w)
  /\ (~ refused age weight height ->
      isCalculated (page w') = true /\ results (page w') <> None)
  /\ toasts w' = toasts w /\ sent w' = sent w
  /\ localStorage w' = localStorage w /\ route w' = route w
  /\ inputs (page w') = inputs (page w) /\ user (page w') = user (page w)
  /\ savedGoal (page w') = savedGoal (page w).
Proof.
  intros w' age0 weight0 height0. subst w'.
  unfold run, calculateCalories, bind, get, set, ret. cbn [fst snd page].
  fold age0 weight0 height0.
  destruct (not_number age0 || not_number weight0 || not_number height0
            || (age0 <? Num 1)%js || (weight0 <? Num 1)%js
            || (height0 <? Num 1)%js)%bool eqn:G.
  - cbn [snd]. split; [intros _; reflexivity|].
    split; [|repeat split].
    intros N. destruct (accepted_guard _ _ _ N)
      as (a & b & c & -> & -> & -> & La & Lb & Lc).
    rewrite !not_number_ge_1, !lt_1_ge_1 in G by assumption. discriminate.
  - split.
    + intros R. rewrite (refused_guard _ _ _ R) in G. discriminate.
    + destruct (toMetric (unit (inputs (page w))) weight0 height0).
      cbn [snd page localStorage sent toasts route].
      repeat split. discriminate.
Qed.

Lemma calculateCalories_guard_witness :
  refused (parseInt "0") (parseFloat "70") (parseFloat "175")
  /\ run calculateCalories (form "0" "70" "175" male "1.55" metric)
     = form "0" "70" "175" male "1.55" metric
  /\ ~ refused (parseInt "25") (parseFloat "70") (parseFloat "175")
  /\ isCalculated
       (page (run calculateCalories
                  (form "25" "70" "175" male "1.55" metric)))
     = true.
Proof.
  assert (R : refused (parseInt "0") (parseFloat "70") (parseFloat "175"))
    by (left; reflexivity).
  assert (N : ~ refused (parseInt "25") (parseFloat "70") (parseFloat "175"))
    by (intros [H | [H | H]]; discriminate H).
  split; [exact R|]. split.
  - exact (proj1 (calculateCalories_guard
                    (form "0" "70" "175" male "1.55" metric)) R).
  - split; [exact N|].
    exact (proj1 (proj1 (proj2 (calculateCalories_guard
                    (form "25" "70" "175" male "1.55" metric))) N)).
Defined.



End CalculatorGuards.

Section CalculatorSaving.
Import Calculator CalculatorForm.

(** X5: saveCalorieGoal asks a signed-out user to sign in and opens
    /auth without sending or storing anything, and does nothing at all
    for a signed-in user without results. *)
Theorem saveCalorieGoal_not_ready (w : World State) (goalType : GoalType)
  (now created : Z) :
  let w' := run (saveCalorieGoal goalType now created) w in
  (user (page w) = None ->
   toasts w' = (toasts w ++ [sign_in_required])%list
   /\ route w' = Some "/auth"
   /\ sent w' = sent w /\ localStorage w' = localStorage w
   /\ page w' = page w)
  /\ (user (page w) <> None -> results (page w) = None -> w' = w).
Proof.
  intros w'. subst w'. split.
  - intros E. handler. rewrite E. handler. repeat split.
  - intros U R. handler.
    destruct (user (page w)); [|congruence]. rewrite R. reflexivity.
Qed.

Lemma saveCalorieGoal_not_ready_witness :
  user (page (form "25" "70" "175" male "1.55" metric)) = None
  /\ route (run (saveCalorieGoal Maintenance 1700 1701)
                (form "25" "70" "175" male "1.55" metric))
     = Some "/auth"
  /\ sent (run (saveCalorieGoal Maintenance 1700 1701)
               (form "25" "70" "175" male "1.55" metric))
     = [].
Proof.
  pose proof (saveCalorieGoal_not_ready
                (form "25" "70" "175" male "1.55" metric)
                Maintenance 1700 1701) as H.
  cbv zeta in H. destruct H as [H _].
  destruct (H eq_refl) as (_ & Hroute & Hsent & _).
  split; [reflexivity|]. split; [exact Hroute | exact Hsent].
Defined.

(** X6: after a save that went as far as the writes, isSaving is false
    again; savedGoal names the goal type when one of the two writes
    went through and is left as it was when both failed; the inputs,
    the results and the user are never changed. *)
Theorem saveCalorieGoal_flags (w : World State) (goalType : GoalType)
  (now created : Z) (u : User) (r : CalorieResults) :
  ready w u r ->
  let goal := goalData (page w) u r goalType now created in
  let w' := run (saveCalorieGoal goalType now created) w in
  let remote := error (supabase w (Insert goal)) in
  let fallback := write_failure (localStorage w) in
  isSaving (page w') = false
  /\ (remote = None \/ fallback = None ->
      savedGoal (page w') = Some (goalType_text goalType))
  /\ (remote <> None -> fallback <> None ->
      savedGoal (page w') = savedGoal (page w))
  /\ inputs (page w') = inputs (page w)
  /\ results (page w') = results (page w)
  /\ user (page w') = user (page w)
  /\ route w' = route w.
Proof.
  intros [Huser Hresults] goal w' remote fallback.
  subst w' remote fallback. handler. rewrite Huser, Hresults. handler.
  fold goal. unfold write_failure.
  destruct (error (supabase w (Insert goal))) as [e|]; handler;
    [destruct (calorie_goals (localStorage w)) as [|l|e']; handler;
     [destruct (quota (localStorage w)); handler
     |destruct (quota (localStorage w)); handler|]|];
    repeat match goal with
           | |- _ /\ _ => split
           | |- _ -> _ => intro
           end;
    try reflexivity; try congruence;
    try exact Hresults; try exact Huser;
    match goal with
    | H : _ \/ _ |- _ => destruct H; congruence
    end.
Qed.

Lemma saveCalorieGoal_flags_witness :
  ready (saving (mkLocalStorage Absent None) unreachable)
        (mkUser "user-1")
        {| bmr := Num 1674; tdee := Num 2594; maintenance := Num 2594;
           weightLoss := Num 2094; weightGain := Num 3094 |}
  /\ savedGoal
       (page (run (saveCalorieGoal WeightLoss 1700 1701)
                  (saving (mkLocalStorage Absent None) unreachable)))
     = Some "weight_loss".
Proof.
  assert (R : ready (saving (mkLocalStorage Absent None) unreachable)
                    (mkUser "user-1")
                    {| bmr := Num 1674; tdee := Num 2594;
                       maintenance := Num 2594; weightLoss := Num 2094;
                       weightGain := Num 3094 |})
    by (split; reflexivity).
  split; [exact R|].
  pose proof (saveCalorieGoal_flags _ WeightLoss 1700 1701 _ _ R) as H.
  cbv zeta in H. destruct H as (_ & Hsaved & _).
  apply Hsaved. right. reflexivity.
Defined.

(** X7: a change of a field marks the form as not calculated and keeps
    the results; a save that follows sends the calories computed
    before the change together with the age, weight, height, gender,
    activity level and unit read from the changed form. *)
Theorem handleInputChange_keeps_results (w : World State) (c : Change)
  (goalType : GoalType) (now created : Z) (u : User) (r : CalorieResults) :
  ready w u r ->
  let w1 := run (handleInputChange c) w in
  let w2 := run (saveCalorieGoal goalType now created) w1 in
  let changed := assign c (inputs (page w)) in
  isCalculated (page w1) = false
  /\ results (page w1) = Some r
  /\ inputs (page w1) = changed
  /\ exists goal,
       sent w2 = (sent w ++ [Insert goal])%list
       /\ CalorieGoal.bmr goal = bmr r
       /\ CalorieGoal.tdee goal = tdee r
       /\ CalorieGoal.maintenance_calories goal = maintenance r
       /\ CalorieGoal.weight_loss_calories goal = weightLoss r
       /\ CalorieGoal.weight_gain_calories goal = weightGain r
       /\ CalorieGoal.age goal = parseInt (age changed)
       /\ CalorieGoal.weight goal = parseFloat (weight changed)
       /\ CalorieGoal.height goal = parseFloat (height changed)
       /\ CalorieGoal.gender goal = gender_text (gender changed)
       /\ CalorieGoal.activity_level goal
          = parseFloat (activityLevel changed)
       /\ CalorieGoal.unit_system goal = unit_text (unit changed).
Proof.
  intros [Huser Hresults] w1 w2 changed.
  assert (E1 : page w1
               = setIsCalculated false (setInputs (assign c) (page w)))
    by reflexivity.
  assert (S1 : sent w1 = sent w) by reflexivity.
  split; [reflexivity|]. split; [rewrite E1; exact Hresults|].
  split; [reflexivity|].
  exists (goalData (page w1) u r goalType now created).
  split; [|repeat split].
  subst w2. handler. rewrite E1.
  cbn [user results setIsCalculated setInputs].
  rewrite Huser, Hresults. handler. rewrite <- E1.
  destruct (error (supabase w1 (Insert (goalData (page w1) u r goalType
                                                  now created))));
    handler; [|rewrite S1; reflexivity].
  destruct (calorie_goals (localStorage w1)); handler;
    try destruct (quota (localStorage w1)); handler;
    rewrite S1; reflexivity.
Qed.

Lemma handleInputChange_keeps_results_witness :
  ready (saving (mkLocalStorage Absent None) (rows []))
        (mkUser "user-1")
        {| bmr := Num 1674; tdee := Num 2594; maintenance := Num 2594;
           weightLoss := Num 2094; weightGain := Num 3094 |}
  /\ exists goal,
       sent (run (saveCalorieGoal Maintenance 1700 1701)
                 (run (handleInputChange (weight_is "90"))
                      (saving (mkLocalStorage Absent None) (rows []))))
       = [Insert goal]
       /\ CalorieGoal.maintenance_calories goal = Num 2594
       /\ CalorieGoal.weight goal = Num 90.
Proof.
  assert (R : ready (saving (mkLocalStorage Absent None) (rows []))
                    (mkUser "user-1")
                    {| bmr := Num 1674; tdee := Num 2594;
                       maintenance := Num 2594; weightLoss := Num 2094;
                       weightGain := Num 3094 |})
    by (split; reflexivity).
  split; [exact R|].
  pose proof (handleInputChange_keeps_results _ (weight_is "90")
                Maintenance 1700 1701 _ _ R) as H.
  cbv zeta in H.
  destruct H as (_ & _ & _ & goal & Hsent & _ & _ & Hm & _ & _ & _ & Hw & _).
  exists goal. split; [exact Hsent|]. split; [exact Hm | exact Hw].
Defined.

(** X8: whatever the state, the reset empties the three number fields,
    restores the default gender, activity level and unit, and drops the
    results and the saved mark; Calculate then changes nothing, and so
    does Save for a signed-in user. *)
Theorem resetCalculator_clears (w : World State) (goalType : GoalType)
  (now created : Z) :
  let w' := run resetCalculator w in
  inputs (page w') = mkInputs "" "" "" male "1.55" metric
  /\ results (page w') = None
  /\ isCalculated (page w') = false
  /\ savedGoal (page w') = None
  /\ run calculateCalories w' = w'
  /\ (user (page w) <> None ->
      run (saveCalorieGoal goalType now created) w' = w').
Proof.
  intros w'. repeat split.
  intros U. subst w'. unfold resetCalculator. handler.
  cbn [user results setSavedGoal setIsCalculated setResults setInputs].
  destruct (user (page w)); [reflexivity | congruence].
Qed.

Lemma resetCalculator_clears_witness :
  user (page (saving (mkLocalStorage Absent None) unreachable)) <> None
  /\ run (saveCalorieGoal Maintenance 1700 1701)
         (run resetCalculator
              (saving (mkLocalStorage Absent None) unreachable))
     = run resetCalculator
           (saving (mkLocalStorage Absent None) unreachable).
Proof.
  assert (U : user (page (saving (mkLocalStorage Absent None) unreachable))
              <> None) by discriminate.
  split; [exact U|].
  pose proof (resetCalculator_clears
                (saving (mkLocalStorage Absent None) unreachable)
                Maintenance 1700 1701) as H.
  cbv zeta in H. destruct H as (_ & _ & _ & _ & _ & H).
  exact (H U).
Defined.

End CalculatorSaving.

(* ================================================================= *)
(** ** More on the goal store *)

Section LocalGoals.
Import History.

Lemma insert_Permutation {A} (cmp : A -> A -> number) (x : A) (l : list A) :
  Permutation (insert cmp x l) (x :: l).
Proof.
  induction l as [|y l IH]; cbn [insert]; [reflexivity|].
  destruct (cmp x y >? Num 0)%js; [|reflexivity].
  rewrite IH. apply perm_swap.
Qed.

Lemma sort_Permutation {A} (cmp : A -> A -> number) (l : list A) :
  Permutation (sort cmp l) l.
Proof.
  induction l as [|x l IH]; [reflexivity|].
  unfold sort in *. cbn [fold_right].
  rewrite insert_Permutation. apply perm_skip, IH.
Qed.

Lemma dated_time (g : CalorieGoal.t) :
  dated g -> exists t : Q, getTime (CalorieGoal.created_at g) = Num t.
Proof.
  unfold dated. destruct (getTime (CalorieGoal.created_at g)) as [|t];
    [discriminate | intros _; exists t; reflexivity].
Qed.

Lemma descending_cons (a b : CalorieGoal.t) (l : list CalorieGoal.t) :
  descending (a :: b :: l) = true
  <-> not_after b a /\ descending (b :: l) = true.
Proof.
  cbn [descending]. rewrite andb_true_iff. unfold not_after, ge. tauto.
Qed.

Lemma insert_descending (x : CalorieGoal.t) (l : list CalorieGoal.t) :
  dated x -> Forall dated l -> descending l = true ->
  descending (insert by_created_at_desc x l) = true.
Proof.
  intros Dx Dl. induction l as [|y l IH]; intros S; [reflexivity|].
  inversion Dl as [|? ? Dy Dl']; subst.
  destruct (dated_time x Dx) as (tx & Ex).
  destruct (dated_time y Dy) as (ty & Ey).
  cbn [insert]. unfold by_created_at_desc at 1. rewrite Ex, Ey.
  destruct (Num ty - Num tx >? Num 0)%js eqn:G.
  - apply gt_Num in G.
    assert (Rest : descending (insert by_created_at_desc x l) = true).
    { apply IH; [exact Dl'|].
      destruct l as [|z l]; [reflexivity|].
      apply descending_cons in S. tauto. }
    destruct l as [|z l].
    + cbn [insert]. apply descending_cons. split; [|reflexivity].
      unfold not_after. rewrite Ex, Ey. apply le_Num. lra.
    + apply descending_cons in S. destruct S as [Hzy Hrest].
      cbn [insert] in *.
      destruct (by_created_at_desc x z >? Num 0)%js.
      * apply descending_cons. split; [exact Hzy | exact Rest].
      * apply descending_cons. split; [|exact Rest].
        unfold not_after. rewrite Ex, Ey. apply le_Num. lra.
  - apply Qltb_ge in G. apply descending_cons. split; [|exact S].
    unfold not_after. rewrite Ex, Ey. apply le_Num. lra.
Qed.

Lemma insert_dated (x : CalorieGoal.t) (l : list CalorieGoal.t) :
  dated x -> Forall dated l -> Forall dated (insert by_created_at_desc x l).
Proof.
  intros Dx Dl.
  eapply Permutation_Forall;
    [symmetry; apply insert_Permutation | constructor; assumption].
Qed.

Lemma sort_is_descending (l : list CalorieGoal.t) :
  Forall dated l -> descending (sort by_created_at_desc l) = true.
Proof.
  induction l as [|x l IH]; intros D; [reflexivity|].
  inversion D as [|? ? Dx Dl]; subst.
  unfold sort in *. cbn [fold_right].
  apply insert_descending; [exact Dx | | apply IH; exact Dl].
  eapply Permutation_Forall;
    [symmetry; apply (sort_Permutation by_created_at_desc) | exact Dl].
Qed.

Lemma not_after_trans (a b c : CalorieGoal.t) :
  not_after a b -> not_after b c -> not_after a c.
Proof.
  unfold not_after.
  destruct (getTime (CalorieGoal.created_at a)),
           (getTime (CalorieGoal.created_at b)),
           (getTime (CalorieGoal.created_at c)); try discriminate.
  rewrite !le_Num. apply Qle_trans.
Qed.

Lemma descending_head (g : CalorieGoal.t) (l : list CalorieGoal.t) :
  descending (g :: l) = true -> forall g', In g' l -> not_after g' g.
Proof.
  revert g. induction l as [|y l IH]; intros g S g' I; [destruct I|].
  apply descending_cons in S. destruct S as [Hyg Hrest].
  destruct I as [<- | I]; [exact Hyg|].
  eapply not_after_trans; [apply (IH y Hrest g' I) | exact Hyg].
Qed.

Lemma not_after_refl (g : CalorieGoal.t) : dated g -> not_after g g.
Proof.
  intros D. destruct (dated_time g D) as (t & E).
  unfold not_after. rewrite E. apply le_Num. apply Qle_refl.
Qed.

(** The first entry of the sorted list is a goal of the list that none
    of the others was created after. *)
Lemma sort_head_latest (l l' : list CalorieGoal.t) (g : CalorieGoal.t) :
  Forall dated l -> sort by_created_at_desc l = g :: l' ->
  In g l /\ forall g', In g' l -> not_after g' g.
Proof.
  intros D E.
  pose proof (sort_Permutation by_created_at_desc l) as P.
  pose proof (sort_is_descending l D) as S.
  rewrite E in P, S.
  assert (Ig : In g l)
    by (eapply Permutation_in; [exact P | left; reflexivity]).
  split; [exact Ig|].
  intros g' I'.
  assert (I'' : In g' (g :: l'))
    by (eapply Permutation_in; [symmetry; exact P | exact I']).
  destruct I'' as [<- | I''].
  - apply not_after_refl. rewrite Forall_forall in D. auto.
  - eapply descending_head; eassumption.
Qed.

(** What the fallback of [fetchCalorieGoals] keeps when the first
    stored goal is valid. *)
Lemma fetchCalorieGoals_local_run (w : World State)
  (first : CalorieGoal.t) (rest : list CalorieGoal.t) :
  remote_fails w ->
  calorie_goals (localStorage w) = Goals (first :: rest) ->
  has_valid_calories first = true ->
  calorieGoals (page (run fetchCalorieGoals w))
  = sort by_created_at_desc (first :: rest)
  /\ currentGoal (page (run fetchCalorieGoals w))
     = hd_error (sort by_created_at_desc (first :: rest)).
Proof.
  intros Hremote Hlocal Hvalid. unfold remote_fails in Hremote. handler.
  destruct (error (supabase w SelectByCreatedAtDesc)); [|congruence].
  handler. rewrite Hlocal. rewrite Hvalid. handler. split; reflexivity.
Qed.

(** X9: when the remote store fails and the first goal of the local
    list is valid, the goals kept by the page are the local list sorted
    by created_at, most recent first, and the current goal is its first
    entry: a stored goal that none of the others was created after.
    All the stored dates are taken to be valid. *)
Theorem fetchCalorieGoals_local_most_recent (w : World State)
  (first : CalorieGoal.t) (rest : list CalorieGoal.t) :
  remote_fails w ->
  calorie_goals (localStorage w) = Goals (first :: rest) ->
  has_valid_calories first = true ->
  Forall dated (first :: rest) ->
  let w' := run fetchCalorieGoals w in
  Permutation (calorieGoals (page w')) (first :: rest)
  /\ descending (calorieGoals (page w')) = true
  /\ exists g,
       currentGoal (page w') = Some g
       /\ hd_error (calorieGoals (page w')) = Some g
       /\ In g (first :: rest)
       /\ forall g', In g' (first :: rest) -> not_after g' g.
Proof.
  intros Hremote Hlocal Hvalid Hdated w'.
  destruct (fetchCalorieGoals_local_run w first rest Hremote Hlocal Hvalid)
    as [Egoals Ecurrent].
  unfold w'. rewrite Egoals, Ecurrent.
  pose proof (sort_Permutation by_created_at_desc (first :: rest)) as P.
  split; [exact P|].
  split; [exact (sort_is_descending (first :: rest) Hdated)|].
  destruct (sort by_created_at_desc (first :: rest)) as [|g l] eqn:Es.
  - apply Permutation_nil in P. discriminate.
  - exists g. split; [reflexivity|]. split; [reflexivity|].
    exact (sort_head_latest _ _ _ Hdated Es).
Qed.

Lemma fetchCalorieGoals_local_most_recent_witness :
  remote_fails (history (showing [] [] None "")
                        (mkLocalStorage (Goals [older_goal; custom_goal])
                                        None)
                        unreachable)
  /\ has_valid_calories older_goal = true
  /\ exists g,
       currentGoal
         (page (run fetchCalorieGoals
                    (history (showing [] [] None "")
                             (mkLocalStorage
                                (Goals [older_goal; custom_goal]) None)
                             unreachable)))
       = Some g
       /\ not_after older_goal g /\ not_after custom_goal g.
Proof.
  assert (R : remote_fails
                (history (showing [] [] None "")
                         (mkLocalStorage (Goals [older_goal; custom_goal])
                                         None)
                         unreachable)) by discriminate.
  split; [exact R|]. split; [reflexivity|].
  pose proof (fetchCalorieGoals_local_most_recent _ older_goal [custom_goal]
                R eq_refl eq_refl) as H.
  cbv zeta in H.
  destruct H as (_ & _ & g & Hc & _ & _ & Hmax).
  { repeat constructor. }
  exists g. split; [exact Hc|].
  split; apply Hmax; [left | right; left]; reflexivity.
Defined.

End LocalGoals.

Section FetchingGoals.
Import History.

(** X10: fetchCalorieGoals sends one query and never throws, shows a
    toast, writes to the storage or leaves the page.  A goal that it
    takes from the remote store as current is valid.  When the remote
    store fails and the local list cannot be read, or when the remote
    store answers without rows, no goal is kept and none is current. *)
Theorem fetchCalorieGoals_quiet (w : World State) :
  let w' := run fetchCalorieGoals w in
  fst (fetchCalorieGoals w) = Return tt
  /\ sent w' = (sent w ++ [SelectByCreatedAtDesc])%list
  /\ toasts w' = toasts w
  /\ localStorage w' = localStorage w
  /\ route w' = route w
  /\ meals (page w') = meals (page w)
  /\ editedCalories (page w') = editedCalories (page w)
  /\ (error (supabase w SelectByCreatedAtDesc) = None ->
      forall g, currentGoal (page w') = Some g ->
                has_valid_calories g = true)
  /\ (error (supabase w SelectByCreatedAtDesc) = None ->
      data (supabase w SelectByCreatedAtDesc) = None ->
      calorieGoals (page w') = [] /\ currentGoal (page w') = None)
  /\ (forall e, remote_fails w ->
      calorie_goals (localStorage w) = Broken e ->
      calorieGoals (page w') = [] /\ currentGoal (page w') = None).
Proof.
  intros w'. subst w'. unfold remote_fails. handler.
  destruct (error (supabase w SelectByCreatedAtDesc)) as [e|]; handler.
  - destruct (calorie_goals (localStorage w)) as [|l|e']; handler;
      [|destruct l as [|g l]; handler;
        [|destruct (has_valid_calories g); handler]|];
      repeat match goal with
             | |- _ /\ _ => split
             | |- _ -> _ => intro
             end;
      try reflexivity; congruence.
  - destruct (data (supabase w SelectByCreatedAtDesc)) as [[|g l]|]; handler;
      [|destruct (has_valid_calories g) eqn:V; handler|];
      repeat match goal with
             | |- _ /\ _ => split
             | |- _ -> _ => intro
             end;
      cbn [currentGoal calorieGoals setCurrentGoal setCalorieGoals] in *;
      try reflexivity; congruence.
Qed.

Lemma fetchCalorieGoals_quiet_witness :
  remote_fails (history (showing [] [older_goal] (Some older_goal) "")
                        (mkLocalStorage (Broken (mkError "Unexpected token"))
                                        None)
                        unreachable)
  /\ currentGoal
       (page (run fetchCalorieGoals
                  (history (showing [] [older_goal] (Some older_goal) "")
                           (mkLocalStorage
                              (Broken (mkError "Unexpected token")) None)
                           unreachable)))
     = None.
Proof.
  assert (R : remote_fails
                (history (showing [] [older_goal] (Some older_goal) "")
                         (mkLocalStorage
                            (Broken (mkError "Unexpected token")) None)
                         unreachable)) by discriminate.
  split; [exact R|].
  pose proof (fetchCalorieGoals_quiet
                (history (showing [] [older_goal] (Some older_goal) "")
                         (mkLocalStorage
                            (Broken (mkError "Unexpected token")) None)
                         unreachable)) as H.
  cbv zeta in H. destruct H as (_ & _ & _ & _ & _ & _ & _ & _ & _ & H).
  exact (proj2 (H _ R eq_refl)).
Defined.

End FetchingGoals.

Section Editing.
Import History.

Lemma edit_refused_guard (st : State) (goal : CalorieGoal.t) :
  edit_refused st -> currentGoal st = Some goal ->
  (not_string (editedCalories st) || isNaN (Number (editedCalories st))
   || (Number (editedCalories st) <=? Num 0)%js)%bool = true.
Proof.
  intros [H | [H | [H | (n & H & L)]]] G.
  - congruence.
  - rewrite H. reflexivity.
  - rewrite H. cbn [isNaN]. rewrite orb_true_r. reflexivity.
  - rewrite H. apply le_Num in L. rewrite L. rewrite orb_true_r. reflexivity.
Qed.

(** X11: the edit is turned down with the toast Invalid input, and
    nothing else happens (no request, no write, no change of the page),
    when there is no current goal or the edit field is empty, holds no
    number or holds a number that is not positive. *)
Theorem saveEditedCalorieGoal_rejects (w : World State) :
  edit_refused (page w) ->
  let w' := run saveEditedCalorieGoal w in
  toasts w' = (toasts w ++ [invalid_input])%list
  /\ sent w' = sent w
  /\ localStorage w' = localStorage w
  /\ page w' = page w
  /\ route w' = route w.
Proof.
  intros R w'. subst w'. handler.
  destruct (currentGoal (page w)) as [goal|] eqn:G.
  - rewrite (edit_refused_guard _ goal R G). handler. repeat split.
  - handler. repeat split.
Qed.

Lemma saveEditedCalorieGoal_rejects_witness :
  edit_refused (showing [] [older_goal] (Some older_goal) "-5")
  /\ toasts (run saveEditedCalorieGoal
                 (history (showing [] [older_goal] (Some older_goal) "-5")
                          (mkLocalStorage Absent None) (rows [])))
     = [invalid_input]
  /\ sent (run saveEditedCalorieGoal
               (history (showing [] [older_goal] (Some older_goal) "-5")
                        (mkLocalStorage Absent None) (rows [])))
     = [].
Proof.
  assert (R : edit_refused (showing [] [older_goal] (Some older_goal) "-5")).
  { right. right. right. exists (-5)%Q. split; [reflexivity | discriminate]. }
  split; [exact R|].
  pose proof (saveEditedCalorieGoal_rejects
                (history (showing [] [older_goal] (Some older_goal) "-5")
                         (mkLocalStorage Absent None) (rows []))
                R) as H.
  cbv zeta in H. destruct H as (Ht & Hs & _).
  split; [exact Ht | exact Hs].
Defined.

(** The world after an edit, case by case. *)
Lemma saveEditedCalorieGoal_run (w : World State) (goal : CalorieGoal.t)
  (calories : Q) :
  editing w goal calories ->
  let w' := run saveEditedCalorieGoal w in
  let remote := error (supabase w (edit_request goal calories)) in
  let text := editedCalories (page w) in
  (remote = None ->
   page w' = edited_page (page w) goal calories
   /\ toasts w' = (toasts w ++ [goal_updated text])%list
   /\ localStorage w' = localStorage w)
  /\ (remote <> None -> write_failure (localStorage w) = None ->
      page w' = edited_page (page w) goal calories
      /\ toasts w' = (toasts w ++ [goal_updated text])%list
      /\ localStorage w'
         = mkLocalStorage
             (Goals (replace_by_id (CalorieGoal.id goal)
                                   (edited goal (Num calories))
                                   (stored_goals (localStorage w))))
             None)
  /\ (forall cause, remote <> None ->
      write_failure (localStorage w) = Some cause ->
      page w' = setIsSavingEdit false (page w)
      /\ toasts w' = (toasts w ++ [update_failed cause])%list
      /\ localStorage w' = localStorage w).
Proof.
  intros (Hgoal & Htext & Hnum & Hpos) w' remote text.
  pose proof (edit_accepted _ _ Htext Hnum Hpos) as Hguard.
  subst w' remote text. unfold edit_request. handler.
  rewrite Hgoal, Hguard. rewrite Hnum.
  unfold write_failure, stored_goals, edited_page. handler.
  destruct (error (supabase w
                     (Update (Num calories) (Num calories) "custom"
                             (CalorieGoal.id goal)))) as [e|];
    handler;
    [destruct (calorie_goals (localStorage w)) as [|l|e']; handler;
     [destruct (quota (localStorage w)); handler
     |destruct (quota (localStorage w)); handler|]|];
    repeat match goal with
           | |- _ /\ _ => split
           | |- _ -> _ => intro
           end;
    try reflexivity; try congruence;
    match goal with
    | H : Some _ = Some _ |- _ => injection H as <-; reflexivity
    end.
Qed.

End Editing.

Section EditOutcome.
Import History.

(** X12: after an edit that went through, every summary is compared
    with the edited value: dailyGoal is that value and goalType is
    custom, whatever the goal type was before, while the totals of the
    summary and the validity of the goal are as before; the dialog is
    closed and its field emptied. *)
Theorem saveEditedCalorieGoal_then_summary (w : World State)
  (goal : CalorieGoal.t) (calories : Q) (startDate endDate : Date) :
  editing w goal calories ->
  error (supabase w (edit_request goal calories)) = None
  \/ write_failure (localStorage w) = None ->
  let w' := run saveEditedCalorieGoal w in
  let before := calculateSummary (page w) startDate endDate in
  let after := calculateSummary (page w') startDate endDate in
  dailyGoal after = Some (Num calories)
  /\ goalType after = Some "custom"
  /\ goalStatus after
     = Some (goalStatusOf (totalCalories before) (Num calories))
  /\ totalCalories after = totalCalories before
  /\ mealCount after = mealCount before
  /\ has_valid_calories (edited goal (Num calories))
     = has_valid_calories goal
  /\ isEditingGoal (page w') = false
  /\ editedCalories (page w') = "".
Proof.
  intros E D w' before after.
  assert (P : page w' = edited_page (page w) goal calories).
  { destruct (saveEditedCalorieGoal_run w goal calories E) as (Ok & Fb & _).
    destruct (error (supabase w (edit_request goal calories))) eqn:R.
    - destruct D as [D | D]; [discriminate|].
      apply Fb; [discriminate | exact D].
    - apply Ok. reflexivity. }
  destruct (calculateSummary_reduce (page w) startDate endDate)
    as (B1 & _ & _ & _ & B5).
  destruct (calculateSummary_reduce (page w') startDate endDate)
    as (A1 & _ & _ & _ & A5).
  fold before in B1, B5. fold after in A1, A5.
  assert (M : meals (page w') = meals (page w)) by (rewrite P; reflexivity).
  rewrite M in A1, A5.
  assert (T : totalCalories after = totalCalories before) by congruence.
  assert (C : mealCount after = mealCount before) by congruence.
  subst after. unfold calculateSummary in *. rewrite P in *.
  cbn [currentGoal edited_page] in *.
  cbn [dailyGoal goalType goalStatus totalCalories] in *.
  repeat split; try reflexivity; try assumption.
  cbn [totalCalories] in T. rewrite T. reflexivity.
Qed.

Lemma saveEditedCalorieGoal_then_summary_witness :
  editing (history (showing three_meals [older_goal] (Some older_goal) "1500")
                   (mkLocalStorage Absent None) (rows []))
          older_goal 1500
  /\ dailyGoal
       (calculateSummary
          (page (run saveEditedCalorieGoal
                     (history (showing three_meals [older_goal]
                                       (Some older_goal) "1500")
                              (mkLocalStorage Absent None) (rows []))))
          (mkDate (of_Z 100)) (mkDate (of_Z 300)))
     = Some (Num 1500).
Proof.
  assert (E : editing
                (history (showing three_meals [older_goal]
                                  (Some older_goal) "1500")
                         (mkLocalStorage Absent None) (rows []))
                older_goal 1500).
  { split; [reflexivity|]. split; [discriminate|].
    split; reflexivity. }
  split; [exact E|].
  pose proof (saveEditedCalorieGoal_then_summary _ _ _
                (mkDate (of_Z 100)) (mkDate (of_Z 300)) E
                (or_introl eq_refl)) as H.
  cbv zeta in H. exact (proj1 H).
Defined.

Lemma replace_by_id_length (id : string) (g : CalorieGoal.t)
  (l : list CalorieGoal.t) :
  List.length (replace_by_id id g l) = List.length l.
Proof. apply length_map. Qed.

Lemma replace_by_id_ids (g : CalorieGoal.t) (l : list CalorieGoal.t) :
  map CalorieGoal.id (replace_by_id (CalorieGoal.id g) g l)
  = map CalorieGoal.id l.
Proof.
  unfold replace_by_id. rewrite map_map. apply map_ext_in. intros a _.
  destruct (String.eqb (CalorieGoal.id a) (CalorieGoal.id g)) eqn:E;
    [|reflexivity].
  apply String.eqb_eq in E. congruence.
Qed.

Lemma replace_by_id_absent (id : string) (g : CalorieGoal.t)
  (l : list CalorieGoal.t) :
  (forall a, In a l -> CalorieGoal.id a <> id) -> replace_by_id id g l = l.
Proof.
  intros H. unfold replace_by_id. rewrite <- (map_id l) at 2.
  apply map_ext_in. intros a I.
  destruct (String.eqb (CalorieGoal.id a) id) eqn:E; [|reflexivity].
  apply String.eqb_eq in E. elim (H a I E).
Qed.

Lemma replace_by_id_In (id : string) (g a : CalorieGoal.t)
  (l : list CalorieGoal.t) :
  In a (replace_by_id id g l) ->
  (a = g /\ exists b, In b l /\ CalorieGoal.id b = id)
  \/ (In a l /\ CalorieGoal.id a <> id).
Proof.
  unfold replace_by_id. rewrite in_map_iff. intros (b & E & I).
  destruct (String.eqb (CalorieGoal.id b) id) eqn:B.
  - apply String.eqb_eq in B. left. split; [congruence|]. exists b. tauto.
  - apply String.eqb_neq in B. right. subst a. tauto.
Qed.

(** X13: when the remote update fails and the local list can be
    written, the list keeps its length and the ids of its goals in
    their order; a goal with another id stays as it was, and a goal
    with the id of the current goal is replaced by the edited current
    goal.  When no stored goal has that id the list is written back as
    it was, and the edit is still reported as done. *)
Theorem saveEditedCalorieGoal_local_list (w : World State)
  (goal : CalorieGoal.t) (calories : Q) :
  editing w goal calories ->
  error (supabase w (edit_request goal calories)) <> None ->
  write_failure (localStorage w) = None ->
  let w' := run saveEditedCalorieGoal w in
  let before := stored_goals (localStorage w) in
  let after := stored_goals (localStorage w') in
  List.length after = List.length before
  /\ map CalorieGoal.id after = map CalorieGoal.id before
  /\ (forall g, In g before -> CalorieGoal.id g <> CalorieGoal.id goal ->
      In g after)
  /\ (forall g, In g after -> CalorieGoal.id g = CalorieGoal.id goal ->
      g = edited goal (Num calories))
  /\ toasts w' = (toasts w ++ [goal_updated (editedCalories (page w))])%list
  /\ ((forall g, In g before -> CalorieGoal.id g <> CalorieGoal.id goal) ->
      after = before).
Proof.
  intros E R F w' before after.
  destruct (saveEditedCalorieGoal_run w goal calories E) as (_ & Fb & _).
  destruct (Fb R F) as (_ & Ht & Hl).
  assert (A : after
              = replace_by_id (CalorieGoal.id goal)
                              (edited goal (Num calories)) before)
    by (unfold after, w'; rewrite Hl; reflexivity).
  rewrite A. split; [apply replace_by_id_length|].
  split; [apply (replace_by_id_ids (edited goal (Num calories)))|].
  split.
  { intros g I N. unfold replace_by_id. apply in_map_iff. exists g.
    apply String.eqb_neq in N. rewrite N. tauto. }
  split.
  { intros g I Eid. apply replace_by_id_In in I.
    destruct I as [[-> _] | [_ N]]; [reflexivity | contradiction]. }
  split; [exact Ht|].
  apply replace_by_id_absent.
Qed.

Lemma saveEditedCalorieGoal_local_list_witness :
  editing (history (showing [] [older_goal] (Some older_goal) "1500")
                   (mkLocalStorage (Goals [custom_goal]) None) unreachable)
          older_goal 1500
  /\ stored_goals
       (localStorage
          (run saveEditedCalorieGoal
               (history (showing [] [older_goal] (Some older_goal) "1500")
                        (mkLocalStorage (Goals [custom_goal]) None)
                        unreachable)))
     = [custom_goal]
  /\ toasts (run saveEditedCalorieGoal
                 (history (showing [] [older_goal] (Some older_goal) "1500")
                          (mkLocalStorage (Goals [custom_goal]) None)
                          unreachable))
     = [goal_updated "1500"].
Proof.
  assert (E : editing
                (history (showing [] [older_goal] (Some older_goal) "1500")
                         (mkLocalStorage (Goals [custom_goal]) None)
                         unreachable)
                older_goal 1500).
  { split; [reflexivity|]. split; [discriminate|]. split; reflexivity. }
  split; [exact E|].
  pose proof (saveEditedCalorieGoal_local_list _ _ _ E) as H.
  cbv zeta in H.
  destruct H as (_ & _ & _ & _ & Ht & Hsame);
    [discriminate | reflexivity |].
  split; [|exact Ht].
  apply Hsame. intros g [<- | []]. discriminate.
Defined.

(** X14: the edit is reported as failed, with the message of the
    exception of the local write, exactly when the remote update and
    the local write both fail; the page then keeps its current goal,
    its goals and the open dialog with its text. *)
Theorem saveEditedCalorieGoal_failure (w : World State)
  (goal : CalorieGoal.t) (calories : Q) :
  editing w goal calories ->
  let w' := run saveEditedCalorieGoal w in
  let remote := error (supabase w (edit_request goal calories)) in
  let fallback := write_failure (localStorage w) in
  ((exists cause, toasts w' = (toasts w ++ [update_failed cause])%list)
   <-> remote <> None /\ fallback <> None)
  /\ (forall cause, remote <> None -> fallback = Some cause ->
      toasts w' = (toasts w ++ [update_failed cause])%list
      /\ page w' = setIsSavingEdit false (page w)
      /\ localStorage w' = localStorage w).
Proof.
  intros E w' remote fallback.
  destruct (saveEditedCalorieGoal_run w goal calories E) as (Ok & Fb & Fail).
  fold w' remote fallback in Ok, Fb, Fail.
  split.
  - split.
    + intros [cause Hc]. destruct remote eqn:R.
      * split; [discriminate|].
        destruct fallback eqn:F; [discriminate|].
        destruct Fb as (_ & Ht & _); [discriminate | reflexivity |].
        rewrite Ht in Hc. apply app_inv_head in Hc. discriminate.
      * destruct Ok as (_ & Ht & _); [reflexivity|].
        rewrite Ht in Hc. apply app_inv_head in Hc. discriminate.
    + intros [R F]. destruct fallback as [cause|] eqn:Fe; [|congruence].
      exists cause. apply (Fail cause R eq_refl).
  - intros cause R F. destruct (Fail cause R F) as (Hp & Ht & Hl).
    repeat split; assumption.
Qed.

Lemma saveEditedCalorieGoal_failure_witness :
  editing (history (showing [] [older_goal] (Some older_goal) "1500")
                   (mkLocalStorage Absent
                                   (Some (mkError "QuotaExceededError")))
                   unreachable)
          older_goal 1500
  /\ toasts (run saveEditedCalorieGoal
                 (history (showing [] [older_goal] (Some older_goal) "1500")
                          (mkLocalStorage
                             Absent (Some (mkError "QuotaExceededError")))
                          unreachable))
     = [update_failed (mkError "QuotaExceededError")].
Proof.
  assert (E : editing
                (history (showing [] [older_goal] (Some older_goal) "1500")
                         (mkLocalStorage
                            Absent (Some (mkError "QuotaExceededError")))
                         unreachable)
                older_goal 1500).
  { split; [reflexivity|]. split; [discriminate|]. split; reflexivity. }
  split; [exact E|].
  pose proof (saveEditedCalorieGoal_failure _ _ _ E) as H.
  cbv zeta in H. destruct H as (_ & H).
  destruct (H (mkError "QuotaExceededError")) as (Ht & _);
    [discriminate | reflexivity | exact Ht].
Defined.

End EditOutcome.

(* ================================================================= *)
(** ** The custom goal *)

Section CustomGoals.
Import CustomGoal.

Lemma custom_refused_guard (st : State) :
  custom_refused st ->
  (not_string (customCalories st) || isNaN (Number (customCalories st))
   || (Number (customCalories st) <=? Num 0)%js)%bool = true.
Proof.
  intros [H | [H | (n & H & L)]].
  - rewrite H. reflexivity.
  - rewrite H. cbn [isNaN]. rewrite orb_true_r. reflexivity.
  - rewrite H. apply le_Num in L. rewrite L. rewrite orb_true_r. reflexivity.
Qed.

(** X15: saveCustomCalorieGoal asks a signed-out user to sign in and
    opens /auth; for a signed-in user it turns down an empty text, a
    text that is no number and a number that is not positive with the
    toast Invalid input.  In both cases nothing is sent or stored and
    the page is left as it was. *)
Theorem saveCustomCalorieGoal_rejects (w : World State) (now created : Z) :
  let w' := run (saveCustomCalorieGoal now created) w in
  (user (page w) = None ->
   toasts w' = (toasts w ++ [sign_in_for_goal])%list
   /\ route w' = Some "/auth")
  /\ (user (page w) <> None -> custom_refused (page w) ->
      toasts w' = (toasts w ++ [History.invalid_input])%list
      /\ route w' = route w)
  /\ (user (page w) = None \/ custom_refused (page w) ->
      sent w' = sent w /\ localStorage w' = localStorage w
      /\ page w' = page w).
Proof.
  intros w'. subst w'. handler_more.
  destruct (user (page w)) as [u|]; handler.
  - split; [discriminate|]. split.
    + intros _ R. rewrite (custom_refused_guard _ R). handler.
      split; reflexivity.
    + intros [U | R]; [discriminate|].
      rewrite (custom_refused_guard _ R). handler. repeat split.
  - split; [intros _; split; reflexivity|].
    split; [congruence|]. intros _. repeat split.
Qed.

Lemma saveCustomCalorieGoal_rejects_witness :
  custom_refused
    (page (custom_dialog (Some (Calculator.mkUser "user-1")) "0" None
                         (mkLocalStorage Absent None) (rows [])))
  /\ toasts (run (saveCustomCalorieGoal 1700 1701)
                 (custom_dialog (Some (Calculator.mkUser "user-1")) "0" None
                                (mkLocalStorage Absent None) (rows [])))
     = [History.invalid_input].
Proof.
  assert (R : custom_refused
                (page (custom_dialog (Some (Calculator.mkUser "user-1")) "0"
                                     None (mkLocalStorage Absent None)
                                     (rows [])))).
  { right. right. exists 0%Q. split; [reflexivity | discriminate]. }
  split; [exact R|].
  pose proof (saveCustomCalorieGoal_rejects
                (custom_dialog (Some (Calculator.mkUser "user-1")) "0" None
                               (mkLocalStorage Absent None) (rows []))
                1700 1701) as H.
  cbv zeta in H. destruct H as (_ & H & _).
  destruct H as [Ht _]; [discriminate | exact R | exact Ht].
Defined.

(** The world after the save of a custom goal, case by case. *)
Lemma saveCustomCalorieGoal_run (w : World State) (u : Calculator.User)
  (calories : Q) (now created : Z) :
  entering w u calories ->
  let goal := goalData u (customCalories (page w)) now created in
  let w' := run (saveCustomCalorieGoal now created) w in
  let remote := error (supabase w (Insert goal)) in
  sent w' = (sent w ++ [Insert goal])%list
  /\ (remote = None ->
      page w' = custom_page (page w) goal
      /\ toasts w'
         = (toasts w ++ [custom_goal_saved (customCalories (page w))])%list
      /\ localStorage w' = localStorage w)
  /\ (remote <> None -> write_failure (localStorage w) = None ->
      page w' = custom_page (page w) goal
      /\ toasts w'
         = (toasts w ++ [custom_goal_saved (customCalories (page w))])%list
      /\ localStorage w'
         = mkLocalStorage
             (Goals (stored_goals (localStorage w) ++ [goal])%list) None)
  /\ (forall cause, remote <> None ->
      write_failure (localStorage w) = Some cause ->
      page w' = setIsSavingCustomGoal false (page w)
      /\ toasts w' = (toasts w ++ [custom_save_failed cause])%list
      /\ localStorage w' = localStorage w).
Proof.
  intros (Huser & Htext & Hnum & Hpos) goal w' remote.
  pose proof (edit_accepted _ _ Htext Hnum Hpos) as Hguard.
  subst w' remote. handler_more. rewrite Huser, Hguard. handler.
  fold goal. unfold write_failure, stored_goals, custom_page. handler.
  destruct (error (supabase w (Insert goal))) as [e|]; handler;
    [destruct (calorie_goals (localStorage w)) as [|l|e']; handler;
     [destruct (quota (localStorage w)); handler
     |destruct (quota (localStorage w)); handler|]|];
    repeat match goal with
           | |- _ /\ _ => split
           | |- _ -> _ => intro
           end;
    cbn [user setIsSavingCustomGoal setHistory];
    try reflexivity; try congruence;
    try (rewrite Huser; reflexivity);
    match goal with
    | H : Some _ = Some _ |- _ => injection H as <-; reflexivity
    end.
Qed.

(** X16: a custom goal that is saved, in the remote store or in the
    local list, becomes the current goal and the first of the goals of
    the page; its maintenance, weight-loss and weight-gain calories are
    all the number entered, it is valid, and every summary is compared
    with that number.  The dialog is closed and its text emptied. *)
Theorem saveCustomCalorieGoal_sets_target (w : World State)
  (u : Calculator.User) (calories : Q) (now created : Z)
  (startDate endDate : Date) :
  entering w u calories ->
  let goal := goalData u (customCalories (page w)) now created in
  let w' := run (saveCustomCalorieGoal now created) w in
  error (supabase w (Insert goal)) = None
  \/ write_failure (localStorage w) = None ->
  History.currentGoal (history (page w')) = Some goal
  /\ History.calorieGoals (history (page w'))
     = goal :: History.calorieGoals (history (page w))
  /\ CalorieGoal.maintenance_calories goal = Num calories
  /\ CalorieGoal.weight_loss_calories goal = Num calories
  /\ CalorieGoal.weight_gain_calories goal = Num calories
  /\ History.has_valid_calories goal = true
  /\ History.dailyGoal
       (History.calculateSummary (history (page w')) startDate endDate)
     = Some (Num calories)
  /\ showCustomGoal (page w') = false
  /\ customCalories (page w') = "".
Proof.
  intros E goal w' D.
  assert (P : page w' = custom_page (page w) goal).
  { destruct (saveCustomCalorieGoal_run w u calories now created E)
      as (_ & Ok & Fb & _).
    fold goal w' in Ok, Fb.
    destruct (error (supabase w (Insert goal))) eqn:R.
    - destruct D as [D | D]; [discriminate|].
      apply Fb; [discriminate | exact D].
    - apply Ok. reflexivity. }
  destruct E as (_ & _ & Hnum & Hpos).
  assert (M : CalorieGoal.maintenance_calories goal = Num calories)
    by exact Hnum.
  rewrite P. cbn [custom_page history showCustomGoal customCalories].
  unfold History.calculateSummary.
  cbn [History.currentGoal History.calorieGoals History.setCalorieGoals
       History.setCurrentGoal History.dailyGoal].
  split; [reflexivity|]. split; [reflexivity|].
  split; [exact Hnum|]. split; [exact Hnum|]. split; [exact Hnum|].
  split.
  { unfold History.has_valid_calories. rewrite M.
    apply andb_true_iff. split; [reflexivity|]. apply gt_Num. exact Hpos. }
  split; [|split; reflexivity].
  f_equal. exact Hnum.
Qed.

Lemma saveCustomCalorieGoal_sets_target_witness :
  entering (custom_dialog (Some (Calculator.mkUser "user-1")) "2200" None
                          (mkLocalStorage Absent None) unreachable)
           (Calculator.mkUser "user-1") 2200
  /\ History.dailyGoal
       (History.calculateSummary
          (history
             (page (run (saveCustomCalorieGoal 1700 1701)
                        (custom_dialog (Some (Calculator.mkUser "user-1"))
                                       "2200" None
                                       (mkLocalStorage Absent None)
                                       unreachable))))
          (mkDate (of_Z 100)) (mkDate (of_Z 300)))
     = Some (Num 2200).
Proof.
  assert (E : entering
                (custom_dialog (Some (Calculator.mkUser "user-1")) "2200" None
                               (mkLocalStorage Absent None) unreachable)
                (Calculator.mkUser "user-1") 2200).
  { split; [reflexivity|]. split; [discriminate|]. split; reflexivity. }
  split; [exact E|].
  pose proof (saveCustomCalorieGoal_sets_target _ _ _ 1700 1701
                (mkDate (of_Z 100)) (mkDate (of_Z 300)) E
                (or_intror eq_refl)) as H.
  cbv zeta in H.
  destruct H as (_ & _ & _ & _ & _ & _ & H & _). exact H.
Defined.

(** X17: the save of a custom goal is reported as failed, with the
    message of the exception of the local write, exactly when the
    remote insert and the local write both fail; the current goal, the
    goals of the page and the open dialog with its text are then left
    as they were. *)
Theorem saveCustomCalorieGoal_failure (w : World State)
  (u : Calculator.User) (calories : Q) (now created : Z) :
  entering w u calories ->
  let goal := goalData u (customCalories (page w)) now created in
  let w' := run (saveCustomCalorieGoal now created) w in
  let remote := error (supabase w (Insert goal)) in
  let fallback := write_failure (localStorage w) in
  ((exists cause, toasts w' = (toasts w ++ [custom_save_failed cause])%list)
   <-> remote <> None /\ fallback <> None)
  /\ (forall cause, remote <> None -> fallback = Some cause ->
      toasts w' = (toasts w ++ [custom_save_failed cause])%list
      /\ page w' = setIsSavingCustomGoal false (page w)
      /\ localStorage w' = localStorage w).
Proof.
  intros E goal w' remote fallback.
  destruct (saveCustomCalorieGoal_run w u calories now created E)
    as (_ & Ok & Fb & Fail).
  fold goal w' remote fallback in Ok, Fb, Fail.
  split.
  - split.
    + intros [cause Hc]. destruct remote eqn:R.
      * split; [discriminate|].
        destruct fallback eqn:F; [discriminate|].
        destruct Fb as (_ & Ht & _); [discriminate | reflexivity |].
        rewrite Ht in Hc. apply app_inv_head in Hc. discriminate.
      * destruct Ok as (_ & Ht & _); [reflexivity|].
        rewrite Ht in Hc. apply app_inv_head in Hc. discriminate.
    + intros [R F]. destruct fallback as [cause|] eqn:Fe; [|congruence].
      exists cause. apply (Fail cause R eq_refl).
  - intros cause R F. destruct (Fail cause R F) as (Hp & Ht & Hl).
    repeat split; assumption.
Qed.

Lemma saveCustomCalorieGoal_failure_witness :
  entering (custom_dialog (Some (Calculator.mkUser "user-1")) "2200" None
                          (mkLocalStorage (Broken (mkError "Unexpected token"))
                                          None)
                          unreachable)
           (Calculator.mkUser "user-1") 2200
  /\ toasts (run (saveCustomCalorieGoal 1700 1701)
                 (custom_dialog (Some (Calculator.mkUser "user-1")) "2200"
                                None
                                (mkLocalStorage
                                   (Broken (mkError "Unexpected token")) None)
                                unreachable))
     = [custom_save_failed (mkError "Unexpected token")].
Proof.
  assert (E : entering
                (custom_dialog (Some (Calculator.mkUser "user-1")) "2200" None
                               (mkLocalStorage
                                  (Broken (mkError "Unexpected token")) None)
                               unreachable)
                (Calculator.mkUser "user-1") 2200).
  { split; [reflexivity|]. split; [discriminate|]. split; reflexivity. }
  split; [exact E|].
  pose proof (saveCustomCalorieGoal_failure _ _ _ 1700 1701 E) as H.
  cbv zeta in H. destruct H as (_ & H).
  destruct (H (mkError "Unexpected token")) as (Ht & _);
    [discriminate | reflexivity | exact Ht].
Defined.

End CustomGoals.

(* ================================================================= *)
(** ** The nutrition goals and the meals of the history page *)

Section MacroGoals.
Import History HistoryMore.

(** X18: a change of one of the three nutrition fields touches only the
    current goal of the page: the goal of that macronutrient becomes
    the number read from the text, or none for an empty text, and the
    other two macro goals and all other fields stay, so that the
    summaries keep their daily goal.  Nothing is sent or stored, and the
    goals of the page are not updated. *)
Theorem changeMacroGoal_frame (w : World State) (m : Macro) (value : string) :
  let w' := run (changeMacroGoal m value) w in
  sent w' = sent w /\ toasts w' = toasts w
  /\ localStorage w' = localStorage w
  /\ calorieGoals (page w') = calorieGoals (page w)
  /\ meals (page w') = meals (page w)
  /\ (currentGoal (page w) = None -> currentGoal (page w') = None)
  /\ (forall g, currentGoal (page w) = Some g ->
      exists g',
        currentGoal (page w') = Some g'
        /\ macro_of m g'
           = (if not_string value then None else Some (parseFloat value))
        /\ (forall m', m' <> m -> macro_of m' g' = macro_of m' g)
        /\ same_but_macros g' g
        /\ forall startDate endDate,
             dailyGoal (calculateSummary (page w') startDate endDate)
             = dailyGoal (calculateSummary (page w) startDate endDate)).
Proof.
  intros w'. subst w'. handler_more.
  repeat (split; [reflexivity|]).
  cbn [currentGoal setCurrentGoal]. split.
  - intros E. rewrite E. reflexivity.
  - intros g E. rewrite E. eexists. split; [reflexivity|].
    split; [destruct m; reflexivity|].
    split; [intros m' N; destruct m, m'; try reflexivity; congruence|].
    split; [repeat split|].
    intros startDate endDate. unfold calculateSummary.
    cbn [currentGoal setCurrentGoal]. rewrite E. reflexivity.
Qed.

Lemma changeMacroGoal_frame_witness :
  currentGoal (showing [] [older_goal] (Some older_goal) "")
  = Some older_goal
  /\ exists g',
       currentGoal
         (page (run (changeMacroGoal Protein "120")
                    (history (showing [] [older_goal] (Some older_goal) "")
                             (mkLocalStorage Absent None) (rows []))))
       = Some g'
       /\ macro_of Protein g' = Some (Num 120)
       /\ same_but_macros g' older_goal.
Proof.
  split; [reflexivity|].
  pose proof (changeMacroGoal_frame
                (history (showing [] [older_goal] (Some older_goal) "")
                         (mkLocalStorage Absent None) (rows []))
                Protein "120") as H.
  cbv zeta in H. destruct H as (_ & _ & _ & _ & _ & _ & H).
  destruct (H older_goal eq_refl) as (g' & Hc & Hm & _ & Hs & _).
  exists g'. split; [exact Hc|]. split; [exact Hm | exact Hs].
Defined.

Lemma with_macros_merged (current stored : CalorieGoal.t) :
  merged current stored
    (if String.eqb (CalorieGoal.id stored) (CalorieGoal.id current)
     then with_macros (CalorieGoal.protein_goal current)
                      (CalorieGoal.carbs_goal current)
                      (CalorieGoal.fat_goal current) stored
     else stored).
Proof.
  destruct (String.eqb (CalorieGoal.id stored) (CalorieGoal.id current)) eqn:E.
  - apply String.eqb_eq in E. left. split; [exact E|].
    split; [repeat split|]. intros m. destruct m; reflexivity.
  - apply String.eqb_neq in E. right. split; [exact E | reflexivity].
Qed.

(** X19: Save Goals shows Goals Updated when the remote update goes
    through, or when it fails and the local list can be written; the
    local write gives the three macro goals of the current goal to the
    stored goals with its id, keeps their other fields and leaves the
    other stored goals as they are.  When the remote update and the
    local write both fail the handler throws the exception of the local
    write and shows nothing.  The page is never changed. *)
Theorem saveMacroGoals_outcome (w : World State) (answer : option Error)
  (goal : CalorieGoal.t) :
  currentGoal (page w) = Some goal ->
  let w' := run (saveMacroGoals answer) w in
  let fallback := write_failure (localStorage w) in
  page w' = page w
  /\ (answer = None ->
      fst (saveMacroGoals answer w) = Return tt
      /\ toasts w' = (toasts w ++ [goals_updated])%list
      /\ localStorage w' = localStorage w)
  /\ (answer <> None -> fallback = None ->
      fst (saveMacroGoals answer w) = Return tt
      /\ toasts w' = (toasts w ++ [goals_updated])%list
      /\ Forall2 (merged goal) (stored_goals (localStorage w))
                 (stored_goals (localStorage w')))
  /\ (forall cause, answer <> None -> fallback = Some cause ->
      fst (saveMacroGoals answer w) = Throw cause
      /\ toasts w' = toasts w
      /\ localStorage w' = localStorage w).
Proof.
  intros G w' fallback. subst w' fallback.
  assert (F2 : forall l,
             Forall2 (merged goal) l
               (map (fun g =>
                       if String.eqb (CalorieGoal.id g) (CalorieGoal.id goal)
                       then with_macros (CalorieGoal.protein_goal goal)
                                        (CalorieGoal.carbs_goal goal)
                                        (CalorieGoal.fat_goal goal) g
                       else g) l)).
  { induction l as [|g l IH]; constructor;
      [apply with_macros_merged | exact IH]. }
  handler_more. rewrite G. unfold write_failure, stored_goals.
  destruct answer as [e|]; handler;
    [destruct (calorie_goals (localStorage w)) as [|l|e']; handler;
     [destruct (quota (localStorage w)); handler
     |destruct (quota (localStorage w)); handler|]|];
    repeat match goal with
           | |- _ /\ _ => split
           | |- _ -> _ => intro
           end;
    try reflexivity; try congruence;
    try apply F2;
    try constructor.
Qed.

Lemma saveMacroGoals_outcome_witness :
  currentGoal (showing [] [older_goal] (Some older_goal) "")
  = Some older_goal
  /\ fst (saveMacroGoals
            (Some (mkError "Failed to fetch"))
            (history (showing [] [older_goal] (Some older_goal) "")
                     (mkLocalStorage Absent
                                     (Some (mkError "QuotaExceededError")))
                     unreachable))
     = Throw (mkError "QuotaExceededError").
Proof.
  split; [reflexivity|].
  pose proof (saveMacroGoals_outcome
                (history (showing [] [older_goal] (Some older_goal) "")
                         (mkLocalStorage
                            Absent (Some (mkError "QuotaExceededError")))
                         unreachable)
                (Some (mkError "Failed to fetch")) older_goal eq_refl) as H.
  cbv zeta in H. destruct H as (_ & _ & _ & H).
  destruct (H (mkError "QuotaExceededError")) as (Ht & _);
    [discriminate | reflexivity | exact Ht].
Defined.

(** X20: when the load of the meals fails the page keeps no meal and
    shows the message of the failure; every summary then has no meal
    and totals 0, and is under a current goal with a positive target.
    When the load goes through the meals are the rows of the answer,
    none when it has no rows, and nothing is shown.  The load never
    throws and leaves the goals as they were. *)
Theorem fetchMeals_then_summary (w : World State) (answer : MealsResponse)
  (startDate endDate : Date) :
  let w' := run (fetchMeals answer) w in
  let s := calculateSummary (page w') startDate endDate in
  fst (fetchMeals answer w) = Return tt
  /\ currentGoal (page w') = currentGoal (page w)
  /\ calorieGoals (page w') = calorieGoals (page w)
  /\ (meals_error answer = None ->
      meals (page w')
      = match meals_data answer with Some l => l | None => [] end
      /\ toasts w' = toasts w)
  /\ (forall cause, meals_error answer = Some cause ->
      meals (page w') = []
      /\ toasts w' = (toasts w ++ [loading_failed cause])%list
      /\ totalCalories s = Num 0 /\ totalProtein s = Num 0
      /\ totalCarbs s = Num 0 /\ totalFat s = Num 0
      /\ mealCount s = Num 0
      /\ forall goal target,
           currentGoal (page w) = Some goal ->
           goalCaloriesOf goal = Num target -> (0 < target)%Q ->
           goalStatus s = Some under).
Proof.
  intros w' s. subst s w'. handler_more.
  destruct (meals_error answer) as [e|]; handler.
  - split; [reflexivity|]. split; [reflexivity|]. split; [reflexivity|].
    split; [discriminate|].
    intros cause E. injection E as <-.
    unfold calculateSummary.
    cbn [meals setMeals currentGoal filter fold_left].
    destruct (currentGoal (page w)) as [g|];
      cbn [totalCalories totalProtein totalCarbs totalFat mealCount
           goalStatus no_meals];
      repeat split; try discriminate.
    intros goal target E T P. injection E as <-. rewrite T.
    f_equal. apply goalStatusOf_under.
    change (0 < 0.9 * target)%Q. lra.
  - split; [reflexivity|]. split; [reflexivity|]. split; [reflexivity|].
    split; [intros _; split; reflexivity|]. discriminate.
Qed.

Lemma fetchMeals_then_summary_witness :
  meals_error (mkMealsResponse None (Some (mkError "Failed to fetch")))
  = Some (mkError "Failed to fetch")
  /\ goalStatus
       (calculateSummary
          (page (run (fetchMeals
                        (mkMealsResponse None
                                         (Some (mkError "Failed to fetch"))))
                     (history (showing three_meals [older_goal]
                                       (Some older_goal) "")
                              (mkLocalStorage Absent None) (rows []))))
          (mkDate (of_Z 100)) (mkDate (of_Z 300)))
     = Some under.
Proof.
  split; [reflexivity|].
  pose proof (fetchMeals_then_summary
                (history (showing three_meals [older_goal]
                                  (Some older_goal) "")
                         (mkLocalStorage Absent None) (rows []))
                (mkMealsResponse None (Some (mkError "Failed to fetch")))
                (mkDate (of_Z 100)) (mkDate (of_Z 300))) as H.
  cbv zeta in H. destruct H as (_ & _ & _ & _ & H).
  destruct (H _ eq_refl) as (_ & _ & _ & _ & _ & _ & _ & Hs).
  apply (Hs older_goal 1800%Q); reflexivity.
Defined.

End MacroGoals.

(* ================================================================= *)
(** ** Windows of the summary *)

Section Windows.
Import History.

Lemma same_sym x y : same x y -> same y x.
Proof.
  destruct x, y; simpl; try tauto. intros H. symmetry. exact H.
Qed.

Lemma add_comm x y : same (x + y)%js (y + x)%js.
Proof. destruct x, y; simpl; try exact I. ring. Qed.

Lemma add_compat x x' y y' :
  same x x' -> same y y' -> same (x + y)%js (x' + y')%js.
Proof.
  destruct x, x', y, y'; simpl; try tauto.
  intros H1 H2. rewrite H1, H2. reflexivity.
Qed.

(** The sums over a part of the list that is split in two. *)
Lemma sum_filter_split {A} (f : A -> number) (p q r : A -> bool)
  (l : list A) :
  (forall m, In m l -> r m = (p m || q m)%bool /\ (p m && q m)%bool = false) ->
  same (sum (map f (filter r l)))
       (sum (map f (filter p l)) + sum (map f (filter q l)))%js.
Proof.
  induction l as [|m l IH]; intros H.
  - simpl. reflexivity.
  - assert (IH' := IH (fun m' I => H m' (or_intror I))).
    destruct (H m (or_introl eq_refl)) as [Hr Hpq].
    cbn [filter]. rewrite Hr.
    destruct (p m), (q m); try discriminate;
      cbn [orb map sum fold_right]; fold (sum (map f (filter r l)));
      fold (sum (map f (filter p l))); fold (sum (map f (filter q l))).
    + eapply same_trans; [|apply same_sym, add_assoc].
      apply add_compat; [apply same_refl | exact IH'].
    + eapply same_trans; [apply add_compat; [apply same_refl | exact IH']|].
      eapply same_trans; [apply same_sym, add_assoc|].
      eapply same_trans; [apply add_compat; [apply add_comm | apply same_refl]|].
      apply add_assoc.
    + exact IH'.
Qed.

Lemma length_filter_split {A} (p q r : A -> bool) (l : list A) :
  (forall m, In m l -> r m = (p m || q m)%bool /\ (p m && q m)%bool = false) ->
  List.length (filter r l)
  = (List.length (filter p l) + List.length (filter q l))%nat.
Proof.
  induction l as [|m l IH]; intros H; [reflexivity|].
  assert (IH' := IH (fun m' I => H m' (or_intror I))).
  destruct (H m (or_introl eq_refl)) as [Hr Hpq].
  cbn [filter]. rewrite Hr.
  destruct (p m), (q m); try discriminate; cbn [orb List.length]; lia.
Qed.

Lemma le_of_Z (x y : Z) : (of_Z x <=? of_Z y)%js = (x <=? y)%Z.
Proof.
  unfold of_Z, le, Qle_bool, inject_Z. cbn [Qnum Qden].
  rewrite !Z.mul_1_r. reflexivity.
Qed.

Lemma window_split (a b c : Z) (m : MealAnalysis) :
  on_the_clock m -> (a <= b + 1)%Z -> (b <= c)%Z ->
  in_window (at_ms a) (at_ms c) m
  = (in_window (at_ms a) (at_ms b) m
     || in_window (at_ms (b + 1)) (at_ms c) m)%bool
  /\ (in_window (at_ms a) (at_ms b) m
      && in_window (at_ms (b + 1)) (at_ms c) m)%bool = false.
Proof.
  intros [T | (z & T)] Hab Hbc; unfold in_window, at_ms; cbn [getTime];
    rewrite T.
  - split; reflexivity.
  - unfold ge. rewrite !le_of_Z.
    destruct (Z.leb_spec a z), (Z.leb_spec z c), (Z.leb_spec z b),
             (Z.leb_spec (b + 1) z); cbn [andb orb];
      split; try reflexivity; lia.
Qed.

(** The totals of a summary are the sums over the meals kept. *)
Lemma calculateSummary_sums (st : State) (startDate endDate : Date) :
  let kept := filter (in_window startDate endDate) (meals st) in
  let s := calculateSummary st startDate endDate in
  same (totalCalories s) (sum (map calories kept))
  /\ same (totalProtein s) (sum (map protein kept))
  /\ same (totalCarbs s) (sum (map carbs kept))
  /\ same (totalFat s) (sum (map fat kept))
  /\ mealCount s = of_Z (Z.of_nat (List.length kept)).
Proof.
  intros kept s.
  destruct (calculateSummary_reduce st startDate endDate)
    as (Ecal & Epro & Ecar & Efat & Ecnt).
  destruct (fold_add_meal kept no_meals)
    as (Rcal & Rpro & Rcar & Rfat & Rcnt & _).
  fold kept in Ecal, Epro, Ecar, Efat, Ecnt.
  fold s in Ecal, Epro, Ecar, Efat, Ecnt.
  rewrite Ecal, Epro, Ecar, Efat, Ecnt.
  rewrite Rcal, Rpro, Rcar, Rfat, Rcnt.
  cbn [no_meals totalCalories totalProtein totalCarbs totalFat mealCount].
  repeat (split; [apply fold_left_add_0|]).
  change (Num 0) with (of_Z 0). rewrite count_ones. reflexivity.
Qed.

Lemma split_totals (x y z sx sy sz : number) :
  same x sx -> same y sy -> same z sz -> same sx (sy + sz)%js ->
  same x (y + z)%js.
Proof.
  intros Hx Hy Hz H.
  eapply same_trans; [exact Hx|].
  eapply same_trans; [exact H|].
  apply add_compat; apply same_sym; assumption.
Qed.



End Windows.

(* ================================================================= *)
(** ** From the calculator to the history page *)

Section RoundTrip.
Import History.

Lemma saveCalorieGoal_fallback_storage (w : World Calculator.State)
  (goalType : Calculator.GoalType) (now created : Z)
  (u : Calculator.User) (r : Calculator.CalorieResults) :
  ready w u r ->
  let goal := Calculator.goalData (page w) u r goalType now created in
  error (supabase w (Insert goal)) <> None ->
  write_failure (localStorage w) = None ->
  localStorage (run (Calculator.saveCalorieGoal goalType now created) w)
  = mkLocalStorage (Goals (stored_goals (localStorage w) ++ [goal])%list)
                   None.
Proof.
  intros [Huser Hresults] goal R F.
  handler. rewrite Huser, Hresults. handler. fold goal.
  destruct (error (supabase w (Insert goal))); [|congruence]. handler.
  unfold write_failure, stored_goals in *.
  destruct (calorie_goals (localStorage w)); handler;
    try discriminate; rewrite F; handler; reflexivity.
Qed.

Lemma goalData_valid (st : Calculator.State) (u : Calculator.User)
  (r : Calculator.CalorieResults) (goalType : Calculator.GoalType)
  (now created : Z) (m : Q) :
  Calculator.maintenance r = Num m -> (0 < m)%Q ->
  has_valid_calories (Calculator.goalData st u r goalType now created) = true.
Proof.
  intros E P. unfold has_valid_calories.
  cbn [Calculator.goalData CalorieGoal.id CalorieGoal.maintenance_calories].
  rewrite E. apply andb_true_iff. split; [reflexivity|].
  apply gt_Num. exact P.
Qed.

Lemma created_before_dated (created : Z) (g : CalorieGoal.t) :
  created_before created g -> dated g.
Proof.
  unfold created_before, dated.
  destruct (getTime (CalorieGoal.created_at g)); [discriminate | reflexivity].
Qed.

(** X22: a goal with positive maintenance calories that the calculator
    has saved in the local list, after all the goals stored there were
    created, is the current goal of the history page when the remote
    store fails there too, provided that the list was empty or began
    with a valid goal.  When the list began with a goal that is not
    valid, no goal is current. *)
Theorem saved_goal_is_fetched (w : World Calculator.State) (h : World State)
  (goalType : Calculator.GoalType) (now created : Z)
  (u : Calculator.User) (r : Calculator.CalorieResults) (m : Q) :
  ready w u r ->
  Calculator.maintenance r = Num m -> (0 < m)%Q ->
  let goal := Calculator.goalData (page w) u r goalType now created in
  error (supabase w (Insert goal)) <> None ->
  write_failure (localStorage w) = None ->
  Forall (created_before created) (stored_goals (localStorage w)) ->
  localStorage h
  = localStorage (run (Calculator.saveCalorieGoal goalType now created) w) ->
  remote_fails h ->
  (hd_error (stored_goals (localStorage w)) = None
   \/ (exists g0, hd_error (stored_goals (localStorage w)) = Some g0
                  /\ has_valid_calories g0 = true) ->
   currentGoal (page (run fetchCalorieGoals h)) = Some goal)
  /\ (forall g0, hd_error (stored_goals (localStorage w)) = Some g0 ->
      has_valid_calories g0 = false ->
      currentGoal (page (run fetchCalorieGoals h)) = None).
Proof.
  intros Hready Hm Hpos goal R F Hold Hls Hremote.
  pose proof (saveCalorieGoal_fallback_storage w goalType now created u r
                Hready R F) as S.
  fold goal in S. rewrite S in Hls.
  assert (Hitem : calorie_goals (localStorage h)
                  = Goals (stored_goals (localStorage w) ++ [goal])%list)
    by (rewrite Hls; reflexivity).
  pose proof (goalData_valid (page w) u r goalType now created m Hm Hpos)
    as Hvalid.
  fold goal in Hvalid.
  split.
  - intros Hhead.
    destruct (stored_goals (localStorage w)) as [|g0 rest] eqn:Es.
    + destruct (fetchCalorieGoals_local_run h goal [] Hremote Hitem Hvalid)
        as [_ Hc].
      rewrite Hc. reflexivity.
    + destruct Hhead as [Hnone | (g & Hg & Hv)]; [discriminate|].
      injection Hg as <-.
      destruct (fetchCalorieGoals_local_run h g0 (rest ++ [goal])%list
                  Hremote Hitem Hv) as [_ Hc].
      rewrite Hc.
      assert (D : Forall dated (g0 :: rest ++ [goal])%list).
      { change (Forall dated ((g0 :: rest) ++ [goal])%list).
        apply Forall_app. split.
        - eapply Forall_impl; [|exact Hold].
          intros a. apply created_before_dated.
        - repeat constructor. }
      destruct (sort by_created_at_desc (g0 :: rest ++ [goal])%list)
        as [|g l] eqn:Esort.
      { pose proof (sort_Permutation by_created_at_desc
                      (g0 :: rest ++ [goal])%list) as P.
        rewrite Esort in P. apply Permutation_nil in P. discriminate. }
      destruct (sort_head_latest _ _ _ D Esort) as [Ig Hmax].
      cbn [hd_error]. f_equal.
      change (In g ((g0 :: rest) ++ [goal])%list) in Ig.
      apply in_app_or in Ig. destruct Ig as [Ig | [Ig | []]]; [|congruence].
      exfalso.
      rewrite Forall_forall in Hold. specialize (Hold g Ig).
      assert (Hlast : not_after goal g).
      { apply Hmax. change (In goal ((g0 :: rest) ++ [goal])%list).
        apply in_or_app. right. left. reflexivity. }
      unfold created_before in Hold. unfold not_after in Hlast.
      cbn [goal Calculator.goalData CalorieGoal.created_at getTime] in Hlast.
      destruct (getTime (CalorieGoal.created_at g)) as [|t]; [discriminate|].
      unfold of_Z in *. apply lt_Num in Hold. apply le_Num in Hlast. lra.
  - intros g0 Hg Hv.
    destruct (stored_goals (localStorage w)) as [|g rest] eqn:Es;
      [discriminate|].
    injection Hg as ->.
    unfold remote_fails in Hremote. handler.
    destruct (error (supabase h SelectByCreatedAtDesc)); [|congruence].
    handler. rewrite Hitem. cbn [app]. rewrite Hv. reflexivity.
Qed.

Lemma saved_goal_is_fetched_witness :
  ready (saving (mkLocalStorage (Goals [older_goal]) None) unreachable)
        (Calculator.mkUser "user-1")
        {| Calculator.bmr := Num 1674; Calculator.tdee := Num 2594;
           Calculator.maintenance := Num 2594;
           Calculator.weightLoss := Num 2094;
           Calculator.weightGain := Num 3094 |}
  /\ Forall (created_before 1701) [older_goal]
  /\ currentGoal
       (page (run fetchCalorieGoals
                  (history (showing [] [] None "")
                           (localStorage
                              (run (Calculator.saveCalorieGoal
                                      Calculator.Maintenance 1700 1701)
                                   (saving (mkLocalStorage
                                              (Goals [older_goal]) None)
                                           unreachable)))
                           unreachable)))
     = Some (Calculator.goalData
               (page (saving (mkLocalStorage (Goals [older_goal]) None)
                             unreachable))
               (Calculator.mkUser "user-1")
               {| Calculator.bmr := Num 1674; Calculator.tdee := Num 2594;
                  Calculator.maintenance := Num 2594;
                  Calculator.weightLoss := Num 2094;
                  Calculator.weightGain := Num 3094 |}
               Calculator.Maintenance 1700 1701).
Proof.
  assert (R : ready (saving (mkLocalStorage (Goals [older_goal]) None)
                            unreachable)
                    (Calculator.mkUser "user-1")
                    {| Calculator.bmr := Num 1674;
                       Calculator.tdee := Num 2594;
                       Calculator.maintenance := Num 2594;
                       Calculator.weightLoss := Num 2094;
                       Calculator.weightGain := Num 3094 |})
    by (split; reflexivity).
  assert (B : Forall (created_before 1701) [older_goal])
    by (repeat constructor).
  split; [exact R|]. split; [exact B|].
  pose proof (saved_goal_is_fetched
                (saving (mkLocalStorage (Goals [older_goal]) None) unreachable)
                (history (showing [] [] None "")
                         (localStorage
                            (run (Calculator.saveCalorieGoal
                                    Calculator.Maintenance 1700 1701)
                                 (saving (mkLocalStorage
                                            (Goals [older_goal]) None)
                                         unreachable)))
                         unreachable)
                Calculator.Maintenance 1700 1701 _ _ 2594 R eq_refl) as H.
  cbv zeta in H.
  destruct H as [H _];
    [reflexivity | discriminate | reflexivity | exact B | reflexivity
    | discriminate |].
  apply H. right. exists older_goal. split; reflexivity.
Defined.

End RoundTrip.

(* ================================================================= *)
(** ** What the cards show *)

Section Cards.
Import History SummaryCard.

Lemma div_Num (a b : Q) : ~ (b == 0)%Q -> (Num a / Num b)%js = Num (a / b).
Proof.
  intros N. unfold div. destruct (Qeq_bool b 0) eqn:E; [|reflexivity].
  apply Qeq_bool_iff in E. contradiction.
Qed.

Lemma Math_round_at_least (x : Q) (n : Z) :
  (inject_Z n <= x)%Q -> (n <= Qfloor (x + (1 # 2)))%Z.
Proof.
  intros L.
  replace n with (Qfloor (inject_Z n)) at 1 by apply Qfloor_Z.
  apply Qfloor_resp_le. lra.
Qed.

Lemma Math_round_at_most (x : Q) (n : Z) :
  (x <= inject_Z n)%Q -> (Qfloor (x + (1 # 2)) <= n)%Z.
Proof.
  intros L.
  assert (E : Qfloor (inject_Z n + (1 # 2)) = n).
  { apply Qfloor_unique; [lra|]. rewrite inject_Z_plus.
    change (inject_Z 1) with 1%Q. lra. }
  apply Z.le_trans with (Qfloor (inject_Z n + (1 # 2))).
  - apply Qfloor_resp_le. lra.
  - rewrite E. lia.
Qed.





End Cards.

Section Percentages.
Import NutritionResults.

Lemma Q_of_Z_bounds (z : Z) (lo hi : Z) :
  (inject_Z lo - 1 < inject_Z z)%Q -> (inject_Z z < inject_Z hi + 1)%Q ->
  (lo <= z <= hi)%Z.
Proof.
  intros L U.
  assert (L' : (inject_Z (lo - 1) < inject_Z z)%Q).
  { unfold Z.sub. rewrite inject_Z_plus. exact L. }
  assert (U' : (inject_Z z < inject_Z (hi + 1))%Q).
  { rewrite inject_Z_plus. exact U. }
  rewrite <- Zlt_Qlt in L', U'. lia.
Qed.



End Percentages.

(* ================================================================= *)
(** ** The analysis of a meal on the home page *)

Section Analysing.
Import Index NutritionResults.

Variable ToString : Json.value -> string.
Variable toLowerCase : string -> string.

Ltac analysis :=
  unfold handleImageSelect; handler;
  cbn [nutritionData isAnalyzing selectedImage savedToHistory user isSaving
       setNutritionData setIsAnalyzing setSelectedImage setSavedToHistory
       normalize field is_number number_of Json.not Json.falsy negb orb
       andb].

Lemma get_object (key : string) (v x : Json.value) :
  Json.get key v = Some x -> exists fields, v = Json.obj fields.
Proof.
  destruct v; try discriminate. intros _. eexists. reflexivity.
Qed.

(** The world after a successful analysis. *)
Lemma handleImageSelect_accepts (w : World State) (file : File)
  (status : Z) (data : Json.value) (d : NutritionData) :
  analysed data d ->
  handleImageSelect ToString toLowerCase file
    (Answered true status (Parsed data)) w
  = (Return tt,
     {| page := {| selectedImage := Some file; isAnalyzing := false;
                   nutritionData := Some d; user := user (page w);
                   isSaving := isSaving (page w);
                   savedToHistory := false |};
        localStorage := localStorage w;
        supabase := supabase w;
        sent := sent w;
        toasts := (toasts w ++ [analysis_complete])%list;
        route := route w |}).
Proof.
  intros (first & result & total & food & c & p & cb & f
          & Hl & Ho & Hs & Ht & Hc & Hp & Hcb & Hf & Hfood & ->).
  destruct (get_object _ _ _ Hs) as (rf & ->).
  destruct (get_object _ _ _ Hc) as (tf & ->).
  assert (N : match normalize data with
              | Some (x :: _) => Json.get "output" x
              | _ => None
              end = Some (Json.obj rf)).
  { destruct data as [ | | | |[|x l]|fields]; try discriminate.
    - cbn in Hl. injection Hl as ->. exact Ho.
    - unfold looked_at in Hl. unfold normalize.
      destruct (Json.has "output" (Json.obj fields)); [|discriminate].
      injection Hl as <-. exact Ho. }
  analysis.
  destruct (normalize data) as [[|x l]|]; try discriminate.
  analysis. rewrite N. analysis. rewrite Hs. cbn [String.eqb Ascii.eqb].
  analysis. rewrite Ht. analysis. rewrite Hc, Hp, Hcb, Hf. analysis.
  rewrite Hfood. analysis. reflexivity.
Qed.

Ltac reject :=
  solve [right; eexists; reflexivity
        | cbn [Json.get]; analysis; rewrite ?orb_true_r; cbn [orb];
          right; eexists; reflexivity].

Ltac validate first Hl :=
  destruct (Json.get "output" first) as [result|] eqn:Ho;
  analysis; try reject;
  destruct result as [ | | | | |rf]; analysis; try reject;
  destruct (Json.get "status" (Json.obj rf)) as [[ | | |s| | ]|] eqn:Hs;
  analysis; try reject;
  destruct (String.eqb s "success") eqn:Hss; analysis; try reject;
  apply String.eqb_eq in Hss; subst s;
  destruct (Json.get "total" (Json.obj rf)) as [[ | | | | |tf]|] eqn:Ht;
  analysis; try reject;
  destruct (Json.get "calories" (Json.obj tf)) as [[ | |c| | | ]|] eqn:Hc;
  analysis; try reject;
  destruct (Json.get "protein" (Json.obj tf)) as [[ | |p| | | ]|] eqn:Hp;
  analysis; try reject;
  destruct (Json.get "carbs" (Json.obj tf)) as [[ | |cb| | | ]|] eqn:Hcb;
  analysis; try reject;
  destruct (Json.get "fat" (Json.obj tf)) as [[ | |f| | | ]|] eqn:Hf;
  analysis; try reject;
  destruct (Json.get "food" (Json.obj rf)) as [[ | | | |food| ]|] eqn:Hfood;
  analysis; try reject;
  left; eexists; eexists; eexists; split; [reflexivity|];
  exists first, (Json.obj rf), (Json.obj tf), food, c, p, cb, f;
  repeat split; solve [eassumption | reflexivity | exact Hl].

(** The world after an analysis: it went through, for an answer that
    holds a successful analysis, or it failed with some text. *)
Lemma handleImageSelect_verdict (w : World State) (file : File)
  (reply : Reply) :
  (exists status data d,
      reply = Answered true status (Parsed data) /\ analysed data d)
  \/ (exists text,
         handleImageSelect ToString toLowerCase file reply w
         = (Return tt,
            {| page := {| selectedImage := Some file; isAnalyzing := false;
                          nutritionData := None; user := user (page w);
                          isSaving := isSaving (page w);
                          savedToHistory := false |};
               localStorage := localStorage w;
               supabase := supabase w;
               sent := sent w;
               toasts := (toasts w ++ [analysis_failed text])%list;
               route := route w |})).
Proof.
  destruct reply as [e | [|] status [e | data]]; analysis; try reject.
  destruct data as [ |b|n|s|[|first rest]|fields]; analysis; try reject.
  - assert (Hl : looked_at (Json.arr (first :: rest)) = Some first)
      by reflexivity.
    validate first Hl.
  - destruct (Json.has "output" (Json.obj fields)) eqn:Hh; analysis.
    + assert (Hl : looked_at (Json.obj fields) = Some (Json.obj fields)).
      { unfold looked_at. rewrite Hh. reflexivity. }
      validate (Json.obj fields) Hl.
    + destruct (Json.has "message" (Json.obj fields)); analysis;
        try reject.
      destruct (includes "workflow"
                  (toLowerCase (message_text ToString (Json.obj fields))));
        analysis; reject.
Qed.

(** X26: after an analysis the page shows a result exactly when the
    service answered ok with a body that holds a successful analysis:
    the first item of an array, or an object with a property output,
    whose output has the status success, a total with the four numbers
    and a list of food.  The result shown is made of those numbers and
    that list. *)
Theorem handleImageSelect_result (w : World State) (file : File)
  (reply : Reply) (d : NutritionData) :
  nutritionData (page (run (handleImageSelect ToString toLowerCase file reply)
                           w))
  = Some d
  <-> exists status data,
        reply = Answered true status (Parsed data) /\ analysed data d.
Proof.
  split.
  - intros H.
    destruct (handleImageSelect_verdict w file reply)
      as [(status & data & d' & -> & Hd) | (text & E)].
    + unfold run in H.
      rewrite (handleImageSelect_accepts w file status data d' Hd) in H.
      cbn [snd page nutritionData] in H. injection H as <-.
      exists status, data. split; [reflexivity | exact Hd].
    + unfold run in H. rewrite E in H. discriminate.
  - intros (status & data & -> & Hd).
    unfold run.
    rewrite (handleImageSelect_accepts w file status data d Hd).
    reflexivity.
Qed.

(** X27: an analysis never throws and always ends: the page is no
    longer analysing, holds the chosen file and is not marked as saved;
    the user, the stores and the route are as before, nothing is sent,
    and exactly one toast is added: Analysis Complete! with a result
    shown, or Analysis Failed with a text and no result, also when a
    result was shown before. *)
Theorem handleImageSelect_settles (w : World State) (file : File)
  (reply : Reply) :
  let w' := run (handleImageSelect ToString toLowerCase file reply) w in
  fst (handleImageSelect ToString toLowerCase file reply w) = Return tt
  /\ isAnalyzing (page w') = false
  /\ selectedImage (page w') = Some file
  /\ savedToHistory (page w') = false
  /\ user (page w') = user (page w)
  /\ isSaving (page w') = isSaving (page w)
  /\ localStorage w' = localStorage w
  /\ sent w' = sent w
  /\ route w' = route w
  /\ ((nutritionData (page w') <> None
       /\ toasts w' = (toasts w ++ [analysis_complete])%list)
      \/ (nutritionData (page w') = None
          /\ exists text,
               toasts w' = (toasts w ++ [analysis_failed text])%list)).
Proof.
  intros w'. unfold w', run.
  destruct (handleImageSelect_verdict w file reply)
    as [(status & data & d' & -> & Hd) | (text & E)].
  - rewrite (handleImageSelect_accepts w file status data d' Hd).
    cbn [fst snd page localStorage sent toasts route nutritionData
         isAnalyzing selectedImage savedToHistory user isSaving].
    repeat match goal with |- _ /\ _ => split end; try reflexivity.
    left. split; [discriminate | reflexivity].
  - rewrite E.
    cbn [fst snd page localStorage sent toasts route nutritionData
         isAnalyzing selectedImage savedToHistory user isSaving].
    repeat match goal with |- _ /\ _ => split end; try reflexivity.
    right. split; [reflexivity|]. exists text. reflexivity.
Qed.

(** X28: of the body of an answer the page reads one entry only: two
    bodies with the same entry looked at, the first item of an array or
    an object with a property output, give the same outcome and the
    same page, whatever else the array holds. *)
Theorem handleImageSelect_first_entry (w : World State) (file : File)
  (ok : bool) (status : Z) (data data' first : Json.value) :
  looked_at data = Some first -> looked_at data' = Some first ->
  handleImageSelect ToString toLowerCase file
    (Answered ok status (Parsed data)) w
  = handleImageSelect ToString toLowerCase file
      (Answered ok status (Parsed data')) w.
Proof.
  intros Hl Hl'.
  destruct ok; [|reflexivity].
  destruct data as [ | | | |[|x l]|fields]; try discriminate;
    destruct data' as [ | | | |[|x' l']|fields']; try discriminate;
    unfold looked_at in Hl, Hl'.
  - assert (x = first) by congruence. assert (x' = first) by congruence.
    subst x x'. reflexivity.
  - destruct (Json.has "output" (Json.obj fields')) eqn:Hh';
      [|discriminate].
    assert (x = Json.obj fields') by congruence. subst x.
    analysis. rewrite Hh'. reflexivity.
  - destruct (Json.has "output" (Json.obj fields)) eqn:Hh; [|discriminate].
    assert (x' = Json.obj fields) by congruence. subst x'.
    analysis. rewrite Hh. reflexivity.
  - destruct (Json.has "output" (Json.obj fields)) eqn:Hh; [|discriminate].
    destruct (Json.has "output" (Json.obj fields')) eqn:Hh';
      [|discriminate].
    assert (fields = fields') by congruence. subst fields'.
    reflexivity.
Qed.

End Analysing.

Section Analysed.
Import Index NutritionResults.

Lemma handleImageSelect_result_witness :
  nutritionData
    (page (run (handleImageSelect (fun _ => "") (fun s => s)
                  (mkFile "meal.jpg")
                  (Answered true 200 (Parsed sample_output)))
               (home None)))
  = Some (mkData (Num 480) (Num 30) (Num 40) (Num 10) None
                 (Some [Json.obj [("name", Json.str "Rice")]])).
Proof.
  apply (proj2 (handleImageSelect_result (fun _ => "") (fun s => s)
                  (home None) (mkFile "meal.jpg")
                  (Answered true 200 (Parsed sample_output)) _)).
  exists 200%Z, sample_output. split; [reflexivity|].
  unfold analysed. do 8 eexists.
  repeat match goal with |- _ /\ _ => split end; reflexivity.
Defined.

Lemma handleImageSelect_settles_witness :
  fst (handleImageSelect (fun _ => "") (fun s => s) (mkFile "meal.jpg")
         (Answered false 502 (Parsed sample_output))
         (home (Some (mkData (Num 480) (Num 30) (Num 40) (Num 10)
                             None None))))
  = Return tt
  /\ nutritionData
       (page (run (handleImageSelect (fun _ => "") (fun s => s)
                     (mkFile "meal.jpg")
                     (Answered false 502 (Parsed sample_output)))
                  (home (Some (mkData (Num 480) (Num 30) (Num 40) (Num 10)
                                      None None)))))
     = None.
Proof.
  pose proof (handleImageSelect_settles (fun _ => "") (fun s => s)
                (home (Some (mkData (Num 480) (Num 30) (Num 40) (Num 10)
                                    None None)))
                (mkFile "meal.jpg")
                (Answered false 502 (Parsed sample_output))) as H.
  cbv zeta in H.
  destruct H as (Hr & _ & _ & _ & _ & _ & _ & _ & _ & [[Hn _] | [Hn _]]).
  - exfalso. apply Hn. reflexivity.
  - split; [exact Hr | exact Hn].
Defined.

Lemma handleImageSelect_first_entry_witness :
  looked_at sample_output = Some sample_output
  /\ looked_at (Json.arr [sample_output; Json.null]) = Some sample_output
  /\ handleImageSelect (fun _ => "") (fun s => s) (mkFile "meal.jpg")
       (Answered true 200 (Parsed sample_output)) (home None)
     = handleImageSelect (fun _ => "") (fun s => s) (mkFile "meal.jpg")
         (Answered true 200
            (Parsed (Json.arr [sample_output; Json.null])))
         (home None).
Proof.
  split; [reflexivity|]. split; [reflexivity|].
  apply (handleImageSelect_first_entry (fun _ => "") (fun s => s)
           (home None) (mkFile "meal.jpg") true 200
           sample_output (Json.arr [sample_output; Json.null])
           sample_output);
    reflexivity.
Defined.

End Analysed.

(* ================================================================= *)
(** ** Saving an analysis *)

Section SavingMeals.
Import Index Saving.

Ltac saving :=
  unfold handleSaveToHistory, saveMealAnalysis, attempt, lift, setIsSaving,
         setSavedToHistory;
  handler;
  cbn [index operations user selectedImage nutritionData isAnalyzing
       isSaving savedToHistory].

(** The world after a signed-in user has saved the result shown. *)
Lemma handleSaveToHistory_run (w : World State) (remote : Remote) (now : Z)
  (u : Calculator.User) (file : File)
  (d : NutritionResults.NutritionData) :
  user (index (page w)) = Some u ->
  selectedImage (index (page w)) = Some file ->
  nutritionData (index (page w)) = Some d ->
  handleSaveToHistory remote now w
  = (Return tt,
     {| page :=
          {| index :=
               {| selectedImage := Some file;
                  isAnalyzing := isAnalyzing (index (page w));
                  nutritionData := Some d;
                  user := Some u;
                  isSaving := false;
                  savedToHistory :=
                    if remote_accepts remote u now file d then true
                    else savedToHistory (index (page w)) |};
             operations :=
               (operations (page w) ++ asked_to_save remote u now file d)%list
          |};
        localStorage := localStorage w;
        supabase := supabase w;
        sent := sent w;
        toasts :=
          (toasts w
           ++ [if remote_accepts remote u now file d then meal_saved
               else meal_save_failed])%list;
        route := route w |}).
Proof.
  intros Hu Hf Hd. saving. rewrite Hu, Hf, Hd. saving.
  unfold remote_accepts, asked_to_save, row_of, stored_name.
  destruct (upload remote _ file) as [e|]; saving.
  - rewrite Hu, Hf, Hd. reflexivity.
  - match goal with
    | |- context [insert remote ?r] => destruct (insert remote r) as [e|]
    end; saving; rewrite ?Hu, ?Hf, ?Hd, <- ?app_assoc; reflexivity.
Qed.

(** The world when there is nothing to save. *)
Lemma handleSaveToHistory_idle (w : World State) (remote : Remote) (now : Z)
  (u : Calculator.User) :
  user (index (page w)) = Some u ->
  selectedImage (index (page w)) = None
  \/ nutritionData (index (page w)) = None ->
  handleSaveToHistory remote now w = (Return tt, w).
Proof.
  intros Hu H. saving. rewrite Hu.
  destruct w as [p l s n t r]. cbn [page] in *.
  destruct H as [H | H]; rewrite H;
    [|destruct (selectedImage (index p))]; reflexivity.
Qed.

(** X29: saving a result never throws.  Signed out, it asks to sign in
    and goes to /auth; signed in without a file or a result it does
    nothing.  Otherwise it asks for the upload of the file under the
    name of the user, the time and the extension of the file, and for
    the row only when the upload was accepted; the page is marked as
    saved, with the toast Saved to History!, exactly when both were
    accepted, and else shows Save failed without the cause; at the end
    it is no longer saving. *)
Theorem handleSaveToHistory_outcome (w : World State) (remote : Remote)
  (now : Z) :
  let w' := run (handleSaveToHistory remote now) w in
  fst (handleSaveToHistory remote now w) = Return tt
  /\ (user (index (page w)) = None ->
      page w' = page w
      /\ toasts w' = (toasts w ++ [sign_in_for_history])%list
      /\ route w' = Some "/auth")
  /\ (user (index (page w)) <> None ->
      selectedImage (index (page w)) = None
      \/ nutritionData (index (page w)) = None ->
      w' = w)
  /\ (forall u file d,
        user (index (page w)) = Some u ->
        selectedImage (index (page w)) = Some file ->
        nutritionData (index (page w)) = Some d ->
        let fileName := stored_name u now file in
        let row := row_of remote u now file d in
        isSaving (index (page w')) = false
        /\ route w' = route w
        /\ (forall cause,
              upload remote fileName file = Some cause ->
              operations (page w')
              = (operations (page w) ++ [Upload fileName file])%list
              /\ savedToHistory (index (page w'))
                 = savedToHistory (index (page w))
              /\ toasts w' = (toasts w ++ [meal_save_failed])%list)
        /\ (forall cause,
              upload remote fileName file = None ->
              insert remote row = Some cause ->
              operations (page w')
              = (operations (page w)
                 ++ [Upload fileName file; InsertMeal row])%list
              /\ savedToHistory (index (page w'))
                 = savedToHistory (index (page w))
              /\ toasts w' = (toasts w ++ [meal_save_failed])%list)
        /\ (upload remote fileName file = None ->
            insert remote row = None ->
            operations (page w')
            = (operations (page w)
               ++ [Upload fileName file; InsertMeal row])%list
            /\ savedToHistory (index (page w')) = true
            /\ toasts w' = (toasts w ++ [meal_saved])%list)).
Proof.
  intros w'. unfold w', run.
  destruct (user (index (page w))) as [u|] eqn:Hu.
  - destruct (selectedImage (index (page w))) as [file|] eqn:Hf;
      [destruct (nutritionData (index (page w))) as [d|] eqn:Hd|].
    + rewrite (handleSaveToHistory_run w remote now u file d Hu Hf Hd).
      cbn [fst snd page index operations toasts route isSaving
           savedToHistory].
      split; [reflexivity|]. split; [discriminate|].
      split; [intros _ [H | H]; discriminate|].
      intros u' file' d' Eu Ef Ed.
      injection Eu as <-. injection Ef as <-. injection Ed as <-.
      cbv zeta. unfold remote_accepts, asked_to_save.
      split; [reflexivity|]. split; [reflexivity|].
      split; [|split].
      * intros cause Hup. rewrite Hup. repeat split; reflexivity.
      * intros cause Hup Hin. rewrite Hup, Hin. repeat split; reflexivity.
      * intros Hup Hin. rewrite Hup, Hin. repeat split; reflexivity.
    + rewrite (handleSaveToHistory_idle w remote now u Hu (or_intror Hd)).
      cbn [fst snd].
      split; [reflexivity|]. split; [discriminate|].
      split; [reflexivity|]. intros u' file' d' _ _ Ed. discriminate.
    + rewrite (handleSaveToHistory_idle w remote now u Hu (or_introl Hf)).
      cbn [fst snd].
      split; [reflexivity|]. split; [discriminate|].
      split; [reflexivity|]. intros u' file' d' _ Ef. discriminate.
  - saving. rewrite Hu. saving.
    split; [reflexivity|].
    split; [intros _; repeat split; reflexivity|].
    split; [intros H; exfalso; apply H; reflexivity|].
    intros u' file' d' Eu. discriminate.
Qed.

(** X30: what is saved is what was analysed.  When a signed-in user
    saves after an analysis that went through, and the upload is
    accepted, the page asks for the upload of the file analysed and then
    for one row, which holds the user, the four numbers and the list of
    food of the body of the answer; the page is marked as saved exactly
    when the row is accepted.  After an analysis that failed, saving
    asks for nothing and changes nothing. *)
Theorem analysed_meal_is_saved (ToString : Json.value -> string)
  (toLowerCase : string -> string) (w : World Index.State) (file : File)
  (reply : Reply) (remote : Remote) (now : Z) (u : Calculator.User) :
  user (page w) = Some u ->
  let w1 := run (handleImageSelect ToString toLowerCase file reply) w in
  let w2 := run (handleSaveToHistory remote now) (about_to_save w1) in
  (forall status data d,
      reply = Answered true status (Parsed data) -> analysed data d ->
      upload remote (stored_name u now file) file = None ->
      exists row food,
        operations (page w2)
        = [Upload (stored_name u now file) file; InsertMeal row]
        /\ MealAnalysis.user_id row = Calculator.uid u
        /\ MealAnalysis.calories row = NutritionResults.calories d
        /\ MealAnalysis.protein row = NutritionResults.protein d
        /\ MealAnalysis.carbs row = NutritionResults.carbs d
        /\ MealAnalysis.fat row = NutritionResults.fat d
        /\ MealAnalysis.food_items row = food
        /\ NutritionResults.foodItems d = Some food
        /\ (savedToHistory (index (page w2)) = true
            <-> insert remote row = None))
  /\ ((forall status data d,
          reply = Answered true status (Parsed data) -> ~ analysed data d) ->
      w2 = about_to_save w1).
Proof.
  intros Hu w1 w2. split.
  - intros status data d -> Hd Hup.
    assert (Hfood : exists food, NutritionResults.foodItems d = Some food).
    { destruct Hd as (first & result & total & food & c & p & cb & f & H).
      exists food. destruct H as (_ & _ & _ & _ & _ & _ & _ & _ & _ & ->).
      reflexivity. }
    destruct Hfood as (food & Hfood).
    exists (row_of remote u now file d), food.
    unfold w2, w1, run.
    rewrite (handleImageSelect_accepts ToString toLowerCase w file status
               data d Hd).
    cbn [snd].
    rewrite (handleSaveToHistory_run _ remote now u file d);
      [|unfold about_to_save; cbn [page index user]; exact Hu
       |reflexivity|reflexivity].
    cbn [snd page index operations savedToHistory about_to_save].
    unfold asked_to_save, remote_accepts. rewrite Hup.
    do 6 (split; [reflexivity|]).
    split; [unfold row_of; cbn [MealAnalysis.food_items]; rewrite Hfood;
            reflexivity|].
    split; [exact Hfood|].
    destruct (insert remote (row_of remote u now file d)) as [e|];
      cbn [savedToHistory]; split; intros H;
      solve [discriminate H | reflexivity].
  - intros Hnot. unfold w2, w1, run.
    destruct (handleImageSelect_verdict ToString toLowerCase w file reply)
      as [(status & data & d & E & Hd) | (text & E)].
    + exfalso. exact (Hnot status data d E Hd).
    + rewrite E. cbn [snd].
      rewrite (handleSaveToHistory_idle _ remote now u);
        [reflexivity | unfold about_to_save; cbn [page index user]; exact Hu
        | right; reflexivity].
Qed.

Lemma handleSaveToHistory_outcome_witness :
  operations
    (page (run (handleSaveToHistory (meal_storage true) 1700000000000)
               (about_to_save
                  {| page :=
                       {| selectedImage := Some (mkFile "lunch.final.jpg");
                          isAnalyzing := false;
                          nutritionData :=
                            Some (NutritionResults.mkData
                                    (Num 480) (Num 30) (Num 40) (Num 10)
                                    None None);
                          user := Some (Calculator.mkUser "u1");
                          isSaving := false;
                          savedToHistory := false |};
                     localStorage := mkLocalStorage Absent None;
                     supabase := fun _ => mkResponse None None;
                     sent := [];
                     toasts := [];
                     route := None |})))
  = [Upload "u1/1700000000000.jpg" (mkFile "lunch.final.jpg");
     InsertMeal
       (MealAnalysis.mk "u1" "https://storage/u1/1700000000000.jpg"
                        (Num 480) (Num 30) (Num 40) (Num 10) [])].
Proof.
  pose proof (handleSaveToHistory_outcome
                (about_to_save
                   {| page :=
                        {| selectedImage := Some (mkFile "lunch.final.jpg");
                           isAnalyzing := false;
                           nutritionData :=
                             Some (NutritionResults.mkData
                                     (Num 480) (Num 30) (Num 40) (Num 10)
                                     None None);
                           user := Some (Calculator.mkUser "u1");
                           isSaving := false;
                           savedToHistory := false |};
                      localStorage := mkLocalStorage Absent None;
                      supabase := fun _ => mkResponse None None;
                      sent := [];
                      toasts := [];
                      route := None |})
                (meal_storage true) 1700000000000) as H.
  cbv zeta in H. destruct H as (_ & _ & _ & H).
  destruct (H (Calculator.mkUser "u1") (mkFile "lunch.final.jpg")
              (NutritionResults.mkData (Num 480) (Num 30) (Num 40) (Num 10)
                                       None None)
              eq_refl eq_refl eq_refl) as (_ & _ & _ & Hrow & _).
  destruct (Hrow (mkError "row violates policy") eq_refl eq_refl)
    as (Hops & _).
  exact Hops.
Defined.

Lemma analysed_meal_is_saved_witness :
  savedToHistory
    (index
       (page (run (handleSaveToHistory (meal_storage false) 1700000000000)
                  (about_to_save
                     (run (handleImageSelect (fun _ => "") (fun s => s)
                             (mkFile "meal.jpg")
                             (Answered true 200 (Parsed sample_output)))
                          {| page :=
                               {| selectedImage := None;
                                  isAnalyzing := false;
                                  nutritionData := None;
                                  user := Some (Calculator.mkUser "u1");
                                  isSaving := false;
                                  savedToHistory := false |};
                             localStorage := mkLocalStorage Absent None;
                             supabase := fun _ => mkResponse None None;
                             sent := [];
                             toasts := [];
                             route := None |})))))
  = true.
Proof.
  pose proof (analysed_meal_is_saved (fun _ => "") (fun s => s)
                {| page :=
                     {| selectedImage := None;
                        isAnalyzing := false;
                        nutritionData := None;
                        user := Some (Calculator.mkUser "u1");
                        isSaving := false;
                        savedToHistory := false |};
                   localStorage := mkLocalStorage Absent None;
                   supabase := fun _ => mkResponse None None;
                   sent := [];
                   toasts := [];
                   route := None |}
                (mkFile "meal.jpg")
                (Answered true 200 (Parsed sample_output))
                (meal_storage false) 1700000000000
                (Calculator.mkUser "u1") eq_refl) as H.
  cbv zeta in H. destruct H as (H & _).
  destruct (H 200%Z sample_output
              (NutritionResults.mkData
                 (Num 480) (Num 30) (Num 40) (Num 10) None
                 (Some [Json.obj [("name", Json.str "Rice")]]))
              eq_refl) as (row & food & _ & _ & _ & _ & _ & _ & _ & _ & Hs).
  - unfold analysed. do 8 eexists.
    repeat match goal with |- _ /\ _ => split end; reflexivity.
  - reflexivity.
  - apply (proj2 Hs). reflexivity.
Defined.

End SavingMeals.
